(** * System-facts collectors (sys-info-linux.py, sys-info-win.py)

    A shallow embedding of the two collector scripts.  Every probe reads
    ambient operating-system state; here that state is an explicit
    environment record, and a call that may raise returns a [result].
    Python's [dict] is a [gmap], [int] is [Z], [str] is [string] (one [ascii]
    per code point below 256), and a [float] is a binary64 value.  The
    interpreter is CPython 3.11 or later with its default settings, among
    them the limit of 4300 digits on conversions between [int] and
    [str]. *)

From Stdlib Require Import ZArith Ascii String List Bool Lia.
From Stdlib Require Import Decimal DecimalString DecimalPos.
From Stdlib Require Floats.SpecFloat.
From stdpp Require Import gmap strings.

Local Open Scope Z_scope.

(** ** The Python runtime the scripts rely on *)

Module Py.

(** *** Exceptions *)

Inductive exn_class :=
| OSError | FileNotFoundError | PermissionError
| ValueError | UnicodeDecodeError
| AttributeError | NotImplementedError
| IndexError | KeyError
| ImportError | OverflowError | ZeroDivisionError
| RuntimeError.

Record exn := Exn { exn_cls : exn_class; exn_msg : string }.

(** What an [except] clause names. [AnyException] is [except Exception]. *)
Inductive handler :=
| AnyException
| Class (c : exn_class).

Definition exn_class_eqb (a b : exn_class) : bool :=
  match a, b with
  | OSError, OSError | FileNotFoundError, FileNotFoundError
  | PermissionError, PermissionError | ValueError, ValueError
  | UnicodeDecodeError, UnicodeDecodeError
  | AttributeError, AttributeError
  | NotImplementedError, NotImplementedError
  | IndexError, IndexError | KeyError, KeyError
  | ImportError, ImportError | OverflowError, OverflowError
  | ZeroDivisionError, ZeroDivisionError
  | RuntimeError, RuntimeError => true
  | _, _ => false
  end.

(** The direct base class inside the part of the hierarchy used here. *)
Definition base_class (c : exn_class) : option exn_class :=
  match c with
  | FileNotFoundError | PermissionError => Some OSError
  | UnicodeDecodeError => Some ValueError
  | NotImplementedError => Some RuntimeError
  | _ => None
  end.

Definition is_subclass (c h : exn_class) : bool :=
  exn_class_eqb c h ||
  match base_class c with
  | Some b => exn_class_eqb b h
  | None => false
  end.

Definition handles (h : handler) (e : exn) : bool :=
  match h with
  | AnyException => true
  | Class c => is_subclass (exn_cls e) c
  end.

Definition caught (hs : list handler) (e : exn) : bool :=
  existsb (fun h => handles h e) hs.

Inductive result (A : Type) :=
| Ok (a : A)
| Raise (e : exn).
Arguments Ok {A} a.
Arguments Raise {A} e.

Definition bind {A B} (r : result A) (k : A -> result B) : result B :=
  match r with
  | Ok a => k a
  | Raise e => Raise e
  end.

Definition raise {A} (c : exn_class) (m : string) : result A :=
  Raise (Exn c m).

(** [try: r  except Exception: d] around an expression. *)
Definition catch_all {A} (r : result A) (d : A) : A :=
  match r with
  | Ok a => a
  | Raise _ => d
  end.

(** A list comprehension whose element expression may raise. *)
Fixpoint map_result {A B} (f : A -> result B) (l : list A) : result (list B) :=
  match l with
  | [] => Ok []
  | x :: l' =>
    bind (f x) (fun y => bind (map_result f l') (fun ys => Ok (y :: ys)))
  end.

(** [a, b = l] *)
Definition unpack2 {A} (l : list A) : result (A * A) :=
  match l with
  | [a; b] => Ok (a, b)
  | [] | [_] => raise ValueError "not enough values to unpack (expected 2)"
  | _ => raise ValueError "too many values to unpack (expected 2)"
  end.

(** *** Effects

    A computation with visible effects is a function from the events so far
    to the events after it and its outcome.  For the Linux script an event
    is the text of one [print] call (the runtime ends it with a newline);
    the Windows script also records the library calls it makes. *)
Definition io (E A : Type) : Type := list E -> list E * result A.

Definition io_ret {E A} (a : A) : io E A := fun tr => (tr, Ok a).

Definition io_bind {E A B} (m : io E A) (k : A -> io E B) : io E B :=
  fun tr =>
    match m tr with
    | (tr', Ok a) => k a tr'
    | (tr', Raise e) => (tr', Raise e)
    end.

Definition emit {E} (ev : E) : io E unit := fun tr => (tr ++ [ev], Ok tt).

Definition lift {E A} (r : result A) : io E A := fun tr => (tr, r).

(** [try: body  except (h1, ..., hn) as e: k e] *)
Definition try_except {E A} (body : io E A) (hs : list handler)
  (k : exn -> io E A) : io E A :=
  fun tr =>
    match body tr with
    | (tr', Raise e) => if caught hs e then k e tr' else (tr', Raise e)
    | r => r
    end.

(** [for x in l: body x] *)
Fixpoint for_each {E A} (l : list A) (body : A -> io E unit) : io E unit :=
  match l with
  | [] => io_ret tt
  | x :: l' => io_bind (body x) (fun _ => for_each l' body)
  end.

(** Running a script: the events it produced, and the exit status of the
    interpreter, which is 1 when an exception reaches the top level. *)
Definition run {E} (m : io E unit) : list E * Z :=
  match m [] with
  | (tr, Ok _) => (tr, 0)
  | (tr, Raise _) => (tr, 1)
  end.

(** *** Characters and strings *)

Definition nl : ascii := "010"%char.

Definition code (c : ascii) : N := N_of_ascii c.

(** [str.isspace] on the code points below 256. *)
Definition is_space (c : ascii) : bool :=
  let n := code c in
  ((9 <=? n) && (n <=? 13) || (28 <=? n) && (n <=? 32)
   || (n =? 133) || (n =? 160))%N.

Definition is_digit (c : ascii) : bool :=
  let n := code c in ((48 <=? n) && (n <=? 57))%N.

Definition digit_val (c : ascii) : Z := Z.of_N (code c) - 48.

(** [c in s] for a one-character [c]. *)
Fixpoint contains_char (c : ascii) (s : string) : bool :=
  match s with
  | EmptyString => false
  | String d s' => Ascii.eqb c d || contains_char c s'
  end.

(** [s.split(sep)] for a one-character separator. *)
Fixpoint split_char (sep : ascii) (s : string) : list string :=
  match s with
  | EmptyString => [EmptyString]
  | String c s' =>
    if Ascii.eqb c sep then EmptyString :: split_char sep s'
    else match split_char sep s' with
         | w :: ws => String c w :: ws
         | [] => [String c EmptyString]
         end
  end.

(** [s.split(sep, 1)]: one piece when [sep] does not occur, else the text
    before and after its first occurrence. *)
Fixpoint split_first (sep : ascii) (s : string) : list string :=
  match s with
  | EmptyString => [EmptyString]
  | String c s' =>
    if Ascii.eqb c sep then [EmptyString; s']
    else match split_first sep s' with
         | w :: ws => String c w :: ws
         | [] => [String c EmptyString]
         end
  end.

Fixpoint lstrip_by (p : ascii -> bool) (s : string) : string :=
  match s with
  | EmptyString => EmptyString
  | String c s' => if p c then lstrip_by p s' else s
  end.

Fixpoint rstrip_by (p : ascii -> bool) (s : string) : string :=
  match s with
  | EmptyString => EmptyString
  | String c s' =>
    match rstrip_by p s' with
    | EmptyString => if p c then EmptyString else String c EmptyString
    | r => String c r
    end
  end.

Definition strip_by (p : ascii -> bool) (s : string) : string :=
  rstrip_by p (lstrip_by p s).

(** [s.strip()] *)
Definition strip (s : string) : string := strip_by is_space s.

(** [s.strip(chars)] *)
Definition strip_chars (chars : string) (s : string) : string :=
  strip_by (fun c => contains_char c chars) s.

(** [s.split()]: the maximal runs of non-whitespace characters. *)
Fixpoint split_ws (s : string) : list string :=
  match s with
  | EmptyString => []
  | String c s' =>
    if is_space c then split_ws s'
    else let rest := split_ws s' in
         match s' with
         | String c' _ =>
           if is_space c' then String c EmptyString :: rest
           else match rest with
                | w :: ws => String c w :: ws
                | [] => [String c EmptyString]
                end
         | EmptyString => String c EmptyString :: rest
         end
  end.

(** Iterating a text file, and [readlines()]: the lines with their
    terminating newline kept.  The text is what Python's universal-newline
    decoding hands to the program. *)
Fixpoint readlines (s : string) : list string :=
  match s with
  | EmptyString => []
  | String c s' =>
    if Ascii.eqb c nl then String c EmptyString :: readlines s'
    else match readlines s' with
         | l :: ls => String c l :: ls
         | [] => [String c EmptyString]
         end
  end.

(** [s.startswith(p)] and [s.startswith((p1, ..., pn))] *)
Fixpoint startswith (p s : string) : bool :=
  match p, s with
  | EmptyString, _ => true
  | String a p', String b s' => Ascii.eqb a b && startswith p' s'
  | String _ _, EmptyString => false
  end.

Definition startswith_any (ps : list string) (s : string) : bool :=
  existsb (fun p => startswith p s) ps.

(** [sub in s] *)
Fixpoint contains (sub s : string) : bool :=
  startswith sub s ||
  match s with
  | EmptyString => false
  | String _ s' => contains sub s'
  end.

(** [x in l] for a list of strings *)
Definition in_list (x : string) (l : list string) : bool :=
  existsb (String.eqb x) l.

(** [s.lower()] on the code points below 256: the ASCII capitals and the
    Latin-1 capitals (all of 192..222 but the multiplication sign 215). *)
Definition lower_char (c : ascii) : ascii :=
  let n := code c in
  if ((65 <=? n) && (n <=? 90)
      || (192 <=? n) && (n <=? 222) && negb (n =? 215))%N
  then ascii_of_N (n + 32) else c.

Fixpoint lower (s : string) : string :=
  match s with
  | EmptyString => EmptyString
  | String c s' => String (lower_char c) (lower s')
  end.

(** [f"{s:w}"] for a string: left-aligned, padded with spaces to width w. *)
Fixpoint spaces (n : nat) : string :=
  match n with
  | O => EmptyString
  | S n' => String " "%char (spaces n')
  end.

Definition ljust (w : nat) (s : string) : string :=
  s +:+ spaces (w - String.length s).

(** [l[i]] for a list *)
Definition index {A} (l : list A) (i : nat) : result A :=
  match l !! i with
  | Some x => Ok x
  | None => raise IndexError "list index out of range"
  end.

(** *** Integers *)

(** The decimal numeral of [n]: what [str(n)] and [f"{n}"] give for an
    [int] within the digit limit below. *)
Definition str_of_int (n : Z) : string :=
  NilEmpty.string_of_int (Z.to_int n).

(** [sys.int_info.default_max_str_digits]: CPython, from 3.11 on, refuses
    to convert between [str] and [int] in base 10 beyond this number of
    digits. *)
Definition int_max_str_digits : nat := 4300.

(** [str(n)] and [f"{n}"] for an [int] that may be of any size: the numeral,
    or a [ValueError] when it has more digits than the limit.  The sign
    does not count. *)
Definition format_int (n : Z) : result string :=
  if (int_max_str_digits <? String.length (str_of_int (Z.abs n)))%nat
  then raise ValueError
         ("Exceeds the limit (4300 digits) for integer string conversion; "
          +:+ "use sys.set_int_max_str_digits() to increase the limit")
  else Ok (str_of_int n).

(** A digit group of a numeric literal: decimal digits, any two of them
    separated by at most one underscore.  Returns the value and the number
    of digits read. *)
Fixpoint digitpart (acc : Z) (cnt : nat) (after_digit : bool) (s : string)
  : option (Z * nat) :=
  match s with
  | EmptyString => if after_digit then Some (acc, cnt) else None
  | String c s' =>
    if is_digit c then digitpart (10 * acc + digit_val c) (S cnt) true s'
    else if Ascii.eqb c "_"%char then
      if after_digit then digitpart acc cnt false s' else None
    else None
  end.

(** A leading sign: whether it is a minus, and the rest. *)
Definition take_sign (s : string) : bool * string :=
  match s with
  | String c s' =>
    if Ascii.eqb c "-"%char then (true, s')
    else if Ascii.eqb c "+"%char then (false, s')
    else (false, s)
  | EmptyString => (false, s)
  end.

(** [int(s)] for a string, base 10.  A literal with more digits than the
    limit is refused, leading zeros counted and underscores not; the text
    of a literal that is both malformed and too long is the one CPython
    3.12 gives. *)
Definition int_of_str (s : string) : result Z :=
  let (neg, body) := take_sign (strip s) in
  match digitpart 0 0 false body with
  | Some (n, digits) =>
    if (int_max_str_digits <? digits)%nat
    then raise ValueError
           ("Exceeds the limit (4300 digits) for integer string conversion: "
            +:+ "value has " +:+ str_of_int (Z.of_nat digits) +:+ " digits; "
            +:+ "use sys.set_int_max_str_digits() to increase the limit")
    else Ok (if neg then - n else n)
  | None =>
    raise ValueError ("invalid literal for int() with base 10: '" +:+ s +:+ "'")
  end.

(** *** Floats

    A finite binary64 value is a whole multiple of [2^-1074] whose
    magnitude has at most 53 significant bits and is below [2^1024].
    [Fin neg k] is the value [(-1)^neg * k * 2^-1074]; so [Fin false 0] and
    [Fin true 0] are the two zeros. *)

Inductive float :=
| Fin (neg : bool) (k : Z)
| Inf (neg : bool)
| Nan.

Definition scale : Z := 2 ^ 1074.
Definition huge : Z := 2 ^ 2098.

(** The integer nearest to [p / q], ties to the even one ([0 <= p], [0 < q]). *)
Definition half_even (p q : Z) : Z :=
  let d := p / q in
  match 2 * (p mod q) ?= q with
  | Lt => d
  | Gt => d + 1
  | Eq => if Z.even d then d else d + 1
  end.

(** How many low bits a magnitude [n] (in units of [2^-1074]) has beyond
    the 53 a significand holds. *)
Definition excess (n : Z) : Z := Z.max 0 (Z.log2 n - 52).

(** Round-to-nearest-even of the rational [p / q] ([0 <= p], [0 < q]) to
    binary64 precision, the exponent unbounded above: the magnitude in
    units of [2^-1074]. *)
Definition nearest (p q : Z) : Z :=
  let t := p * scale in
  let s := excess (t / q) in
  half_even t (q * 2 ^ s) * 2 ^ s.

(** The correctly rounded value of [(-1)^neg * p / q]; an infinity when the
    rounded magnitude reaches [2^1024]. *)
Definition round_ratio (neg : bool) (p q : Z) : float :=
  let k := nearest p q in
  if k <? huge then Fin neg k else Inf neg.

(** [a / b] for two [int]s: the correctly rounded quotient. *)
Definition int_truediv (a b : Z) : result float :=
  if b =? 0 then raise ZeroDivisionError "division by zero"
  else
    match round_ratio (xorb (a <? 0) (b <? 0)) (Z.abs a) (Z.abs b) with
    | Inf _ =>
      raise OverflowError "integer division result too large for a float"
    | x => Ok x
    end.

(** The position of a float on the extended line, [None] for a NaN. *)
Definition position (x : float) : option Z :=
  match x with
  | Fin neg k => Some (if neg then - k else k)
  | Inf neg => Some (if neg then - huge else huge)
  | Nan => None
  end.

(** [x < y] and [x <= y] on floats. *)
Definition float_ltb (x y : float) : bool :=
  match position x, position y with
  | Some a, Some b => a <? b
  | _, _ => false
  end.

Definition float_leb (x y : float) : bool :=
  match position x, position y with
  | Some a, Some b => a <=? b
  | _, _ => false
  end.

(** [round(x, 1)]: the decimal with one fractional digit nearest to the
    exact value of [x] (ties to even), read back as a float. *)
Definition round1 (x : float) : result float :=
  match x with
  | Fin neg k =>
    match round_ratio neg (half_even (k * 10) scale) 10 with
    | Inf _ => raise OverflowError "rounded value too large to represent"
    | y => Ok y
    end
  | _ => Ok x
  end.

(** The float a decimal literal [(-1)^neg * d * 10^e] denotes. *)
Definition float_of_decimal (neg : bool) (d e : Z) : float :=
  if 0 <=? e then round_ratio neg (d * 10 ^ e) 1
  else round_ratio neg d (10 ^ (- e)).

Definition float_zero : float := Fin false 0.

(** [float(s)] for a string.  A literal is an optional sign, then [inf],
    [infinity] or [nan] in any case, or digit groups around an optional
    point with an optional exponent. *)
Fixpoint split_exponent (s : string) : string * option string :=
  match s with
  | EmptyString => (EmptyString, None)
  | String c s' =>
    if Ascii.eqb c "e"%char || Ascii.eqb c "E"%char then (EmptyString, Some s')
    else let (m, x) := split_exponent s' in (String c m, x)
  end.

Definition parse_mantissa (s : string) : option (Z * Z) :=
  match split_first "."%char s with
  | [ip] =>
    match digitpart 0 0 false ip with
    | Some (d, _) => Some (d, 0)
    | None => None
    end
  | [ip; EmptyString] =>
    match digitpart 0 0 false ip with
    | Some (d, _) => Some (d, 0)
    | None => None
    end
  | [EmptyString; fp] =>
    match digitpart 0 0 false fp with
    | Some (d, n) => Some (d, - Z.of_nat n)
    | None => None
    end
  | [ip; fp] =>
    match digitpart 0 0 false ip, digitpart 0 0 false fp with
    | Some (a, _), Some (b, n) => Some (a * 10 ^ Z.of_nat n + b, - Z.of_nat n)
    | _, _ => None
    end
  | _ => None
  end.

Definition parse_exponent (x : option string) : option Z :=
  match x with
  | None => Some 0
  | Some t =>
    let (neg, body) := take_sign t in
    match digitpart 0 0 false body with
    | Some (n, _) => Some (if neg then - n else n)
    | None => None
    end
  end.

Definition float_of_str (s : string) : result float :=
  let (neg, body) := take_sign (strip s) in
  let word := lower body in
  if String.eqb word "inf" || String.eqb word "infinity" then Ok (Inf neg)
  else if String.eqb word "nan" then Ok Nan
  else
    let (m, x) := split_exponent body in
    match parse_mantissa m, parse_exponent x with
    | Some (d, e1), Some e2 => Ok (float_of_decimal neg d (e1 + e2))
    | _, _ =>
      raise ValueError ("could not convert string to float: '" +:+ s +:+ "'")
    end.

(** Formatting.  [f"{x:.2f}"] prints the two-digit decimal nearest to the
    exact value, ties to even. *)
Definition sign_str (neg : bool) : string := if neg then "-" else "".

Definition two_digits (n : Z) : string :=
  if n <? 10 then "0" +:+ str_of_int n else str_of_int n.

Definition format_2f (x : float) : string :=
  match x with
  | Fin neg k =>
    let n := half_even (k * 100) scale in
    sign_str neg +:+ str_of_int (n / 100) +:+ "." +:+ two_digits (n mod 100)
  | Inf neg => sign_str neg +:+ "inf"
  | Nan => "nan"
  end.

(** [repr(x)], which is also [str(x)] and [f"{x}"]: the shortest decimal
    that reads back as [x], the one nearest to [x] among those. *)
Definition pow10_le (e k : Z) : bool :=
  if 0 <=? e then 10 ^ e * scale <=? k else scale <=? k * 10 ^ (- e).

(** The decimal exponent [e] with [10^e <= k * 2^-1074 < 10^(e+1)]. *)
Definition decimal_exponent (k : Z) : Z :=
  let e0 := (Z.log2 k - 1074) * 30103 / 100000 in
  if pow10_le (e0 + 2) k then e0 + 2
  else if pow10_le (e0 + 1) k then e0 + 1
  else if pow10_le e0 k then e0
  else if pow10_le (e0 - 1) k then e0 - 1
  else e0 - 2.

(** The two multiples of [10^u] around [k * 2^-1074], the nearer first. *)
Definition decimal_neighbours (k u : Z) : Z * Z :=
  let (p, q) := if 0 <=? u then (k, scale * 10 ^ u) else (k * 10 ^ (- u), scale) in
  let c := half_even p q in
  let fl := p / q in
  (c, if c =? fl then fl + 1 else fl).

Definition reads_back (k c u : Z) : bool :=
  match float_of_decimal false c u with
  | Fin _ k' => k' =? k
  | _ => false
  end.

Fixpoint shortest_digits (fuel : nat) (prec : Z) (k e10 : Z) : Z * Z :=
  let u := e10 - prec + 1 in
  let (c, c') := decimal_neighbours k u in
  match fuel with
  | O => (c, u)
  | S fuel' =>
    if reads_back k c u then (c, u)
    else if reads_back k c' u then (c', u)
    else shortest_digits fuel' (prec + 1) k e10
  end.

Fixpoint drop_zeros (fuel : nat) (c u : Z) : Z * Z :=
  match fuel with
  | O => (c, u)
  | S fuel' =>
    if (0 <? c) && (c mod 10 =? 0) then drop_zeros fuel' (c / 10) (u + 1)
    else (c, u)
  end.

Fixpoint zeros (n : nat) : string :=
  match n with
  | O => EmptyString
  | S n' => String "0"%char (zeros n')
  end.

Definition exponent_str (e : Z) : string :=
  "e" +:+ (if e <? 0 then "-" else "+") +:+ two_digits (Z.abs e).

Definition repr_digits (ds : string) (decpt : Z) : string :=
  let n := Z.of_nat (String.length ds) in
  if (decpt <=? -4) || (16 <? decpt) then
    match ds with
    | String d EmptyString => String d EmptyString +:+ exponent_str (decpt - 1)
    | String d rest => String d ("." +:+ rest) +:+ exponent_str (decpt - 1)
    | EmptyString => EmptyString
    end
  else if decpt <=? 0 then "0." +:+ zeros (Z.to_nat (- decpt)) +:+ ds
  else if n <=? decpt then ds +:+ zeros (Z.to_nat (decpt - n)) +:+ ".0"
  else String.substring 0 (Z.to_nat decpt) ds +:+ "." +:+
       String.substring (Z.to_nat decpt) (Z.to_nat (n - decpt)) ds.

Definition repr_float (x : float) : string :=
  match x with
  | Fin neg k =>
    if k =? 0 then sign_str neg +:+ "0.0"
    else
      let (c0, u0) := shortest_digits 16 1 k (decimal_exponent k) in
      let (c, u) := drop_zeros 17 c0 u0 in
      let ds := str_of_int c in
      sign_str neg +:+ repr_digits ds (u + Z.of_nat (String.length ds))
  | Inf neg => sign_str neg +:+ "inf"
  | Nan => "nan"
  end.

End Py.

Notation "x <- c1 ;; c2" := (Py.bind c1 (fun x => c2))
  (at level 100, c1 at next level, right associativity).
Notation "x <~ c1 ;; c2" := (Py.io_bind c1 (fun x => c2))
  (at level 100, c1 at next level, right associativity).
Notation "c1 ;;; c2" := (Py.io_bind c1 (fun _ => c2))
  (at level 100, right associativity).

(** ** sys-info-linux.py *)

Module Linux.
Import Py.

(** The fields of [os.statvfs] the script reads, unsigned counters. *)
Record statvfs_result := {
  f_frsize : N;
  f_blocks : N;
  f_bfree : N
}.

Record uname_result := {
  system : string;
  node : string;
  release : string;
  machine : string
}.

(** [psutil], when it can be imported: total and available memory, total
    and free swap, in bytes. *)
Record psutil_module := {
  virtual_memory : result (Z * Z);
  swap_memory : result (Z * Z)
}.

(** The ambient state one run of the script observes.  Opening and reading
    a file gives its text or raises. *)
Record env := {
  os_release_exists : bool;
  os_release : result string;
  lsb_release : result (Z * string);
  proc_meminfo : result string;
  proc_loadavg : result string;
  proc_mounts : result string;
  proc_swaps : result string;
  statvfs : string -> result statvfs_result;
  uname : uname_result;
  getuser : result string;
  import_psutil : result psutil_module;
  cpu_count : result (option Z)
}.

Definition print (s : string) : io string unit := emit s.

Definition quote : ascii := "034"%char.

Definition os_release_line (os_info : gmap string string) (line : string)
  : result (gmap string string) :=
  if contains_char "="%char line then
    kv <- unpack2 (split_first "="%char line) ;;
    let value := strip_chars (String quote EmptyString) (snd kv) in
    Ok (<[fst kv := value]> os_info)
  else Ok os_info.

Fixpoint os_release_lines (lines : list string) (os_info : gmap string string)
  : result (gmap string string) :=
  match lines with
  | [] => Ok os_info
  | line :: rest =>
    os_info' <- os_release_line os_info line ;;
    os_release_lines rest os_info'
  end.

(** The part of [get_os_info] that reads /etc/os-release: the name it
    returns, or [None] when control falls through to the fallback. *)
Definition os_release_name (e : env) : result (option string) :=
  if os_release_exists e then
    content <- os_release e ;;
    os_info <- os_release_lines (split_char nl content) ∅ ;;
    match os_info !! "PRETTY_NAME" with
    | Some pretty => Ok (Some pretty)
    | None =>
      match os_info !! "NAME", os_info !! "VERSION" with
      | Some name, Some version => Ok (Some (name +:+ " " +:+ version))
      | _, _ => Ok None
      end
    end
  else Ok None.

Definition lsb_release_name (e : env) : result (option string) :=
  r <- lsb_release e ;;
  if fst r =? 0 then
    description <- index (split_first ":"%char (snd r)) 1 ;;
    Ok (Some (strip description))
  else Ok None.

Definition get_os_info (e : env) : string :=
  let body :=
    found <- os_release_name e ;;
    match found with
    | Some s => Ok (Some s)
    | None => lsb_release_name e
    end in
  match catch_all body None with
  | Some s => s
  | None => "Unknown"
  end.

Definition meminfo_line (mem_info : gmap string Z) (line : string)
  : result (gmap string Z) :=
  if contains_char ":"%char line then
    kv <- unpack2 (split_first ":"%char line) ;;
    num_value <- index (split_ws (strip (snd kv))) 0 ;;
    n <- int_of_str num_value ;;
    Ok (<[strip (fst kv) := n]> mem_info)
  else Ok mem_info.

(** The loop of [get_memory_info]; an exception ends it and leaves the
    dictionary as filled so far. *)
Fixpoint meminfo_lines (lines : list string) (mem_info : gmap string Z)
  : gmap string Z :=
  match lines with
  | [] => mem_info
  | line :: rest =>
    match meminfo_line mem_info line with
    | Ok mem_info' => meminfo_lines rest mem_info'
    | Raise _ => mem_info
    end
  end.

Definition get_memory_info (e : env) : gmap string Z :=
  match proc_meminfo e with
  | Ok content => meminfo_lines (readlines content) ∅
  | Raise _ => ∅
  end.

Definition get_load_average (e : env) : list float :=
  catch_all
    (content <- proc_loadavg e ;;
     let load_avg := split_ws (strip content) in
     map_result float_of_str (firstn 3 load_avg))
    [float_zero; float_zero; float_zero].

Record drive := {
  mount_point : string;
  fs_type : string;
  total_gb : float;
  free_gb : float
}.

Definition special_fs : list string :=
  ["proc"; "sysfs"; "devtmpfs"; "devpts"; "tmpfs"; "cgroup";
   "securityfs"; "configfs"; "debugfs"; "tracefs"; "pstore";
   "efivarfs"; "mqueue"; "hugetlbfs"; "fusectl"; "fuse.gvfsd-fuse";
   "autofs"; "binfmt_misc"; "nsfs"; "bpf"; "iso9660"].

Definition virtual_devices : list string := ["/dev/loop"; "udev"; "none"].

(** The literal [0.1]. *)
Definition one_tenth : float := float_of_decimal false 1 (-1).

(** The inner [try] of [get_disk_info] for one mount point: the entry to
    append, or [None] when the size is below the threshold. *)
Definition disk_usage (e : env) (mount fs : string) : result (option drive) :=
  stat <- statvfs e mount ;;
  total <- int_truediv (Z.of_N (f_blocks stat * f_frsize stat)) (1024 ^ 3) ;;
  free <- int_truediv (Z.of_N (f_bfree stat * f_frsize stat)) (1024 ^ 3) ;;
  if float_ltb total one_tenth then Ok None
  else
    total1 <- round1 total ;;
    free1 <- round1 free ;;
    Ok (Some {| mount_point := mount; fs_type := fs;
                total_gb := total1; free_gb := free1 |}).

(** One turn of the loop of [get_disk_info]: what the line adds to
    [drives]. *)
Definition disk_entry (e : env) (line : string) : option drive :=
  match split_ws line with
  | device :: mount :: fs :: options :: _ =>
    if in_list fs special_fs then None
    else if startswith_any virtual_devices device then None
    else catch_all (disk_usage e mount fs) None
  | _ => None
  end.

Definition get_disk_info (e : env) : list drive :=
  match proc_mounts e with
  | Ok content => omap (disk_entry e) (readlines content)
  | Raise _ => []
  end.

Definition swap_line (total_swap : Z) (line : string) : result Z :=
  match split_ws line with
  | _ :: _ :: size :: _ :: _ =>
    n <- int_of_str size ;;
    Ok (total_swap + n)
  | _ => Ok total_swap
  end.

Fixpoint swap_lines (lines : list string) (total_swap : Z) : result Z :=
  match lines with
  | [] => Ok total_swap
  | line :: rest =>
    total_swap' <- swap_line total_swap line ;;
    swap_lines rest total_swap'
  end.

Definition get_swap_info (e : env) : Z * Z :=
  catch_all
    (content <- proc_swaps e ;;
     total_swap <- swap_lines (tail (readlines content)) 0 ;;
     let mem_info := get_memory_info e in
     Ok (total_swap, default 0 (mem_info !! "SwapFree")))
    (0, 0).

(** [str(x)] for the value of [os.cpu_count()]. *)
Definition format_count (n : option Z) : result string :=
  match n with
  | Some k => format_int k
  | None => Ok "None"
  end.

(** The f-strings of [main] format their integers from left to right, and
    [print] is called once the whole line is made: an integer too long to
    format raises before anything of the line is written. *)
Definition print_ram (e : env) (mem_info : gmap string Z) : io string unit :=
  let mem_total := default 0 (mem_info !! "MemTotal") in
  let mem_available :=
    default (default 0 (mem_info !! "MemFree")) (mem_info !! "MemAvailable") in
  if 0 <? mem_total then
    free <~ lift (format_int (mem_available / 1024)) ;;
    total <~ lift (format_int (mem_total / 1024)) ;;
    print ("RAM: " +:+ free +:+ "MB free / " +:+ total +:+ "MB total")
  else
    try_except
      (psutil <~ lift (import_psutil e) ;;
       memory <~ lift (virtual_memory psutil) ;;
       free <~ lift (format_int (snd memory / 1024 ^ 2)) ;;
       total <~ lift (format_int (fst memory / 1024 ^ 2)) ;;
       print ("RAM: " +:+ free +:+ "MB free / " +:+ total +:+ "MB total"))
      [Class ImportError]
      (fun _ => print "RAM: Information not available").

Definition print_swap (e : env) : io string unit :=
  let (swap_total, swap_free) := get_swap_info e in
  if 0 <? swap_total then
    total <~ lift (format_int (swap_total / 1024)) ;;
    free <~ lift (format_int (swap_free / 1024)) ;;
    print ("Swap: " +:+ total +:+ "MB total / " +:+ free +:+ "MB free")
  else
    try_except
      (psutil <~ lift (import_psutil e) ;;
       swap <~ lift (swap_memory psutil) ;;
       total <~ lift (format_int (fst swap / 1024 ^ 2)) ;;
       free <~ lift (format_int (snd swap / 1024 ^ 2)) ;;
       print ("Swap: " +:+ total +:+ "MB total / " +:+ free +:+ "MB free"))
      [Class ImportError]
      (fun _ => print "Swap: Information not available").

Definition print_virtual_memory (mem_info : gmap string Z) : io string unit :=
  let vmalloc_total := default 0 (mem_info !! "VmallocTotal") in
  if 0 <? vmalloc_total then
    total <~ lift (format_int (vmalloc_total / 1024)) ;;
    print ("Virtual memory: " +:+ total +:+ " MB")
  else print "Virtual memory: information not available".

Definition print_processors (e : env) : io string unit :=
  try_except
    (processors <~ lift (cpu_count e) ;;
     count <~ lift (format_count processors) ;;
     print ("Processors: " +:+ count))
    [AnyException]
    (fun _ => print "Processors: Information not available").

Definition print_load_average (load_avg : list float) : io string unit :=
  a <~ lift (index load_avg 0) ;;
  b <~ lift (index load_avg 1) ;;
  c <~ lift (index load_avg 2) ;;
  print ("Load average: " +:+ format_2f a +:+ ", " +:+ format_2f b
         +:+ ", " +:+ format_2f c).

Definition print_drive (d : drive) : io string unit :=
  print ("  " +:+ ljust 10 (mount_point d) +:+ " " +:+ ljust 8 (fs_type d)
         +:+ " " +:+ repr_float (free_gb d) +:+ "GB free / "
         +:+ repr_float (total_gb d) +:+ "GB total").

Definition main (e : env) : io string unit :=
  let uname := uname e in
  let mem_info := get_memory_info e in
  let load_avg := get_load_average e in
  let os_info := get_os_info e in
  print ("OS: " +:+ os_info) ;;;
  print ("Kernel: " +:+ system uname +:+ " " +:+ release uname) ;;;
  print ("Architecture: " +:+ machine uname) ;;;
  print ("Hostname: " +:+ node uname) ;;;
  (user <~ lift (getuser e) ;;
   print ("User: " +:+ user)) ;;;
  print_ram e mem_info ;;;
  print_swap e ;;;
  print_virtual_memory mem_info ;;;
  print_processors e ;;;
  print_load_average load_avg ;;;
  let drives := get_disk_info e in
  print "Drives:" ;;;
  match drives with
  | [] => print "  No drives found"
  | _ => for_each drives print_drive
  end.

End Linux.

(** ** sys-info-win.py *)

Module Windows.
Import Py.

(** The library calls the script makes. *)
Inductive call :=
| PlatformSystem
| PlatformVersion
| PlatformRelease
| GetHostName
| GetLogin
| PlatformMachine
| VirtualMemory
| SwapMemory
| PsutilCpuCount
| OsCpuCount
| DiskPartitions
| DiskUsage (mountpoint : string).

Inductive event :=
| Called (c : call)
| Printed (s : string).

(** [psutil.virtual_memory()], [psutil.swap_memory()],
    an element of [psutil.disk_partitions()] and [psutil.disk_usage(p)]. *)
Record svmem := { vm_total : Z; vm_available : Z; vm_percent : float }.
Record sswap := { sw_total : Z; sw_used : Z }.
Record sdiskpart := {
  device : string;
  mountpoint : string;
  fstype : string;
  opts : string
}.
Record sdiskusage := { du_total : Z; du_free : Z }.

(** The ambient state one run of the script observes. *)
Record env := {
  platform_system : result string;
  platform_version : result string;
  platform_release : result string;
  gethostname : result string;
  getlogin : result string;
  platform_machine : result string;
  virtual_memory : result svmem;
  swap_memory : result sswap;
  psutil_cpu_count : result (option Z);
  os_cpu_count : result (option Z);
  disk_partitions : result (list sdiskpart);
  disk_usage : string -> result sdiskusage
}.

Definition print (s : string) : io event unit := emit (Printed s).

(** Making a library call: it is recorded, then returns or raises. *)
Definition calling {A} (c : call) (r : result A) : io event A :=
  emit (Called c) ;;; lift r.

Definition version_map : list (string * string) :=
  [("10", "Windows 10 or Greater");
   ("8", "Windows 8");
   ("7", "Windows 7");
   ("vista", "Windows Vista")].

(** The [for key, value in version_map.items()] loop: the value of the first
    entry, in insertion order, whose key occurs in the lowered release. *)
Fixpoint lookup_release (table : list (string * string)) (release : string)
  : option string :=
  match table with
  | [] => None
  | (key, value) :: rest =>
    if contains key (lower release) then Some value
    else lookup_release rest release
  end.

Definition get_windows_version (e : env) : io event string :=
  try_except
    (system <~ calling PlatformSystem (platform_system e) ;;
     if String.eqb system "Windows" then
       version <~ calling PlatformVersion (platform_version e) ;;
       release <~ calling PlatformRelease (platform_release e) ;;
       match lookup_release version_map release with
       | Some value => io_ret value
       | None =>
         io_ret ("Windows " +:+ release +:+ " (" +:+ version +:+ ")")
       end
     else io_ret "Not Windows")
    [Class OSError; Class ValueError; Class AttributeError]
    (fun ex => io_ret ("Unknown (Error: " +:+ exn_msg ex +:+ ")")).

(** [socket.error] is [OSError]. *)
Definition get_computer_name (e : env) : io event string :=
  try_except (calling GetHostName (gethostname e))
    [Class OSError; Class OSError]
    (fun _ => io_ret "Unknown").

Definition get_username (e : env) : io event string :=
  try_except (calling GetLogin (getlogin e))
    [Class OSError; Class FileNotFoundError; Class PermissionError]
    (fun _ => io_ret "Unknown").

Definition get_processor_architecture (e : env) : io event string :=
  try_except (calling PlatformMachine (platform_machine e))
    [Class AttributeError; Class OSError]
    (fun _ => io_ret "Unknown").

(** The memory load is [memory.percent], a float, or the integer 0 of the
    error path. *)
Inductive number :=
| Int (n : Z)
| Float (x : float).

Definition str_of_number (v : number) : string :=
  match v with
  | Int n => str_of_int n
  | Float x => repr_float x
  end.

Definition get_memory_info (e : env) : io event (Z * Z * number) :=
  try_except
    (memory <~ calling VirtualMemory (virtual_memory e) ;;
     let total_phys_mb := vm_total memory / (1024 * 1024) in
     let avail_phys_mb := vm_available memory / (1024 * 1024) in
     let memory_load := vm_percent memory in
     io_ret (total_phys_mb, avail_phys_mb, Float memory_load))
    [Class OSError; Class AttributeError; Class NotImplementedError]
    (fun ex =>
       print ("Error getting memory info: " +:+ exn_msg ex) ;;;
       io_ret (0, 0, Int 0)).

Definition get_pagefile_info (e : env) : io event (Z * Z) :=
  try_except
    (swap <~ calling SwapMemory (swap_memory e) ;;
     let used_mb := sw_used swap / (1024 * 1024) in
     let total_mb := sw_total swap / (1024 * 1024) in
     io_ret (used_mb, total_mb))
    [Class OSError; Class AttributeError; Class NotImplementedError]
    (fun ex =>
       print ("Error getting pagefile info: " +:+ exn_msg ex) ;;;
       io_ret (0, 0)).

(** [n or 0] for a count that may be [None]. *)
Definition or_zero (n : option Z) : Z :=
  match n with
  | Some k => k
  | None => 0
  end.

Definition get_processor_count (e : env) : io event Z :=
  try_except
    (n <~ calling PsutilCpuCount (psutil_cpu_count e) ;;
     io_ret (or_zero n))
    [Class OSError; Class AttributeError; Class NotImplementedError]
    (fun _ =>
       try_except
         (n <~ calling OsCpuCount (os_cpu_count e) ;;
          io_ret (or_zero n))
         [Class OSError; Class AttributeError]
         (fun _ => io_ret 0)).

Record drive := {
  drive_name : string;
  fs_type : string;
  total_gb : Z;
  free_gb : Z
}.

(** The loop of [get_drives_info].  It appends to [drives] in place, so
    the list survives an exception that leaves the loop: the loop gives
    the list as it stands and the exception that ended it, if any. *)
Fixpoint drives_loop (e : env) (partitions : list sdiskpart)
  (drives : list drive) : io event (list drive * option exn) :=
  match partitions with
  | [] => io_ret (drives, None)
  | partition :: rest =>
    if contains "cdrom" (opts partition) || String.eqb (device partition) ""
    then drives_loop e rest drives
    else
      fun tr =>
        match calling (DiskUsage (mountpoint partition))
                (disk_usage e (mountpoint partition)) tr with
        | (tr', Ok usage) =>
          let total := du_total usage / 1024 ^ 3 in
          let free := du_free usage / 1024 ^ 3 in
          drives_loop e rest
            (drives ++ [{| drive_name := device partition;
                           fs_type := fstype partition;
                           total_gb := total;
                           free_gb := free |}]) tr'
        | (tr', Raise ex) =>
          if caught [Class OSError; Class PermissionError;
                     Class FileNotFoundError] ex
          then (print ("Error reading drive " +:+ device partition +:+ ": "
                       +:+ exn_msg ex) ;;;
                drives_loop e rest drives) tr'
          else (tr', Ok (drives, Some ex))
        end
  end.

Definition get_drives_info (e : env) : io event (list drive) :=
  let outer (drives : list drive) (ex : exn) : io event (list drive) :=
    if caught [Class OSError; Class AttributeError] ex then
      print ("Error getting drives info: " +:+ exn_msg ex) ;;;
      io_ret drives
    else lift (Raise ex) in
  fun tr =>
    match calling DiskPartitions (disk_partitions e) tr with
    | (tr', Ok partitions) =>
      (left <~ drives_loop e partitions [] ;;
       match left with
       | (drives, None) => io_ret drives
       | (drives, Some ex) => outer drives ex
       end) tr'
    | (tr', Raise ex) => outer [] ex tr'
    end.

Definition get_virtual_memory_size (e : env) : io event Z :=
  try_except
    (memory <~ calling VirtualMemory (virtual_memory e) ;;
     swap <~ calling SwapMemory (swap_memory e) ;;
     let total_virtual_mb :=
       (vm_total memory + sw_total swap) / (1024 * 1024) in
     io_ret total_virtual_mb)
    [Class OSError; Class AttributeError; Class NotImplementedError]
    (fun _ => io_ret 0).

(** The integers of this report are the counters of psutil and of
    [os.cpu_count()], machine integers, and figures derived from them:
    their numerals stay far below the digit limit of [str], and the
    f-strings format them with [str_of_int]. *)
Definition print_drive (d : drive) : io event unit :=
  print ("  - " +:+ drive_name d +:+ "  (" +:+ fs_type d +:+ "): "
         +:+ str_of_int (free_gb d) +:+ " GB free / "
         +:+ str_of_int (total_gb d) +:+ " GB total").

Definition main (e : env) : io event unit :=
  windows_version <~ get_windows_version e ;;
  computer_name <~ get_computer_name e ;;
  username <~ get_username e ;;
  architecture <~ get_processor_architecture e ;;
  mem <~ get_memory_info e ;;
  let '(total_phys_mb, avail_phys_mb, memory_load) := mem in
  let used_phys_mb := total_phys_mb - avail_phys_mb in
  pagefile <~ get_pagefile_info e ;;
  let (pagefile_used, pagefile_total) := pagefile in
  processor_count <~ get_processor_count e ;;
  virtual_memory_mb <~ get_virtual_memory_size e ;;
  drives <~ get_drives_info e ;;
  print ("OS: " +:+ windows_version) ;;;
  print ("Computer Name: " +:+ computer_name) ;;;
  print ("User: " +:+ username) ;;;
  print ("Architecture: " +:+ architecture) ;;;
  print ("RAM: " +:+ str_of_int used_phys_mb +:+ "MB / "
         +:+ str_of_int total_phys_mb +:+ "MB") ;;;
  print ("Virtual Memory: " +:+ str_of_int virtual_memory_mb +:+ "MB") ;;;
  print ("Memory Load: " +:+ str_of_number memory_load +:+ "%") ;;;
  print ("Pagefile: " +:+ str_of_int pagefile_used +:+ "MB / "
         +:+ str_of_int pagefile_total +:+ "MB") ;;;
  print (String nl ("Processors: " +:+ str_of_int processor_count)) ;;;
  print "Drives:" ;;;
  match drives with
  | [] => print "  No drives found"
  | _ => for_each drives print_drive
  end.

End Windows.

(** ** Vocabulary of the properties *)

(** [m] keeps an invariant of the events: if all earlier events satisfy
    [P], so do all events after [m] has run. *)
Definition keeps {E A} (P : E -> Prop) (m : Py.io E A) : Prop :=
  forall tr, Forall P tr -> Forall P (fst (m tr)).

(** [m] only appends to the trace. *)
Definition appends {E A} (m : Py.io E A) : Prop :=
  forall tr, exists more, fst (m tr) = tr ++ more.

(** A decimal numeral: an optional minus sign and then one or more decimal
    digits. *)
Fixpoint all_digits (s : string) : bool :=
  match s with
  | EmptyString => true
  | String c s' => Py.is_digit c && all_digits s'
  end.

Definition is_numeral (s : string) : bool :=
  match s with
  | EmptyString => false
  | String c s' =>
    if Ascii.eqb c "-"%char
    then negb (String.eqb s' "") && all_digits s'
    else all_digits s
  end.

(** The number a decimal numeral denotes, read after the digits that
    made [acc]. *)
Fixpoint uint_value (d : Decimal.uint) (acc : Z) : Z :=
  match d with
  | Decimal.Nil => acc
  | Decimal.D0 d' => uint_value d' (10 * acc)
  | Decimal.D1 d' => uint_value d' (10 * acc + 1)
  | Decimal.D2 d' => uint_value d' (10 * acc + 2)
  | Decimal.D3 d' => uint_value d' (10 * acc + 3)
  | Decimal.D4 d' => uint_value d' (10 * acc + 4)
  | Decimal.D5 d' => uint_value d' (10 * acc + 5)
  | Decimal.D6 d' => uint_value d' (10 * acc + 6)
  | Decimal.D7 d' => uint_value d' (10 * acc + 7)
  | Decimal.D8 d' => uint_value d' (10 * acc + 8)
  | Decimal.D9 d' => uint_value d' (10 * acc + 9)
  end.

(** [n] has no more decimal digits than [int] and [str] convert. *)
Definition within_digit_limit (n : Z) : Prop :=
  Z.abs n < 10 ^ Z.of_nat Py.int_max_str_digits.

(** The sum of the third column over all the given lines, as the
    specification words it: every line that has a third field counts. *)
Definition third_column_sum (lines : list string) : Z :=
  fold_right
    (fun line acc =>
       match Py.split_ws line !! 2%nat with
       | Some size =>
         match Py.int_of_str size with
         | Py.Ok n => n + acc
         | Py.Raise _ => acc
         end
       | None => acc
       end)
    0 lines.

(** The lines the swap probe counts: those with at least four fields. *)
Definition has_four_fields (line : string) : bool :=
  (4 <=? length (Py.split_ws line))%nat.

(** [n] is the integer in the third field of [line]. *)
Definition third_field_is (line : string) (n : Z) : Prop :=
  exists size, Py.split_ws line !! 2%nat = Some size /\
               Py.int_of_str size = Py.Ok n.

Definition sum_Z (l : list Z) : Z := fold_right Z.add 0 l.

(** Lines joined by newlines, the text [content.split] takes apart. *)
Fixpoint join_lines (lines : list string) : string :=
  match lines with
  | [] => EmptyString
  | [l] => l
  | l :: ls => l +:+ String Py.nl (join_lines ls)
  end.

Definition no_newline (s : string) : Prop :=
  Py.contains_char Py.nl s = false.

(** The rest of [s] after the prefix [p], when [s] starts with [p]. *)
Fixpoint strip_prefix (p s : string) : option string :=
  match p, s with
  | EmptyString, _ => Some s
  | String a p', String b s' =>
    if Ascii.eqb a b then strip_prefix p' s' else None
  | String _ _, EmptyString => None
  end.

(** The text after [key=] on the last of the lines that begin with
    [key=]. *)
Fixpoint last_assignment (key : string) (lines : list string)
  : option string :=
  match lines with
  | [] => None
  | l :: ls =>
    match last_assignment key ls with
    | Some v => Some v
    | None => strip_prefix (key +:+ "=") l
    end
  end.

Definition first_char (s : string) : option ascii :=
  match s with
  | String c _ => Some c
  | EmptyString => None
  end.

Fixpoint last_char (s : string) : option ascii :=
  match s with
  | EmptyString => None
  | String c EmptyString => Some c
  | String _ s' => last_char s'
  end.

(** [v] neither starts nor ends with a double quote. *)
Definition unquoted (v : string) : Prop :=
  first_char v <> Some Linux.quote /\ last_char v <> Some Linux.quote.

(** [v] between double quotes. *)
Definition quoted (v : string) : string :=
  String Linux.quote (v +:+ String Linux.quote EmptyString).

(** The character test of [value.strip] with a double quote. *)
Definition is_quote (c : ascii) : bool :=
  Py.contains_char c (String Linux.quote EmptyString).

(** What is printed on a line that starts with "Virtual Memory". *)
Definition virtual_memory_line (ev : Windows.event) : Prop :=
  match ev with
  | Windows.Printed s =>
    Py.startswith "Virtual Memory" s = true ->
    exists n, s = "Virtual Memory: " +:+ Py.str_of_int n +:+ "MB" /\
              is_numeral (Py.str_of_int n) = true
  | Windows.Called _ => True
  end.

(** The line that shows [n] megabytes of virtual memory. *)
Definition virtual_memory_report (n : Z) : string :=
  "Virtual Memory: " +:+ Py.str_of_int n +:+ "MB".

(** No line that starts with "Virtual Memory", and no such line but the
    one that shows [n]. *)
Definition not_virtual_memory (ev : Windows.event) : Prop :=
  match ev with
  | Windows.Printed s => Py.startswith "Virtual Memory" s = false
  | Windows.Called _ => True
  end.

Definition virtual_memory_shows (n : Z) (ev : Windows.event) : Prop :=
  match ev with
  | Windows.Printed s =>
    Py.startswith "Virtual Memory" s = true -> s = virtual_memory_report n
  | Windows.Called _ => True
  end.

(** A float as the Standard Library's specification of IEEE 754 binary64
    has it, and the quotient of two positive integers there. *)
Definition to_spec (x : Py.float) : SpecFloat.spec_float :=
  match x with
  | Py.Fin neg k =>
    SpecFloat.binary_normalize 53 1024 (if neg then - k else k) (-1074) neg
  | Py.Inf neg => SpecFloat.S754_infinity neg
  | Py.Nan => SpecFloat.S754_nan
  end.

Definition spec_quotient (p q : positive) : SpecFloat.spec_float :=
  SpecFloat.SFdiv 53 1024
    (SpecFloat.S754_finite false p 0) (SpecFloat.S754_finite false q 0).

(** Quotients to try: ties, subnormal results, and the overflow
    threshold among them. *)
Definition sample_quotients : list (positive * positive) :=
  [(1, 10); (1, 3); (2, 3); (229, 10);
   (53687091200, 1073741824); (107374182, 1073741824);
   (9007199254740993, 1); (9007199254740993, 3);
   (1, 10 ^ 320); (7, 10 ^ 323); (3, 2 ^ 1075);
   (10 ^ 308, 1); (10 ^ 309, 1);
   (2 ^ 1024 - 2 ^ 970, 1); (2 ^ 1024 - 2 ^ 970 - 1, 1)]%positive.

(** The float 50.0. *)
Definition fifty : Py.float := Py.float_of_decimal false 50 0.

(** Environments the properties are tried on. *)
Module Samples.
Import Py.

(** A Windows host on which [psutil] cannot tell the number of physical
    cores (it returns [None]) while [os.cpu_count()] would answer 8. *)
Definition windows_host : Windows.env := {|
  Windows.platform_system := Ok "Windows";
  Windows.platform_version := Ok "10.0.19045";
  Windows.platform_release := Ok "10";
  Windows.gethostname := Ok "PC";
  Windows.getlogin := Ok "alice";
  Windows.platform_machine := Ok "AMD64";
  Windows.virtual_memory :=
    Ok {| Windows.vm_total := 17179869184;
          Windows.vm_available := 8589934592;
          Windows.vm_percent := float_of_decimal false 50 0 |};
  Windows.swap_memory :=
    Ok {| Windows.sw_total := 2147483648; Windows.sw_used := 1048576 |};
  Windows.psutil_cpu_count := Ok None;
  Windows.os_cpu_count := Ok (Some 8);
  Windows.disk_partitions := Ok [];
  Windows.disk_usage := fun _ => raise PermissionError "access denied"
|}.

(** The same host with another release and version. *)
Definition windows_release (release version : string) : Windows.env := {|
  Windows.platform_system := Ok "Windows";
  Windows.platform_version := Ok version;
  Windows.platform_release := Ok release;
  Windows.gethostname := Windows.gethostname windows_host;
  Windows.getlogin := Windows.getlogin windows_host;
  Windows.platform_machine := Windows.platform_machine windows_host;
  Windows.virtual_memory := Windows.virtual_memory windows_host;
  Windows.swap_memory := Windows.swap_memory windows_host;
  Windows.psutil_cpu_count := Windows.psutil_cpu_count windows_host;
  Windows.os_cpu_count := Windows.os_cpu_count windows_host;
  Windows.disk_partitions := Windows.disk_partitions windows_host;
  Windows.disk_usage := Windows.disk_usage windows_host
|}.

(** A host that is not Windows. *)
Definition linux_platform : Windows.env := {|
  Windows.platform_system := Ok "Linux";
  Windows.platform_version := Ok "#1 SMP";
  Windows.platform_release := Ok "6.1.0";
  Windows.gethostname := Ok "host";
  Windows.getlogin := Ok "alice";
  Windows.platform_machine := Ok "x86_64";
  Windows.virtual_memory := Windows.virtual_memory windows_host;
  Windows.swap_memory := Windows.swap_memory windows_host;
  Windows.psutil_cpu_count := Ok (Some 4);
  Windows.os_cpu_count := Ok (Some 8);
  Windows.disk_partitions := Ok [];
  Windows.disk_usage := Windows.disk_usage windows_host
|}.

(** The same host when [platform.system()] fails. *)
Definition windows_broken_platform : Windows.env := {|
  Windows.platform_system := raise OSError "platform unavailable";
  Windows.platform_version := Windows.platform_version windows_host;
  Windows.platform_release := Windows.platform_release windows_host;
  Windows.gethostname := Windows.gethostname windows_host;
  Windows.getlogin := Windows.getlogin windows_host;
  Windows.platform_machine := Windows.platform_machine windows_host;
  Windows.virtual_memory := raise OSError "no memory counters";
  Windows.swap_memory := Windows.swap_memory windows_host;
  Windows.psutil_cpu_count := Windows.psutil_cpu_count windows_host;
  Windows.os_cpu_count := Windows.os_cpu_count windows_host;
  Windows.disk_partitions := Windows.disk_partitions windows_host;
  Windows.disk_usage := Windows.disk_usage windows_host
|}.

(** The same host when [psutil.swap_memory()] fails with an error that is
    none of those the probes name. *)
Definition windows_swap_runtime_error : Windows.env := {|
  Windows.platform_system := Windows.platform_system windows_host;
  Windows.platform_version := Windows.platform_version windows_host;
  Windows.platform_release := Windows.platform_release windows_host;
  Windows.gethostname := Windows.gethostname windows_host;
  Windows.getlogin := Windows.getlogin windows_host;
  Windows.platform_machine := Windows.platform_machine windows_host;
  Windows.virtual_memory := Windows.virtual_memory windows_host;
  Windows.swap_memory := raise RuntimeError "swap counters unavailable";
  Windows.psutil_cpu_count := Windows.psutil_cpu_count windows_host;
  Windows.os_cpu_count := Windows.os_cpu_count windows_host;
  Windows.disk_partitions := Windows.disk_partitions windows_host;
  Windows.disk_usage := Windows.disk_usage windows_host
|}.

(** Lines of text, each ended by a newline. *)
Fixpoint unlines (lines : list string) : string :=
  match lines with
  | [] => EmptyString
  | l :: ls => l +:+ String nl (unlines ls)
  end.

(** A Linux host.  Its mount table has a root file system of 50 GB, a
    tmpfs, a loop device carrying an ext4 image of 50 GB, and a small
    EFI partition. *)
Definition linux_statvfs (mount : string) : result Linux.statvfs_result :=
  if String.eqb mount "/" then
    Ok {| Linux.f_frsize := 4096; Linux.f_blocks := 13107200;
          Linux.f_bfree := 6000000 |}%N
  else if String.eqb mount "/mnt/image" then
    Ok {| Linux.f_frsize := 4096; Linux.f_blocks := 13107200;
          Linux.f_bfree := 13107200 |}%N
  else if String.eqb mount "/boot/efi" then
    Ok {| Linux.f_frsize := 4096; Linux.f_blocks := 13107;
          Linux.f_bfree := 6000 |}%N
  else if String.eqb mount "/run" then
    Ok {| Linux.f_frsize := 4096; Linux.f_blocks := 13107200;
          Linux.f_bfree := 13107200 |}%N
  else raise FileNotFoundError "No such file or directory".

(** The mount-table lines of [linux_host]. *)
Definition root_line : string := "/dev/sda1 / ext4 rw,relatime 0 0".
Definition tmpfs_line : string := "tmpfs /run tmpfs rw,nosuid 0 0".
Definition loop_line : string := "/dev/loop0 /mnt/image ext4 rw 0 0".
Definition efi_line : string := "/dev/sda2 /boot/efi vfat rw 0 0".

Definition linux_host : Linux.env := {|
  Linux.os_release_exists := true;
  Linux.os_release := Ok (unlines ["NAME=Foo"; "VERSION=1"]);
  Linux.lsb_release := raise FileNotFoundError "lsb_release";
  Linux.proc_meminfo :=
    Ok (unlines ["MemTotal:       16000000 kB";
                 "MemFree:         1000000 kB";
                 "MemAvailable:    8000000 kB";
                 "SwapFree:        2048000 kB"]);
  Linux.proc_loadavg := Ok (unlines ["0.10 0.20 0.30 1/200 1234"]);
  Linux.proc_mounts :=
    Ok (unlines [root_line; tmpfs_line; loop_line; efi_line]);
  Linux.proc_swaps :=
    Ok (unlines ["Filename Type Size Used Priority";
                 "/dev/sda3 partition 2097148 0 -2";
                 "/swapfile file 1048576 10 -3"]);
  Linux.statvfs := linux_statvfs;
  Linux.uname := {| Linux.system := "Linux"; Linux.node := "host";
                    Linux.release := "6.1.0"; Linux.machine := "x86_64" |};
  Linux.getuser := Ok "alice";
  Linux.import_psutil := raise ImportError "No module named psutil";
  Linux.cpu_count := Ok (Some 8)
|}.

(** The same host with other contents of single sources. *)
Definition with_loadavg (e : Linux.env) (r : result string) : Linux.env := {|
  Linux.os_release_exists := Linux.os_release_exists e;
  Linux.os_release := Linux.os_release e;
  Linux.lsb_release := Linux.lsb_release e;
  Linux.proc_meminfo := Linux.proc_meminfo e;
  Linux.proc_loadavg := r;
  Linux.proc_mounts := Linux.proc_mounts e;
  Linux.proc_swaps := Linux.proc_swaps e;
  Linux.statvfs := Linux.statvfs e;
  Linux.uname := Linux.uname e;
  Linux.getuser := Linux.getuser e;
  Linux.import_psutil := Linux.import_psutil e;
  Linux.cpu_count := Linux.cpu_count e
|}.

Definition with_swaps (e : Linux.env) (r : result string) : Linux.env := {|
  Linux.os_release_exists := Linux.os_release_exists e;
  Linux.os_release := Linux.os_release e;
  Linux.lsb_release := Linux.lsb_release e;
  Linux.proc_meminfo := Linux.proc_meminfo e;
  Linux.proc_loadavg := Linux.proc_loadavg e;
  Linux.proc_mounts := Linux.proc_mounts e;
  Linux.proc_swaps := r;
  Linux.statvfs := Linux.statvfs e;
  Linux.uname := Linux.uname e;
  Linux.getuser := Linux.getuser e;
  Linux.import_psutil := Linux.import_psutil e;
  Linux.cpu_count := Linux.cpu_count e
|}.

Definition with_os_release (e : Linux.env) (r : result string)
  : Linux.env := {|
  Linux.os_release_exists := Linux.os_release_exists e;
  Linux.os_release := r;
  Linux.lsb_release := Linux.lsb_release e;
  Linux.proc_meminfo := Linux.proc_meminfo e;
  Linux.proc_loadavg := Linux.proc_loadavg e;
  Linux.proc_mounts := Linux.proc_mounts e;
  Linux.proc_swaps := Linux.proc_swaps e;
  Linux.statvfs := Linux.statvfs e;
  Linux.uname := Linux.uname e;
  Linux.getuser := Linux.getuser e;
  Linux.import_psutil := Linux.import_psutil e;
  Linux.cpu_count := Linux.cpu_count e
|}.

Definition with_statvfs (e : Linux.env)
  (f : string -> result Linux.statvfs_result) : Linux.env := {|
  Linux.os_release_exists := Linux.os_release_exists e;
  Linux.os_release := Linux.os_release e;
  Linux.lsb_release := Linux.lsb_release e;
  Linux.proc_meminfo := Linux.proc_meminfo e;
  Linux.proc_loadavg := Linux.proc_loadavg e;
  Linux.proc_mounts := Linux.proc_mounts e;
  Linux.proc_swaps := Linux.proc_swaps e;
  Linux.statvfs := f;
  Linux.uname := Linux.uname e;
  Linux.getuser := Linux.getuser e;
  Linux.import_psutil := Linux.import_psutil e;
  Linux.cpu_count := Linux.cpu_count e
|}.

(** A host whose file systems report more free blocks than blocks. *)
Definition linux_more_free_than_total : Linux.env :=
  with_statvfs linux_host
    (fun _ => Ok {| Linux.f_frsize := 4096; Linux.f_blocks := 13107200;
                    Linux.f_bfree := 26214400 |}%N).

(** The entry the disk probe makes for the root file system of
    [linux_host]: 22.9 GB free of 50.0 GB. *)
Definition root_entry : Linux.drive := {|
  Linux.mount_point := "/";
  Linux.fs_type := "ext4";
  Linux.total_gb := float_of_decimal false 50 0;
  Linux.free_gb := float_of_decimal false 229 (-1)
|}.

(** An os-release file with a quoted PRETTY_NAME. *)
Definition linux_pretty_name : Linux.env :=
  with_os_release linux_host
    (Ok (unlines ["NAME=Foo"; "PRETTY_NAME=" +:+ quoted "Foo Linux 1";
                  "VERSION=1"])).

(** A name that ends in an escaped double quote, as os-release(5) lets a
    quoted value hold one: The, a space, backslash, quote, Best,
    backslash, quote.  The file assigns it between double quotes. *)
Definition backslash : ascii := "092"%char.

Definition best_name : string :=
  "The " +:+ String backslash (String Linux.quote
    ("Best" +:+ String backslash (String Linux.quote EmptyString))).

Definition linux_escaped_quote : Linux.env :=
  with_os_release linux_host
    (Ok (unlines ["PRETTY_NAME=" +:+ quoted best_name])).

(** A load-average source with two fields only, and an empty one. *)
Definition linux_short_loadavg : Linux.env :=
  with_loadavg linux_host (Ok "0.5 0.4").

Definition linux_empty_loadavg : Linux.env :=
  with_loadavg linux_host (Ok "").

(** A swap table whose one entry has three fields. *)
Definition short_swap_table : string :=
  unlines ["Filename Type Size Used Priority";
           "/dev/sda3 partition 2097148"].

Definition linux_short_swaps : Linux.env :=
  with_swaps linux_host (Ok short_swap_table).

(** A swap table whose one entry has a size of 4301 digits: 4300 zeros and
    a one. *)
Fixpoint zeros (k : nat) : string :=
  match k with
  | O => EmptyString
  | S k' => String "0"%char (zeros k')
  end.

Definition long_swap_size : string := zeros 4300 +:+ "1".

Definition long_swap_row : string :=
  "/swapfile file " +:+ long_swap_size +:+ " 0 -2".

Definition linux_long_swap_size : Linux.env :=
  with_swaps linux_host
    (Ok (unlines ["Filename Type Size Used Priority"; long_swap_row])).

End Samples.

(** *** Vocabulary of the further properties *)

(** Formatting one of the integers [ns] raises [ex]: it has more digits
    than [str] converts. *)
Definition unprintable (ns : list Z) (ex : Py.exn) : Prop :=
  exists n, In n ns /\ Py.format_int n = Py.Raise ex.

(** The [psutil] fallback of a report step raises [ex]: importing it, the
    query, or formatting one of the figures of its answer does, and [ex]
    is no [ImportError]. *)
Definition psutil_fails {A} (query : Linux.psutil_module -> Py.result A)
  (figures : A -> list Z) (e : Linux.env) (ex : Py.exn) : Prop :=
  (Linux.import_psutil e = Py.Raise ex \/
   exists psutil,
     Linux.import_psutil e = Py.Ok psutil /\
     (query psutil = Py.Raise ex \/
      exists v, query psutil = Py.Ok v /\ unprintable (figures v) ex)) /\
  Py.caught [Py.Class Py.ImportError] ex = false.

(** The ways the RAM and the Swap step of the Linux report raise: in the
    psutil fallback, which is taken when the total read from /proc is not
    positive, or at a positive swap total too long to format.  The figures
    that come from /proc/meminfo are never too long. *)
Definition ram_fails (e : Linux.env) (ex : Py.exn) : Prop :=
  default 0 (Linux.get_memory_info e !! "MemTotal") <= 0 /\
  psutil_fails Linux.virtual_memory
    (fun memory => [snd memory / 1024 ^ 2; fst memory / 1024 ^ 2]) e ex.

Definition swap_fails (e : Linux.env) (ex : Py.exn) : Prop :=
  0 < fst (Linux.get_swap_info e) /\
  Py.format_int (fst (Linux.get_swap_info e) / 1024) = Py.Raise ex \/
  fst (Linux.get_swap_info e) <= 0 /\
  psutil_fails Linux.swap_memory
    (fun swap => [fst swap / 1024 ^ 2; snd swap / 1024 ^ 2]) e ex.

(** [m] prints one line and returns, unless [cause] holds of an exception,
    which it then raises without printing. *)
Definition one_line_unless (cause : Py.exn -> Prop)
  (m : Py.io string unit) : Prop :=
  forall tr,
    (exists s, m tr = (tr ++ [s], Py.Ok tt) /\ forall ex, ~ cause ex) \/
    (exists ex, m tr = (tr, Py.Raise ex) /\ cause ex).

(** The test by which [get_drives_info] passes over a partition. *)
Definition skipped (p : Windows.sdiskpart) : bool :=
  Py.contains "cdrom" (Windows.opts p) || String.eqb (Windows.device p) "".

(** The [except] clauses of [get_drives_info], around one usage query and
    around the loop. *)
Definition inner_handlers : list Py.handler :=
  [Py.Class Py.OSError; Py.Class Py.PermissionError;
   Py.Class Py.FileNotFoundError].

Definition outer_handlers : list Py.handler :=
  [Py.Class Py.OSError; Py.Class Py.AttributeError].

(** The entry a partition contributes, if any. *)
Definition drive_of (e : Windows.env) (p : Windows.sdiskpart)
  : option Windows.drive :=
  if skipped p then None
  else
    match Windows.disk_usage e (Windows.mountpoint p) with
    | Py.Ok usage =>
      Some {| Windows.drive_name := Windows.device p;
              Windows.fs_type := Windows.fstype p;
              Windows.total_gb := Windows.du_total usage / 1024 ^ 3;
              Windows.free_gb := Windows.du_free usage / 1024 ^ 3 |}
    | Py.Raise _ => None
    end.

(** The usage query of [p] raises an error the inner handler lets by. *)
Definition usage_escapes (e : Windows.env) (p : Windows.sdiskpart)
  (ex : Py.exn) : Prop :=
  skipped p = false /\
  Windows.disk_usage e (Windows.mountpoint p) = Py.Raise ex /\
  Py.caught inner_handlers ex = false.

(** No usage query of [p] gets by the inner handler. *)
Definition no_escape (e : Windows.env) (p : Windows.sdiskpart) : Prop :=
  forall ex, ~ usage_escapes e p ex.

(** The mount points whose usage was queried, in order. *)
Definition usage_calls (tr : list Windows.event) : list string :=
  omap (fun ev => match ev with
                  | Windows.Called (Windows.DiskUsage m) => Some m
                  | _ => None
                  end) tr.

(** A recorded call, or an error line of a probe. *)
Definition error_only (ev : Windows.event) : Prop :=
  match ev with
  | Windows.Printed s => Py.startswith "Error " s = true
  | Windows.Called _ => True
  end.

(** When [m] raises, it has printed nothing but error lines. *)
Definition quiet_failure {A} (m : Py.io Windows.event A) : Prop :=
  forall tr ex,
    Forall error_only tr ->
    snd (m tr) = Py.Raise ex ->
    Forall error_only (fst (m tr)).

(** [m] returns, whatever has been printed before. *)
Definition never_raises {E A} (m : Py.io E A) : Prop :=
  forall tr, exists a, snd (m tr) = Py.Ok a.

(** A library answer that is a value or an [OSError]. *)
Definition tolerable {A} (r : Py.result A) : Prop :=
  forall ex, r = Py.Raise ex -> Py.is_subclass (Py.exn_cls ex) Py.OSError = true.

(** [m] raises nothing but [OSError]s. *)
Definition raises_os_errors {E A} (m : Py.io E A) : Prop :=
  forall tr ex,
    snd (m tr) = Py.Raise ex ->
    Py.is_subclass (Py.exn_cls ex) Py.OSError = true.

(** Every library call answers or raises an [OSError]. *)
Definition only_os_errors (e : Windows.env) : Prop :=
  tolerable (Windows.platform_system e) /\
  tolerable (Windows.platform_version e) /\
  tolerable (Windows.platform_release e) /\
  tolerable (Windows.gethostname e) /\
  tolerable (Windows.getlogin e) /\
  tolerable (Windows.platform_machine e) /\
  tolerable (Windows.virtual_memory e) /\
  tolerable (Windows.swap_memory e) /\
  tolerable (Windows.psutil_cpu_count e) /\
  tolerable (Windows.os_cpu_count e) /\
  tolerable (Windows.disk_partitions e) /\
  forall m, tolerable (Windows.disk_usage e m).

(** Every library call answers. *)
Definition all_calls_answer (e : Windows.env) : Prop :=
  Windows.platform_system e = Py.Ok "Windows" /\
  (exists v, Windows.platform_version e = Py.Ok v) /\
  (exists v, Windows.platform_release e = Py.Ok v) /\
  (exists v, Windows.gethostname e = Py.Ok v) /\
  (exists v, Windows.getlogin e = Py.Ok v) /\
  (exists v, Windows.platform_machine e = Py.Ok v) /\
  (exists v, Windows.virtual_memory e = Py.Ok v) /\
  (exists v, Windows.swap_memory e = Py.Ok v) /\
  (exists v, Windows.psutil_cpu_count e = Py.Ok v) /\
  (exists partitions,
      Windows.disk_partitions e = Py.Ok partitions /\
      Forall (fun p => skipped p = true \/
                       exists u, Windows.disk_usage e (Windows.mountpoint p)
                                 = Py.Ok u)
             partitions).

(** The calls of a run on which every call answers. *)
Definition probe_calls (partitions : list Windows.sdiskpart)
  : list Windows.call :=
  [Windows.PlatformSystem; Windows.PlatformVersion; Windows.PlatformRelease;
   Windows.GetHostName; Windows.GetLogin; Windows.PlatformMachine;
   Windows.VirtualMemory; Windows.SwapMemory; Windows.PsutilCpuCount;
   Windows.VirtualMemory; Windows.SwapMemory; Windows.DiskPartitions] ++
  map (fun p => Windows.DiskUsage (Windows.mountpoint p))
      (List.filter (fun p => negb (skipped p)) partitions).

(** [m] prints [n] lines and returns. *)
Definition printing (n : nat) (m : Py.io Windows.event unit) : Prop :=
  forall tr, exists lines,
    m tr = (tr ++ map Windows.Printed lines, Py.Ok tt) /\ length lines = n.

(** Further environments. *)
Module Hosts.
Import Py Samples.

Definition with_meminfo (e : Linux.env) (r : result string) : Linux.env := {|
  Linux.os_release_exists := Linux.os_release_exists e;
  Linux.os_release := Linux.os_release e;
  Linux.lsb_release := Linux.lsb_release e;
  Linux.proc_meminfo := r;
  Linux.proc_loadavg := Linux.proc_loadavg e;
  Linux.proc_mounts := Linux.proc_mounts e;
  Linux.proc_swaps := Linux.proc_swaps e;
  Linux.statvfs := Linux.statvfs e;
  Linux.uname := Linux.uname e;
  Linux.getuser := Linux.getuser e;
  Linux.import_psutil := Linux.import_psutil e;
  Linux.cpu_count := Linux.cpu_count e
|}.

Definition with_mounts (e : Linux.env) (r : result string) : Linux.env := {|
  Linux.os_release_exists := Linux.os_release_exists e;
  Linux.os_release := Linux.os_release e;
  Linux.lsb_release := Linux.lsb_release e;
  Linux.proc_meminfo := Linux.proc_meminfo e;
  Linux.proc_loadavg := Linux.proc_loadavg e;
  Linux.proc_mounts := r;
  Linux.proc_swaps := Linux.proc_swaps e;
  Linux.statvfs := Linux.statvfs e;
  Linux.uname := Linux.uname e;
  Linux.getuser := Linux.getuser e;
  Linux.import_psutil := Linux.import_psutil e;
  Linux.cpu_count := Linux.cpu_count e
|}.

Definition with_distribution (e : Linux.env) (present : bool)
  (file : result string) (lsb : result (Z * string)) : Linux.env := {|
  Linux.os_release_exists := present;
  Linux.os_release := file;
  Linux.lsb_release := lsb;
  Linux.proc_meminfo := Linux.proc_meminfo e;
  Linux.proc_loadavg := Linux.proc_loadavg e;
  Linux.proc_mounts := Linux.proc_mounts e;
  Linux.proc_swaps := Linux.proc_swaps e;
  Linux.statvfs := Linux.statvfs e;
  Linux.uname := Linux.uname e;
  Linux.getuser := Linux.getuser e;
  Linux.import_psutil := Linux.import_psutil e;
  Linux.cpu_count := Linux.cpu_count e
|}.

(** What [lsb_release -d] prints after the label [Description]: a tab, the
    description and a newline. *)
Definition lsb_description : string :=
  String "009"%char ("Ubuntu 22.04 LTS" +:+ String nl "").

(** A host without /etc/os-release, and one where the file exists but may
    not be read; on both [lsb_release -d] works. *)
Definition linux_lsb_only : Linux.env :=
  with_distribution linux_host false
    (raise FileNotFoundError "/etc/os-release")
    (Ok (0, "Description" +:+ String ":"%char lsb_description)).

Definition linux_unreadable_os_release : Linux.env :=
  with_distribution linux_host true
    (raise PermissionError "/etc/os-release")
    (Ok (0, "Description" +:+ String ":"%char lsb_description)).

(** A memory table whose second line has a colon and no value. *)
Definition linux_bad_meminfo : Linux.env :=
  with_meminfo linux_host
    (Ok (unlines ["MemTotal: 5 kB"; "Bad:"; "MemFree: 7 kB"])).

(** A swap table whose second entry has a size that is no number. *)
Definition bad_swap_row : string := "/swapfile file big 10 -3".

Definition linux_bad_swaps : Linux.env :=
  with_swaps linux_host
    (Ok (unlines ["Filename Type Size Used Priority";
                  "/dev/sda3 partition 2097148 0 -2";
                  bad_swap_row])).

(** An empty mount table. *)
Definition linux_no_mounts : Linux.env := with_mounts linux_host (Ok "").

(** Partitions of a Windows host: two disks, a CD-ROM drive, a disk whose
    usage query fails inside psutil with an [AttributeError], and one that
    may not be read. *)
Definition partition_c : Windows.sdiskpart := {|
  Windows.device := "C:"; Windows.mountpoint := "C:";
  Windows.fstype := "NTFS"; Windows.opts := "rw,fixed" |}.

Definition partition_d : Windows.sdiskpart := {|
  Windows.device := "D:"; Windows.mountpoint := "D:";
  Windows.fstype := ""; Windows.opts := "cdrom" |}.

Definition partition_e : Windows.sdiskpart := {|
  Windows.device := "E:"; Windows.mountpoint := "E:";
  Windows.fstype := "FAT32"; Windows.opts := "rw,removable" |}.

Definition partition_f : Windows.sdiskpart := {|
  Windows.device := "F:"; Windows.mountpoint := "F:";
  Windows.fstype := "NTFS"; Windows.opts := "rw,fixed" |}.

Definition partition_g : Windows.sdiskpart := {|
  Windows.device := "G:"; Windows.mountpoint := "G:";
  Windows.fstype := "NTFS"; Windows.opts := "rw,fixed" |}.

Definition sample_disk_usage (mount : string) : result Windows.sdiskusage :=
  if String.eqb mount "C:" then
    Ok {| Windows.du_total := 512110190592; Windows.du_free := 100000000000 |}
  else if String.eqb mount "E:" then
    Ok {| Windows.du_total := 32000000000; Windows.du_free := 1000000000 |}
  else if String.eqb mount "F:" then
    raise AttributeError "no attribute total"
  else raise PermissionError "access denied".

Definition with_disks (e : Windows.env)
  (partitions : result (list Windows.sdiskpart)) : Windows.env := {|
  Windows.platform_system := Windows.platform_system e;
  Windows.platform_version := Windows.platform_version e;
  Windows.platform_release := Windows.platform_release e;
  Windows.gethostname := Windows.gethostname e;
  Windows.getlogin := Windows.getlogin e;
  Windows.platform_machine := Windows.platform_machine e;
  Windows.virtual_memory := Windows.virtual_memory e;
  Windows.swap_memory := Windows.swap_memory e;
  Windows.psutil_cpu_count := Windows.psutil_cpu_count e;
  Windows.os_cpu_count := Windows.os_cpu_count e;
  Windows.disk_partitions := partitions;
  Windows.disk_usage := sample_disk_usage
|}.

Definition with_cpu_count (e : Windows.env)
  (physical logical : result (option Z)) : Windows.env := {|
  Windows.platform_system := Windows.platform_system e;
  Windows.platform_version := Windows.platform_version e;
  Windows.platform_release := Windows.platform_release e;
  Windows.gethostname := Windows.gethostname e;
  Windows.getlogin := Windows.getlogin e;
  Windows.platform_machine := Windows.platform_machine e;
  Windows.virtual_memory := Windows.virtual_memory e;
  Windows.swap_memory := Windows.swap_memory e;
  Windows.psutil_cpu_count := physical;
  Windows.os_cpu_count := logical;
  Windows.disk_partitions := Windows.disk_partitions e;
  Windows.disk_usage := Windows.disk_usage e
|}.

(** C:, the CD-ROM, E: and the unreadable G:. *)
Definition windows_drives : Windows.env :=
  with_disks windows_host
    (Ok [partition_c; partition_d; partition_e; partition_g]).

(** C:, the CD-ROM and E:. *)
Definition windows_two_drives : Windows.env :=
  with_disks windows_host (Ok [partition_c; partition_d; partition_e]).

(** C:, the faulty F:, then E:. *)
Definition windows_faulty_drive : Windows.env :=
  with_disks windows_host (Ok [partition_c; partition_f; partition_e]).

(** psutil cannot count physical cores on this platform. *)
Definition windows_no_physical_count : Windows.env :=
  with_cpu_count windows_host
    (raise NotImplementedError "cpu_count") (Ok (Some 8)).

(** Memory counters fail with an [OSError], and listing the partitions
    with a [RuntimeError]. *)
Definition windows_crash : Windows.env :=
  with_disks windows_broken_platform (raise RuntimeError "psutil broke").

End Hosts.

(** ** Properties *)

(** Closed facts are settled by evaluating both sides. *)
Ltac evaluate :=
  repeat match goal with |- _ /\ _ => split end;
  vm_compute; reflexivity.

(** *** Effects: what a computation leaves in the trace *)

Section Traces.
Context {E : Type}.

Variable P : E -> Prop.

Lemma keeps_ret {A} (a : A) : keeps P (Py.io_ret a).
Proof. intros tr H. exact H. Qed.

Lemma keeps_lift {A} (r : Py.result A) : keeps P (Py.lift r).
Proof. intros tr H. exact H. Qed.

Lemma keeps_emit (ev : E) : P ev -> keeps P (Py.emit ev).
Proof.
  intros Hev tr H. unfold Py.emit. simpl.
  apply Forall_app. split; [exact H | constructor; [exact Hev | constructor]].
Qed.

Lemma keeps_bind {A B} (m : Py.io E A) (k : A -> Py.io E B) :
  keeps P m -> (forall a, keeps P (k a)) -> keeps P (Py.io_bind m k).
Proof.
  intros Hm Hk tr H. unfold Py.io_bind.
  specialize (Hm tr H). destruct (m tr) as [tr' [a | ex]]; simpl in *.
  - apply Hk. exact Hm.
  - exact Hm.
Qed.

Lemma keeps_try {A} (body : Py.io E A) hs (k : Py.exn -> Py.io E A) :
  keeps P body -> (forall ex, keeps P (k ex)) ->
  keeps P (Py.try_except body hs k).
Proof.
  intros Hb Hk tr H. unfold Py.try_except.
  specialize (Hb tr H). destruct (body tr) as [tr' [a | ex]]; simpl in *.
  - exact Hb.
  - destruct (Py.caught hs ex); [apply Hk; exact Hb | exact Hb].
Qed.

Lemma keeps_for_each {A} (l : list A) (body : A -> Py.io E unit) :
  (forall x, keeps P (body x)) -> keeps P (Py.for_each l body).
Proof.
  intros Hb. induction l as [| x l IH]; simpl.
  - apply keeps_ret.
  - apply keeps_bind; [apply Hb | intros _; exact IH].
Qed.

Lemma appends_ret {A} (a : A) : appends (E:=E) (Py.io_ret a).
Proof. intros tr. exists []. simpl. symmetry. apply app_nil_r. Qed.

Lemma appends_lift {A} (r : Py.result A) : appends (E:=E) (Py.lift r).
Proof. intros tr. exists []. simpl. symmetry. apply app_nil_r. Qed.

Lemma appends_emit (ev : E) : appends (Py.emit ev).
Proof. intros tr. exists [ev]. reflexivity. Qed.

Lemma appends_bind {A B} (m : Py.io E A) (k : A -> Py.io E B) :
  appends m -> (forall a, appends (k a)) -> appends (Py.io_bind m k).
Proof.
  intros Hm Hk tr. unfold Py.io_bind.
  destruct (Hm tr) as [m1 H1]. destruct (m tr) as [tr' [a | ex]]; simpl in *.
  - destruct (Hk a tr') as [m2 H2]. exists (m1 ++ m2).
    rewrite H2, H1. symmetry. apply app_assoc.
  - exists m1. exact H1.
Qed.

Lemma appends_try {A} (body : Py.io E A) hs (k : Py.exn -> Py.io E A) :
  appends body -> (forall ex, appends (k ex)) ->
  appends (Py.try_except body hs k).
Proof.
  intros Hb Hk tr. unfold Py.try_except.
  destruct (Hb tr) as [m1 H1]. destruct (body tr) as [tr' [a | ex]]; simpl in *.
  - exists m1. exact H1.
  - destruct (Py.caught hs ex).
    + destruct (Hk ex tr') as [m2 H2]. exists (m1 ++ m2).
      rewrite H2, H1. symmetry. apply app_assoc.
    + exists m1. exact H1.
Qed.

Lemma appends_for_each {A} (l : list A) (body : A -> Py.io E unit) :
  (forall x, appends (body x)) -> appends (Py.for_each l body).
Proof.
  intros Hb. induction l as [| x l IH]; simpl.
  - apply appends_ret.
  - apply appends_bind; [apply Hb | intros _; exact IH].
Qed.

End Traces.

Lemma run_trace {E} (m : Py.io E unit) : fst (Py.run m) = fst (m []).
Proof. unfold Py.run. destruct (m []) as [tr [a | ex]]; reflexivity. Qed.

Lemma run_status {E} (m : Py.io E unit) :
  snd (Py.run m) = match snd (m []) with Py.Ok _ => 0 | Py.Raise _ => 1 end.
Proof. unfold Py.run. destruct (m []) as [tr [a | ex]]; reflexivity. Qed.

(** *** Decimal numerals *)

Lemma string_of_uint_digits (d : Decimal.uint) :
  all_digits (NilEmpty.string_of_uint d) = true.
Proof. induction d; simpl; try rewrite IHd; reflexivity. Qed.

Lemma string_of_uint_nonempty (d : Decimal.uint) :
  d <> Decimal.Nil -> NilEmpty.string_of_uint d <> EmptyString.
Proof. destruct d; simpl; congruence. Qed.

Lemma str_of_int_numeral (n : Z) : is_numeral (Py.str_of_int n) = true.
Proof.
  unfold Py.str_of_int. destruct n as [| p | p]; simpl.
  - reflexivity.
  - pose proof (Unsigned.to_uint_nonnil p) as Hn.
    pose proof (string_of_uint_digits (Pos.to_uint p)) as Hd.
    destruct (Pos.to_uint p) eqn:Hp; try congruence; simpl in *;
      exact Hd.
  - pose proof (Unsigned.to_uint_nonnil p) as Hn.
    pose proof (string_of_uint_digits (Pos.to_uint p)) as Hd.
    rewrite Hd, andb_true_r.
    destruct (Pos.to_uint p) eqn:Hp; try congruence; reflexivity.
Qed.

(** **** The digit limit *)

Module Numerals.
Import Py.

Lemma length_string_of_uint d :
  String.length (NilEmpty.string_of_uint d) = Decimal.nb_digits d.
Proof. induction d; cbn; congruence. Qed.

Lemma uint_value_bounds d :
  forall acc, 0 <= acc ->
    acc * 10 ^ Z.of_nat (Decimal.nb_digits d) <= uint_value d acc
    < (acc + 1) * 10 ^ Z.of_nat (Decimal.nb_digits d).
Proof.
  induction d; intros acc Hacc; cbn [uint_value Decimal.nb_digits];
    try (rewrite Z.pow_0_r; lia);
    rewrite Nat2Z.inj_succ, Z.pow_succ_r by lia;
    match goal with
    | |- _ <= uint_value _ ?a < _ =>
      specialize (IHd a ltac:(lia));
      assert (0 < 10 ^ Z.of_nat (Decimal.nb_digits d))
        by (apply Z.pow_pos_nonneg; lia);
      nia
    end.
Qed.

Lemma digitpart_uint d :
  forall acc cnt,
    digitpart acc cnt true (NilEmpty.string_of_uint d) =
    Some (uint_value d acc, (cnt + Decimal.nb_digits d)%nat).
Proof.
  induction d; intros acc cnt;
    cbn [NilEmpty.string_of_uint uint_value Decimal.nb_digits];
    try (rewrite Nat.add_0_r; reflexivity);
    cbn [digitpart]; change (is_digit _) with true; cbv iota;
    match goal with
    | |- context [digit_val ?c] =>
      let v := eval vm_compute in (digit_val c) in
      change (digit_val c) with v
    end; rewrite ?Z.add_0_r, IHd; f_equal; f_equal; lia.
Qed.

Lemma uint_value_acc d :
  forall acc : positive,
    uint_value d (Z.pos acc) = Z.pos (Pos.of_uint_acc d acc).
Proof.
  induction d; intros acc; cbn [uint_value Pos.of_uint_acc];
    try reflexivity;
    match goal with
    | |- uint_value _ ?z = Z.pos (Pos.of_uint_acc _ ?p) =>
      replace z with (Z.pos p) by lia; apply IHd
    end.
Qed.

Lemma uint_value_zero d : uint_value d 0 = Z.of_N (Pos.of_uint d).
Proof.
  induction d; cbn [uint_value Pos.of_uint]; try reflexivity;
    try exact IHd;
    match goal with
    | |- uint_value _ ?z = _ => change z with (Z.pos (Z.to_pos z))
    end; rewrite uint_value_acc; reflexivity.
Qed.

Lemma uint_value_to_uint p : uint_value (Pos.to_uint p) 0 = Z.pos p.
Proof. rewrite uint_value_zero, DecimalPos.Unsigned.of_to. reflexivity. Qed.

(** The numeral of a positive number has no leading zero. *)
Lemma to_uint_leading p d' : Pos.to_uint p <> Decimal.D0 d'.
Proof.
  intros Hd.
  pose proof (DecimalPos.Unsigned.to_of (Pos.to_uint p)) as Hn.
  rewrite DecimalPos.Unsigned.of_to in Hn. cbn [N.to_uint] in Hn.
  pose proof (DecimalPos.Unsigned.to_uint_nonzero p) as Hz.
  assert (Hh : Decimal.nzhead (Pos.to_uint p) <> Decimal.Nil).
  { intros Hnil. apply Hz. rewrite Hn at 1.
    apply DecimalFacts.unorm_0. exact Hnil. }
  rewrite (DecimalFacts.unorm_nzhead _ Hh) in Hn.
  apply (DecimalFacts.nzhead_nonzero (Pos.to_uint p) d').
  rewrite <- Hn. exact Hd.
Qed.

(** A positive number lies between the powers of ten that the length of
    its numeral gives. *)
Lemma numeral_magnitude p :
  10 ^ (Z.of_nat (Decimal.nb_digits (Pos.to_uint p)) - 1) <= Z.pos p
  < 10 ^ Z.of_nat (Decimal.nb_digits (Pos.to_uint p)).
Proof.
  pose proof (uint_value_to_uint p) as Hv.
  pose proof (to_uint_leading p) as Hlead.
  pose proof (DecimalPos.Unsigned.to_uint_nonnil p) as Hnil.
  split.
  - destruct (Pos.to_uint p) as [| d | d | d | d | d | d | d | d | d | d];
      [congruence | exfalso; exact (Hlead d eq_refl) | ..];
      cbn [uint_value Decimal.nb_digits] in Hv |- *;
      rewrite Nat2Z.inj_succ;
      replace (Z.succ (Z.of_nat (Decimal.nb_digits d)) - 1)
        with (Z.of_nat (Decimal.nb_digits d)) by lia;
      match type of Hv with
      | uint_value _ ?a = _ =>
        pose proof (uint_value_bounds d a ltac:(lia)) as [Hlo _]
      end;
      assert (0 < 10 ^ Z.of_nat (Decimal.nb_digits d))
        by (apply Z.pow_pos_nonneg; lia);
      nia.
  - pose proof (uint_value_bounds (Pos.to_uint p) 0 ltac:(lia)) as [_ Hhi].
    rewrite Hv in Hhi. lia.
Qed.

Lemma str_of_int_pos p :
  str_of_int (Z.pos p) = NilEmpty.string_of_uint (Pos.to_uint p).
Proof. reflexivity. Qed.

Lemma within_digit_limit_length n :
  within_digit_limit n <->
  (String.length (str_of_int (Z.abs n)) <= int_max_str_digits)%nat.
Proof.
  unfold within_digit_limit.
  destruct n as [| p | p];
    [| change (Z.abs (Z.pos p)) with (Z.pos p)
     | change (Z.abs (Z.neg p)) with (Z.pos p)].
  - split; intros _; [apply Nat.leb_le; reflexivity |].
    apply Z.pow_pos_nonneg; [lia | apply Nat2Z.is_nonneg].
  - rewrite str_of_int_pos, length_string_of_uint.
    pose proof (numeral_magnitude p) as [Hlo Hhi]. split; intros H.
    + apply Nat2Z.inj_le.
      assert (Z.of_nat (Decimal.nb_digits (Pos.to_uint p)) - 1
              < Z.of_nat int_max_str_digits); [| lia].
      apply (Z.pow_lt_mono_r_iff 10); [lia | apply Nat2Z.is_nonneg | lia].
    + eapply Z.lt_le_trans; [exact Hhi |].
      apply Z.pow_le_mono_r; lia.
  - rewrite str_of_int_pos, length_string_of_uint.
    pose proof (numeral_magnitude p) as [Hlo Hhi]. split; intros H.
    + apply Nat2Z.inj_le.
      assert (Z.of_nat (Decimal.nb_digits (Pos.to_uint p)) - 1
              < Z.of_nat int_max_str_digits); [| lia].
      apply (Z.pow_lt_mono_r_iff 10); [lia | apply Nat2Z.is_nonneg | lia].
    + eapply Z.lt_le_trans; [exact Hhi |].
      apply Z.pow_le_mono_r; lia.
Qed.

(** [str] and f-strings format exactly the integers within the limit. *)
Lemma format_int_within n :
  within_digit_limit n -> format_int n = Ok (str_of_int n).
Proof.
  intros H. apply within_digit_limit_length in H. unfold format_int.
  apply Nat.ltb_ge in H. rewrite H. reflexivity.
Qed.

Lemma format_int_beyond n :
  ~ within_digit_limit n -> exists ex, format_int n = Raise ex.
Proof.
  intros H. unfold format_int.
  destruct (Nat.ltb_spec int_max_str_digits
              (String.length (str_of_int (Z.abs n)))) as [Hlt | Hge].
  - eexists. reflexivity.
  - exfalso. apply H, within_digit_limit_length. exact Hge.
Qed.

Lemma format_int_ok n s : format_int n = Ok s -> s = str_of_int n.
Proof.
  unfold format_int. destruct (_ <? _)%nat; [discriminate |].
  intros H. injection H as <-. reflexivity.
Qed.

(** All failures of [format_int] are the same exception. *)
Lemma format_int_raise n ex :
  format_int n = Raise ex -> ~ within_digit_limit n /\ exn_cls ex = ValueError.
Proof.
  intros H. split.
  - intros Hw. rewrite (format_int_within n Hw) in H. discriminate H.
  - unfold format_int in H. destruct (_ <? _)%nat; [| discriminate H].
    injection H as <-. reflexivity.
Qed.

Lemma within_digit_limit_0 : within_digit_limit 0.
Proof.
  unfold within_digit_limit. apply Z.pow_pos_nonneg; [lia |].
  apply Nat2Z.is_nonneg.
Qed.

(** Numbers of up to eighteen digits, without computing the limit. *)
Lemma within_digit_limit_small n :
  Z.abs n < 10 ^ 18 -> within_digit_limit n.
Proof.
  intros H. unfold within_digit_limit.
  eapply Z.lt_le_trans; [exact H |].
  apply Z.pow_le_mono_r; [reflexivity |].
  change 18 with (Z.of_nat 18). apply Nat2Z.inj_le.
  apply Nat.leb_le. reflexivity.
Qed.

Lemma within_digit_limit_le n m :
  Z.abs m <= Z.abs n -> within_digit_limit n -> within_digit_limit m.
Proof. unfold within_digit_limit. lia. Qed.

Lemma within_digit_limit_div n d :
  0 < d -> within_digit_limit n -> within_digit_limit (n / d).
Proof.
  intros Hd. apply within_digit_limit_le.
  pose proof (Z.div_mod n d ltac:(lia)) as Hdm.
  pose proof (Z.mod_pos_bound n d Hd) as Hr.
  nia.
Qed.

Lemma digit_val_range c : is_digit c = true -> 0 <= digit_val c <= 9.
Proof.
  unfold is_digit, digit_val. intros H.
  apply andb_prop in H as [H1 H2]. apply N.leb_le in H1, H2. lia.
Qed.

(** What a digit group reads is below the power of ten of its number of
    digits. *)
Lemma digitpart_bound s :
  forall acc cnt after v cnt',
    0 <= acc < 10 ^ Z.of_nat cnt ->
    digitpart acc cnt after s = Some (v, cnt') ->
    0 <= v < 10 ^ Z.of_nat cnt'.
Proof.
  induction s as [| c s IH]; intros acc cnt after v cnt' Hacc H;
    cbn [digitpart] in H.
  - destruct after; [| discriminate H]. injection H as <- <-. exact Hacc.
  - destruct (is_digit c) eqn:Hc.
    + apply (IH _ _ _ _ _ ) in H; [exact H |].
      pose proof (digit_val_range c Hc).
      rewrite Nat2Z.inj_succ, Z.pow_succ_r by lia. lia.
    + destruct (Ascii.eqb c "_"%char); [| discriminate H].
      destruct after; [| discriminate H].
      exact (IH _ _ _ _ _ Hacc H).
Qed.

(** [int] returns integers within the limit only. *)
Lemma int_of_str_within s n : int_of_str s = Ok n -> within_digit_limit n.
Proof.
  unfold int_of_str. destruct (take_sign (strip s)) as [neg body].
  destruct (digitpart 0 0 false body) as [[v cnt] |] eqn:Hd; [| discriminate].
  destruct (Nat.ltb_spec int_max_str_digits cnt) as [Hlt | Hge];
    [discriminate |].
  intros H. injection H as <-.
  apply digitpart_bound in Hd; [| cbn; lia].
  assert (Hpow : 10 ^ Z.of_nat cnt <= 10 ^ Z.of_nat int_max_str_digits)
    by (apply Z.pow_le_mono_r; lia).
  unfold within_digit_limit. destruct neg; lia.
Qed.

Lemma digit_not_space c : is_digit c = true -> is_space c = false.
Proof.
  unfold is_digit, is_space. intros H.
  apply andb_prop in H as [H1 H2]. apply N.leb_le in H1, H2.
  repeat match goal with
         | |- context [(?a <=? ?b)%N] => destruct (N.leb_spec a b)
         | |- context [(?a =? ?b)%N] => destruct (N.eqb_spec a b)
         end; simpl; try reflexivity; lia.
Qed.

Lemma digit_not_sign c :
  is_digit c = true ->
  Ascii.eqb c "-"%char = false /\ Ascii.eqb c "+"%char = false.
Proof.
  intros H.
  split.
  - destruct (Ascii.eqb_spec c "-"%char) as [-> | _];
      [discriminate H | reflexivity].
  - destruct (Ascii.eqb_spec c "+"%char) as [-> | _];
      [discriminate H | reflexivity].
Qed.

Lemma lstrip_digits s : all_digits s = true -> lstrip_by is_space s = s.
Proof.
  destruct s as [| c s]; [reflexivity |]. cbn [all_digits lstrip_by].
  intros H. apply andb_prop in H as [Hc _].
  rewrite (digit_not_space c Hc). reflexivity.
Qed.

Lemma rstrip_digits s : all_digits s = true -> rstrip_by is_space s = s.
Proof.
  induction s as [| c s IH]; [reflexivity |]. cbn [all_digits rstrip_by].
  intros H. apply andb_prop in H as [Hc Hs].
  rewrite (IH Hs), (digit_not_space c Hc). destruct s; reflexivity.
Qed.

(** What [int] makes of the numeral of a positive number, with or without
    a minus sign. *)
Lemma digits_of_positive p :
  digitpart 0 0 false (NilEmpty.string_of_uint (Pos.to_uint p)) =
  Some (Z.pos p, Decimal.nb_digits (Pos.to_uint p)).
Proof.
  pose proof (DecimalPos.Unsigned.to_uint_nonnil p) as Hn.
  pose proof (uint_value_to_uint p) as Hv. rewrite <- Hv. clear Hv.
  destruct (Pos.to_uint p) as [| d | d | d | d | d | d | d | d | d | d];
    [congruence | ..];
    cbn [NilEmpty.string_of_uint digitpart uint_value Decimal.nb_digits];
    change (is_digit _) with true; cbv iota;
    match goal with
    | |- context [digit_val ?c] =>
      let v := eval vm_compute in (digit_val c) in
      change (digit_val c) with v
    end; apply digitpart_uint.
Qed.

(** A string of digits is read whole, and counted. *)
Lemma digitpart_digits s :
  all_digits s = true ->
  forall acc cnt after,
    s <> EmptyString \/ after = true ->
    exists v,
      digitpart acc cnt after s = Some (v, (cnt + String.length s)%nat).
Proof.
  induction s as [| c s IH]; intros Hd acc cnt after Hne.
  - destruct Hne as [Hne | ->]; [congruence |].
    exists acc. cbn. rewrite Nat.add_0_r. reflexivity.
  - cbn [all_digits] in Hd. apply andb_prop in Hd as [Hc Hs].
    cbn [digitpart String.length]. rewrite Hc.
    destruct (IH Hs (10 * acc + digit_val c) (S cnt) true
                (or_intror eq_refl)) as [v Hv].
    exists v. rewrite Hv. f_equal. f_equal. lia.
Qed.

(** [int] refuses a string of more digits than the limit, whatever its
    value. *)
Lemma int_of_str_long_digits s :
  all_digits s = true ->
  (int_max_str_digits < String.length s)%nat ->
  exists ex, int_of_str s = Raise ex.
Proof.
  intros Hd Hlen. unfold int_of_str, strip, strip_by.
  rewrite (lstrip_digits s Hd), (rstrip_digits s Hd).
  assert (Hne : s <> EmptyString).
  { intros ->. cbn in Hlen. lia. }
  destruct (digitpart_digits s Hd 0 0%nat false (or_introl Hne)) as [v Hv].
  destruct s as [| c s']; [congruence |].
  pose proof Hd as Hd'. cbn [all_digits] in Hd'.
  apply andb_prop in Hd' as [Hc _].
  destruct (digit_not_sign c Hc) as [Hm Hpl].
  cbn [take_sign]. rewrite Hm, Hpl, Hv. cbn [Nat.add].
  apply Nat.ltb_lt in Hlen. rewrite Hlen. eexists. reflexivity.
Qed.

Lemma int_of_str_numeral n :
  int_of_str (str_of_int n) =
  if (int_max_str_digits <? String.length (str_of_int (Z.abs n)))%nat
  then raise ValueError
         ("Exceeds the limit (4300 digits) for integer string conversion: "
          +:+ "value has "
          +:+ str_of_int (Z.of_nat (String.length (str_of_int (Z.abs n))))
          +:+ " digits; "
          +:+ "use sys.set_int_max_str_digits() to increase the limit")
  else Ok n.
Proof.
  unfold str_of_int at 1. destruct n as [| p | p]; [reflexivity | |];
    [change (Z.abs (Z.pos p)) with (Z.pos p)
    | change (Z.abs (Z.neg p)) with (Z.pos p)];
    cbn [Z.to_int NilEmpty.string_of_int];
    rewrite str_of_int_pos, length_string_of_uint;
    pose proof (string_of_uint_digits (Pos.to_uint p)) as Hd;
    pose proof (digits_of_positive p) as Hp;
    set (s := NilEmpty.string_of_uint (Pos.to_uint p)) in *.
  - unfold int_of_str, strip, strip_by.
    rewrite (lstrip_digits s Hd), (rstrip_digits s Hd).
    destruct s as [| c s']; [discriminate Hp |].
    cbn [all_digits] in Hd. apply andb_prop in Hd as [Hc _].
    destruct (digit_not_sign c Hc) as [Hm Hpl].
    cbn [take_sign]. rewrite Hm, Hpl, Hp. reflexivity.
  - unfold int_of_str, strip, strip_by.
    cbn [lstrip_by]. change (is_space "-") with false. cbv iota.
    cbn [rstrip_by]. rewrite (rstrip_digits s Hd).
    change (is_space "-") with false.
    clearbody s. destruct s as [| c s']; [discriminate Hp |].
    cbn [take_sign]. rewrite ?Ascii.eqb_refl. cbv iota. rewrite Hp.
    reflexivity.
Qed.

(** Reading back a printed integer: [int(str(n)) == n], within the limit;
    beyond it [int] raises. *)
Lemma int_of_str_of_int n :
  within_digit_limit n -> int_of_str (str_of_int n) = Ok n.
Proof.
  intros H. apply within_digit_limit_length in H.
  rewrite int_of_str_numeral. apply Nat.ltb_ge in H. rewrite H. reflexivity.
Qed.

Lemma int_of_str_beyond n :
  ~ within_digit_limit n -> exists ex, int_of_str (str_of_int n) = Raise ex.
Proof.
  intros H. rewrite int_of_str_numeral.
  destruct (Nat.ltb_spec int_max_str_digits
              (String.length (str_of_int (Z.abs n)))) as [Hlt | Hge].
  - eexists. reflexivity.
  - exfalso. apply H, within_digit_limit_length. exact Hge.
Qed.

End Numerals.

(** *** Floats: rounding to nearest is monotone *)

Module FloatFacts.
Import Py.
Lemma half_even_bounds p q :
  0 < q ->
  (2 * half_even p q - 1) * q <= 2 * p <= (2 * half_even p q + 1) * q /\
  (2 * p = (2 * half_even p q + 1) * q -> Z.even (half_even p q) = true) /\
  (2 * p = (2 * half_even p q - 1) * q -> Z.even (half_even p q) = true).
Proof.
  intros Hq. unfold half_even.
  pose proof (Z.div_mod p q ltac:(lia)) as Hdm.
  pose proof (Z.mod_pos_bound p q Hq) as Hr.
  set (d := p / q) in *. set (r := p mod q) in *.
  destruct (Z.compare_spec (2 * r) q) as [Heq | Hlt | Hgt].
  - destruct (Z.even d) eqn:Hd.
    + repeat split; try nia. intros _. exact Hd.
    + repeat split; try nia. intros _.
      rewrite Z.even_add, Hd. reflexivity.
  - repeat split; nia.
  - repeat split; nia.
Qed.

Lemma half_even_mono p p' q :
  0 < q -> p <= p' -> half_even p q <= half_even p' q.
Proof.
  intros Hq Hp.
  destruct (half_even_bounds p q Hq) as ([Hlo _] & _ & Hlow).
  destruct (half_even_bounds p' q Hq) as ([_ Hhi] & Hup & _).
  destruct (Z.le_gt_cases (half_even p q) (half_even p' q)) as [H | H];
    [exact H | exfalso].
  set (n := half_even p q) in *. set (n' := half_even p' q) in *.
  assert (Hn : n = n' + 1) by nia.
  assert (H1 : 2 * p = (2 * n - 1) * q) by nia.
  assert (H2 : 2 * p' = (2 * n' + 1) * q) by nia.
  specialize (Hlow H1). specialize (Hup H2).
  rewrite Hn, Z.even_add, Hup in Hlow. discriminate.
Qed.

Lemma half_even_exact m q : 0 < q -> half_even (m * q) q = m.
Proof.
  intros Hq. unfold half_even.
  rewrite Z.div_mul, Z.mod_mul by lia.
  destruct (Z.compare_spec (2 * 0) q); lia.
Qed.

Lemma excess_nonneg n : 0 <= excess n.
Proof. unfold excess. lia. Qed.

Lemma excess_mono n n' : n <= n' -> excess n <= excess n'.
Proof.
  intros H. unfold excess.
  pose proof (Z.log2_le_mono n n' H). lia.
Qed.

(** Below the excess, a magnitude fits 53 bits. *)
Lemma excess_upper n : 0 <= n -> n < 2 ^ (53 + excess n).
Proof.
  intros Hn. unfold excess.
  destruct (Z.eq_dec n 0) as [-> | Hne].
  - simpl. lia.
  - pose proof (Z.log2_spec n ltac:(lia)) as [_ Hhi].
    pose proof (Z.log2_nonneg n).
    eapply Z.lt_le_trans; [exact Hhi |].
    apply Z.pow_le_mono_r; lia.
Qed.

Lemma excess_lower n : 0 < excess n -> 2 ^ (52 + excess n) <= n.
Proof.
  unfold excess. intros H.
  assert (Hn : 0 < n).
  { destruct (Z.lt_ge_cases 0 n) as [Hp | Hp]; [exact Hp |].
    rewrite (Z.log2_nonpos n Hp) in H. lia. }
  pose proof (Z.log2_spec n Hn) as [Hlo _].
  replace (52 + Z.max 0 (Z.log2 n - 52)) with (Z.log2 n) by lia.
  exact Hlo.
Qed.

Lemma div_lt_inv a b c : 0 < b -> a / b < c -> a < b * c.
Proof.
  intros Hb H. pose proof (Z.div_mod a b ltac:(lia)).
  pose proof (Z.mod_pos_bound a b Hb). nia.
Qed.

Lemma div_le_inv a b c : 0 < b -> c <= a / b -> b * c <= a.
Proof.
  intros Hb H. pose proof (Z.div_mod a b ltac:(lia)).
  pose proof (Z.mod_pos_bound a b Hb). nia.
Qed.

Lemma nearest_mono p p' q :
  0 < q -> 0 <= p -> p <= p' -> nearest p q <= nearest p' q.
Proof.
  intros Hq Hp Hle. unfold nearest.
  assert (Hs : 0 < scale) by (unfold scale; apply Z.pow_pos_nonneg; lia).
  set (t := p * scale). set (t' := p' * scale).
  assert (Ht : 0 <= t) by (unfold t; nia).
  assert (Htt : t <= t') by (unfold t, t'; nia).
  assert (Hn : 0 <= t / q) by (apply Z.div_pos; lia).
  assert (Hnn : t / q <= t' / q) by (apply Z.div_le_mono; lia).
  pose proof (excess_mono _ _ Hnn) as Hex.
  pose proof (excess_nonneg (t / q)) as Hs0.
  set (s := excess (t / q)) in *. set (s' := excess (t' / q)) in *.
  assert (H2s : 0 < 2 ^ s) by (apply Z.pow_pos_nonneg; lia).
  assert (H2s' : 0 < 2 ^ s') by (apply Z.pow_pos_nonneg; lia).
  destruct (Z.eq_dec s s') as [<- | Hne].
  - apply Z.mul_le_mono_nonneg_r; [lia |].
    apply half_even_mono; nia.
  - assert (Hlt : s + 1 <= s') by lia.
    (* the smaller value stays below 2^(53+s), the larger reaches 2^(52+s') *)
    assert (Hup : half_even t (q * 2 ^ s) <= 2 ^ 53).
    { rewrite <- (half_even_exact (2 ^ 53) (q * 2 ^ s)) by nia.
      apply half_even_mono; [nia |].
      pose proof (excess_upper (t / q) Hn) as Hu. fold s in Hu.
      rewrite Z.pow_add_r in Hu by lia.
      apply (div_lt_inv _ _ _ Hq) in Hu. nia. }
    assert (Hlo : 2 ^ 52 <= half_even t' (q * 2 ^ s')).
    { rewrite <- (half_even_exact (2 ^ 52) (q * 2 ^ s')) at 1 by nia.
      apply half_even_mono; [nia |].
      pose proof (excess_lower (t' / q) ltac:(fold s'; lia)) as Hl.
      fold s' in Hl. rewrite Z.pow_add_r in Hl by lia.
      apply (div_le_inv _ _ _ Hq) in Hl. nia. }
    assert (Hpow : 2 ^ 53 * 2 ^ s <= 2 ^ 52 * 2 ^ s').
    { replace (2 ^ 53) with (2 ^ 52 * 2 ^ 1) by reflexivity.
      rewrite <- Z.mul_assoc, <- Z.pow_add_r by lia.
      apply Z.mul_le_mono_nonneg_l; [lia |].
      apply Z.pow_le_mono_r; lia. }
    nia.
Qed.

Lemma scale_pos : 0 < scale.
Proof. unfold scale. apply Z.pow_pos_nonneg; lia. Qed.

Lemma half_even_nonneg p q : 0 < q -> 0 <= p -> 0 <= half_even p q.
Proof.
  intros Hq Hp. rewrite <- (half_even_exact 0 q Hq) at 1.
  apply half_even_mono; lia.
Qed.

Lemma nearest_nonneg p q : 0 < q -> 0 <= p -> 0 <= nearest p q.
Proof.
  intros Hq Hp. unfold nearest.
  pose proof scale_pos.
  assert (0 <= excess (p * scale / q)) by apply excess_nonneg.
  apply Z.mul_nonneg_nonneg.
  - apply half_even_nonneg; [| nia].
    apply Z.mul_pos_pos; [lia | apply Z.pow_pos_nonneg; lia].
  - apply Z.pow_nonneg. lia.
Qed.

(** The quotient of a natural number by a positive one, when it is a
    float at all, is the nearest float and carries no sign. *)
Lemma int_truediv_nonneg a b x :
  0 <= a -> 0 < b ->
  int_truediv a b = Ok x ->
  x = Fin false (nearest a b) /\ nearest a b < huge.
Proof.
  intros Ha Hb. unfold int_truediv, round_ratio.
  destruct (Z.eqb_spec b 0) as [-> | _]; [lia |].
  replace (a <? 0) with false by (symmetry; apply Z.ltb_ge; lia).
  replace (b <? 0) with false by (symmetry; apply Z.ltb_ge; lia).
  rewrite (Z.abs_eq a Ha), (Z.abs_eq b) by lia. cbn [xorb].
  destruct (Z.ltb_spec (nearest a b) huge) as [Hlt | Hge]; intros H.
  - inversion H. split; [reflexivity | exact Hlt].
  - discriminate H.
Qed.

Lemma int_truediv_finite a b :
  0 <= a -> 0 < b -> nearest a b < huge ->
  int_truediv a b = Ok (Fin false (nearest a b)).
Proof.
  intros Ha Hb Hlt. unfold int_truediv, round_ratio.
  destruct (Z.eqb_spec b 0) as [-> | _]; [lia |].
  replace (a <? 0) with false by (symmetry; apply Z.ltb_ge; lia).
  replace (b <? 0) with false by (symmetry; apply Z.ltb_ge; lia).
  rewrite (Z.abs_eq a Ha), (Z.abs_eq b) by lia. cbn [xorb].
  apply Z.ltb_lt in Hlt. rewrite Hlt. reflexivity.
Qed.

(** [round(x, 1)] of a finite float, when it does not overflow. *)
Lemma round1_finite neg k y :
  round1 (Fin neg k) = Ok y ->
  y = Fin neg (nearest (half_even (k * 10) scale) 10).
Proof.
  unfold round1, round_ratio.
  destruct (_ <? huge); intros H; [inversion H; reflexivity | discriminate H].
Qed.

Lemma round1_mono k k' y y' :
  0 <= k -> k <= k' ->
  round1 (Fin false k) = Ok y ->
  round1 (Fin false k') = Ok y' ->
  float_leb y y' = true.
Proof.
  intros Hk Hle Hy Hy'.
  apply round1_finite in Hy, Hy'. subst y y'.
  unfold float_leb, position. apply Z.leb_le.
  pose proof scale_pos.
  apply nearest_mono; [lia | apply half_even_nonneg; lia |].
  apply half_even_mono; lia.
Qed.

(** The rounded magnitude is a significand of at most 53 bits (2^53 when
    the rounding carries) times a power of two. *)
Lemma nearest_is_float p q :
  0 < q -> 0 <= p ->
  exists m, nearest p q = m * 2 ^ excess (p * scale / q) /\ 0 <= m <= 2 ^ 53.
Proof.
  intros Hq Hp. unfold nearest.
  pose proof scale_pos as Hs.
  assert (Ht : 0 <= p * scale) by nia.
  assert (Hn : 0 <= p * scale / q) by (apply Z.div_pos; lia).
  pose proof (excess_nonneg (p * scale / q)) as Hs0.
  set (s := excess (p * scale / q)) in *.
  assert (H2s : 0 < 2 ^ s) by (apply Z.pow_pos_nonneg; lia).
  exists (half_even (p * scale) (q * 2 ^ s)). split; [reflexivity |].
  split; [apply half_even_nonneg; nia |].
  rewrite <- (half_even_exact (2 ^ 53) (q * 2 ^ s)) by nia.
  apply half_even_mono; [nia |].
  pose proof (excess_upper (p * scale / q) Hn) as Hu. fold s in Hu.
  rewrite Z.pow_add_r in Hu by lia.
  apply (div_lt_inv _ _ _ Hq) in Hu. nia.
Qed.

(** It lies within half a unit in the last place of the exact quotient. *)
Lemma nearest_half_ulp p q :
  0 < q -> 0 <= p ->
  2 * Z.abs (nearest p q * q - p * scale) <= q * 2 ^ excess (p * scale / q).
Proof.
  intros Hq Hp. unfold nearest.
  pose proof (excess_nonneg (p * scale / q)) as Hs0.
  set (s := excess (p * scale / q)) in *.
  assert (H2s : 0 < 2 ^ s) by (apply Z.pow_pos_nonneg; lia).
  destruct (half_even_bounds (p * scale) (q * 2 ^ s) ltac:(nia)) as [[Hlo Hhi] _].
  set (n := half_even (p * scale) (q * 2 ^ s)) in *.
  nia.
Qed.

(** On the samples the rounding is the one of the Standard Library's
    specification of binary64 division. *)
Lemma round_ratio_agrees_on_samples :
  Forall (fun pq : positive * positive =>
            to_spec (round_ratio false (Z.pos (fst pq)) (Z.pos (snd pq))) =
            spec_quotient (fst pq) (snd pq))
         sample_quotients.
Proof.
  repeat (apply List.Forall_cons; [vm_compute; reflexivity |]).
  apply List.Forall_nil.
Qed.

End FloatFacts.

(** *** The Windows script *)

Module WindowsFacts.
Import Py Windows.

Lemma keeps_print (P : event -> Prop) (s : string) :
  P (Printed s) -> keeps P (print s).
Proof. intros H. apply keeps_emit. exact H. Qed.

Lemma keeps_calling (P : event -> Prop) {A} (c : call) (r : result A) :
  P (Called c) -> keeps P (calling c r).
Proof.
  intros H. unfold calling. apply keeps_bind.
  - apply keeps_emit. exact H.
  - intros _. apply keeps_lift.
Qed.

(** An invariant of the whole report follows from the invariant of each
    printed line, when every recorded call satisfies it. *)
Section Report.
Variable P : event -> Prop.
Hypothesis P_called : forall c, P (Called c).
Hypothesis P_error : forall s,
  Py.startswith "Error " s = true -> P (Printed s).

Ltac step :=
  first
    [ apply keeps_ret
    | apply keeps_lift
    | apply keeps_calling; apply P_called
    | apply keeps_print; apply P_error; reflexivity
    | apply keeps_try; [| intros ?]
    | apply keeps_bind; [| intros ?] ].

Lemma keeps_get_windows_version e : keeps P (get_windows_version e).
Proof.
  unfold get_windows_version. repeat step.
  destruct (String.eqb _ _); repeat step.
  destruct (lookup_release _ _); repeat step.
Qed.

Lemma keeps_get_computer_name e : keeps P (get_computer_name e).
Proof. unfold get_computer_name. repeat step. Qed.

Lemma keeps_get_username e : keeps P (get_username e).
Proof. unfold get_username. repeat step. Qed.

Lemma keeps_get_processor_architecture e :
  keeps P (get_processor_architecture e).
Proof. unfold get_processor_architecture. repeat step. Qed.

Lemma keeps_get_memory_info e : keeps P (Windows.get_memory_info e).
Proof. unfold Windows.get_memory_info. repeat step. Qed.

Lemma keeps_get_pagefile_info e : keeps P (get_pagefile_info e).
Proof. unfold get_pagefile_info. repeat step. Qed.

Lemma keeps_get_processor_count e : keeps P (get_processor_count e).
Proof. unfold get_processor_count. repeat step. Qed.

Lemma keeps_get_virtual_memory_size e : keeps P (get_virtual_memory_size e).
Proof. unfold get_virtual_memory_size. repeat step. Qed.

Lemma keeps_drives_loop e partitions :
  forall drives, keeps P (drives_loop e partitions drives).
Proof.
  induction partitions as [| p rest IH]; intros drives; cbn [drives_loop].
  - apply keeps_ret.
  - destruct (_ || _); [apply IH |].
    intros tr Htr.
    pose proof (keeps_calling P (DiskUsage (mountpoint p))
                  (disk_usage e (mountpoint p)) (P_called _) tr Htr) as Hc.
    destruct (calling _ _ tr) as [tr' [usage | ex]]; simpl in Hc.
    + apply IH. exact Hc.
    + destruct (caught _ ex); [| exact Hc].
      revert Hc. generalize tr'. change (keeps P (print
        ("Error reading drive " +:+ device p +:+ ": " +:+ exn_msg ex) ;;;
        drives_loop e rest drives)).
      repeat step. apply IH.
Qed.

Lemma keeps_get_drives_info e : keeps P (get_drives_info e).
Proof.
  assert (Hout : forall (drives : list drive) ex, keeps P
    (if caught [Class OSError; Class AttributeError] ex
     then print ("Error getting drives info: " +:+ exn_msg ex) ;;;
          io_ret drives
     else lift (Raise ex))).
  { intros drives ex. destruct (caught _ ex); repeat step. }
  intros tr Htr. unfold get_drives_info.
  pose proof (keeps_calling P DiskPartitions (disk_partitions e)
                (P_called _) tr Htr) as Hc.
  destruct (calling _ _ tr) as [tr' [partitions | ex]]; simpl in Hc.
  - revert Hc. generalize tr'.
    match goal with |- forall t, _ -> Forall P (fst (?m t)) =>
      change (keeps P m) end.
    apply keeps_bind; [apply keeps_drives_loop |].
    intros [drives [ex |]]; [apply Hout | apply keeps_ret].
  - apply Hout. exact Hc.
Qed.

Hypothesis P_lines : forall version name user arch used total vm load
                            pf_used pf_total count,
  P (Printed ("OS: " +:+ version)) /\
  P (Printed ("Computer Name: " +:+ name)) /\
  P (Printed ("User: " +:+ user)) /\
  P (Printed ("Architecture: " +:+ arch)) /\
  P (Printed ("RAM: " +:+ str_of_int used +:+ "MB / "
              +:+ str_of_int total +:+ "MB")) /\
  P (Printed ("Virtual Memory: " +:+ str_of_int vm +:+ "MB")) /\
  P (Printed ("Memory Load: " +:+ str_of_number load +:+ "%")) /\
  P (Printed ("Pagefile: " +:+ str_of_int pf_used +:+ "MB / "
              +:+ str_of_int pf_total +:+ "MB")) /\
  P (Printed (String nl ("Processors: " +:+ str_of_int count))) /\
  P (Printed "Drives:") /\
  P (Printed "  No drives found").
Hypothesis P_drive : forall d rest, P (Printed ("  - " +:+ d +:+ rest)).

Lemma keeps_main e : keeps P (main e).
Proof.
  unfold main.
  apply keeps_bind; [apply keeps_get_windows_version | intros version].
  apply keeps_bind; [apply keeps_get_computer_name | intros name].
  apply keeps_bind; [apply keeps_get_username | intros user].
  apply keeps_bind; [apply keeps_get_processor_architecture | intros arch].
  apply keeps_bind; [apply keeps_get_memory_info | intros [[total avail] load]].
  apply keeps_bind; [apply keeps_get_pagefile_info | intros [pf_used pf_total]].
  apply keeps_bind; [apply keeps_get_processor_count | intros count].
  apply keeps_bind; [apply keeps_get_virtual_memory_size | intros vm].
  apply keeps_bind; [apply keeps_get_drives_info | intros drives].
  destruct (P_lines version name user arch (total - avail) total vm load
              pf_used pf_total count)
    as (H1 & H2 & H3 & H4 & H5 & H6 & H7 & H8 & H9 & H10 & H11).
  repeat (apply keeps_bind; [apply keeps_print; assumption | intros _]).
  destruct drives as [| d ds]; [apply keeps_print; assumption |].
  apply keeps_for_each. intros x. apply keeps_print. apply P_drive.
Qed.

End Report.

Lemma lookup_release_lower table r1 r2 :
  lower r1 = lower r2 -> lookup_release table r1 = lookup_release table r2.
Proof.
  intros H. induction table as [| [key value] rest IH]; simpl.
  - reflexivity.
  - rewrite H, IH. reflexivity.
Qed.

Lemma lookup_release_none table release :
  (forall key value, In (key, value) table ->
                     contains key (lower release) = false) ->
  lookup_release table release = None.
Proof.
  induction table as [| [key value] rest IH]; simpl; intros H.
  - reflexivity.
  - rewrite (H key value) by (left; reflexivity).
    apply IH. intros k v Hin. apply (H k v). right. exact Hin.
Qed.

Lemma lookup_release_some table release value :
  lookup_release table release = Some value ->
  exists key, In (key, value) table /\ contains key (lower release) = true.
Proof.
  induction table as [| [k v] rest IH]; simpl; intros H.
  - discriminate.
  - destruct (contains k (lower release)) eqn:Hk.
    + inversion H; subst. exists k. split; [left; reflexivity | exact Hk].
    + destruct (IH H) as (key & Hin & Hc). exists key.
      split; [right; exact Hin | exact Hc].
Qed.

(** C8: on a Windows host the OS-version probe returns the value of the
    first entry of the fixed table, "10" first, whose key occurs in the
    lowered release string, so the match ignores case: "Windows 10 or
    Greater" when "10" occurs, else "Windows 8" when "8" occurs, else
    "Windows 7" when "7" occurs, else "Windows Vista" when "vista" occurs;
    when no key occurs it returns "Windows <release> (<version>)"; on
    another platform it returns "Not Windows"; and when a platform call
    raises an OSError, ValueError or AttributeError it returns
    "Unknown (Error: <text>)" instead of raising. *)
Theorem windows_version_mapping :
  (forall e version release tr,
      platform_system e = Ok "Windows" ->
      platform_version e = Ok version ->
      platform_release e = Ok release ->
      snd (get_windows_version e tr) =
      Ok (if contains "10" (lower release) then "Windows 10 or Greater"
          else if contains "8" (lower release) then "Windows 8"
          else if contains "7" (lower release) then "Windows 7"
          else if contains "vista" (lower release) then "Windows Vista"
          else "Windows " +:+ release +:+ " (" +:+ version +:+ ")")) /\
  (forall e e' version release release' tr tr',
      platform_system e = Ok "Windows" ->
      platform_system e' = Ok "Windows" ->
      platform_version e = Ok version ->
      platform_version e' = Ok version ->
      platform_release e = Ok release ->
      platform_release e' = Ok release' ->
      lower release = lower release' ->
      lookup_release version_map release <> None ->
      snd (get_windows_version e tr) = snd (get_windows_version e' tr')) /\
  (forall e version release tr,
      platform_system e = Ok "Windows" ->
      platform_version e = Ok version ->
      platform_release e = Ok release ->
      snd (get_windows_version e tr) =
      Ok (match lookup_release version_map release with
          | Some value => value
          | None => "Windows " +:+ release +:+ " (" +:+ version +:+ ")"
          end)) /\
  (forall release,
      contains "10" (lower release) = true ->
      lookup_release version_map release = Some "Windows 10 or Greater") /\
  (forall release value,
      lookup_release version_map release = Some value ->
      exists key, In (key, value) version_map /\
                  contains key (lower release) = true) /\
  (forall release,
      (forall key value, In (key, value) version_map ->
                         contains key (lower release) = false) ->
      lookup_release version_map release = None) /\
  (forall r1 r2,
      lower r1 = lower r2 ->
      lookup_release version_map r1 = lookup_release version_map r2) /\
  (forall e system tr,
      platform_system e = Ok system ->
      system <> "Windows" ->
      snd (get_windows_version e tr) = Ok "Not Windows") /\
  (forall e ex tr,
      platform_system e = Raise ex \/
      platform_system e = Ok "Windows" /\
      (platform_version e = Raise ex \/
       (exists version, platform_version e = Ok version) /\
       platform_release e = Raise ex) ->
      caught [Class OSError; Class ValueError; Class AttributeError] ex
        = true ->
      snd (get_windows_version e tr) =
      Ok ("Unknown (Error: " +:+ exn_msg ex +:+ ")")).
Proof.
  assert (Hmap : forall e version release tr,
      platform_system e = Ok "Windows" ->
      platform_version e = Ok version ->
      platform_release e = Ok release ->
      snd (get_windows_version e tr) =
      Ok (match lookup_release version_map release with
          | Some value => value
          | None => "Windows " +:+ release +:+ " (" +:+ version +:+ ")"
          end)).
  { intros e version release tr Hs Hv Hr.
    unfold get_windows_version, try_except, calling, io_bind, emit, lift.
    rewrite Hs. cbn -[lookup_release]. rewrite Hv, Hr.
    destruct (lookup_release version_map release); reflexivity. }
  repeat split.
  - intros e version release tr Hs Hv Hr.
    rewrite (Hmap e version release tr Hs Hv Hr).
    unfold version_map. cbn [lookup_release].
    destruct (contains "10" (lower release)); [reflexivity |].
    destruct (contains "8" (lower release)); [reflexivity |].
    destruct (contains "7" (lower release)); [reflexivity |].
    destruct (contains "vista" (lower release)); reflexivity.
  - intros e e' version release release' tr tr' Hs Hs' Hv Hv' Hr Hr' Hl Hsome.
    rewrite (Hmap e version release tr Hs Hv Hr),
      (Hmap e' version release' tr' Hs' Hv' Hr').
    rewrite <- (lookup_release_lower version_map release release' Hl).
    destruct (lookup_release version_map release); [reflexivity |].
    exfalso. apply Hsome. reflexivity.
  - exact Hmap.
  - intros release H. unfold version_map. cbn [lookup_release].
    rewrite H. reflexivity.
  - intros release value. apply lookup_release_some.
  - intros release. apply lookup_release_none.
  - intros r1 r2. apply lookup_release_lower.
  - intros e system tr Hs Hne.
    unfold get_windows_version, try_except, calling, io_bind, emit, lift.
    rewrite Hs. apply String.eqb_neq in Hne. rewrite Hne. reflexivity.
  - intros e ex tr H Hc.
    unfold get_windows_version, try_except, calling, io_bind, emit, lift.
    destruct H as [Hs | [Hs [Hv | [[version Hv] Hr]]]]; rewrite Hs; cbn.
    + cbn in Hc. rewrite Hc. reflexivity.
    + rewrite Hv. cbn in Hc |- *. rewrite Hc. reflexivity.
    + rewrite Hv, Hr. cbn in Hc |- *. rewrite Hc. reflexivity.
Qed.

Lemma windows_version_mapping_witness :
  snd (get_windows_version Samples.windows_host []) =
    Ok "Windows 10 or Greater" /\
  snd (get_windows_version (Samples.windows_release "8.1" "6.3.9600") []) =
    Ok "Windows 8" /\
  snd (get_windows_version (Samples.windows_release "7" "6.1.7601") []) =
    Ok "Windows 7" /\
  snd (get_windows_version (Samples.windows_release "Vista" "6.0.6002") []) =
    Ok "Windows Vista" /\
  snd (get_windows_version (Samples.windows_release "VISTA" "6.0.6002") []) =
    Ok "Windows Vista" /\
  snd (get_windows_version
         (Samples.windows_release "2008ServerR2" "6.1.7601") []) =
    Ok "Windows 8" /\
  snd (get_windows_version (Samples.windows_release "7.10" "0") []) =
    Ok "Windows 10 or Greater" /\
  snd (get_windows_version (Samples.windows_release "11" "10.0.22631") []) =
    Ok "Windows 11 (10.0.22631)" /\
  snd (get_windows_version (Samples.windows_release "XP" "5.1.2600") []) =
    Ok "Windows XP (5.1.2600)" /\
  snd (get_windows_version (Samples.windows_release "vista" "6.0.6002") []) =
    snd (get_windows_version
           (Samples.windows_release "VISTA" "6.0.6002") []) /\
  snd (get_windows_version Samples.linux_platform []) = Ok "Not Windows" /\
  snd (get_windows_version Samples.windows_broken_platform []) =
    Ok "Unknown (Error: platform unavailable)".
Proof.
  destruct windows_version_mapping
    as (H1 & H2 & _ & _ & _ & _ & _ & H6 & H7).
  repeat match goal with |- _ /\ _ => split end.
  - exact (H1 Samples.windows_host "10.0.19045" "10" []
             eq_refl eq_refl eq_refl).
  - exact (H1 (Samples.windows_release "8.1" "6.3.9600") _ _ []
             eq_refl eq_refl eq_refl).
  - exact (H1 (Samples.windows_release "7" "6.1.7601") _ _ []
             eq_refl eq_refl eq_refl).
  - exact (H1 (Samples.windows_release "Vista" "6.0.6002") _ _ []
             eq_refl eq_refl eq_refl).
  - exact (H1 (Samples.windows_release "VISTA" "6.0.6002") _ _ []
             eq_refl eq_refl eq_refl).
  - exact (H1 (Samples.windows_release "2008ServerR2" "6.1.7601") _ _ []
             eq_refl eq_refl eq_refl).
  - exact (H1 (Samples.windows_release "7.10" "0") _ _ []
             eq_refl eq_refl eq_refl).
  - exact (H1 (Samples.windows_release "11" "10.0.22631") _ _ []
             eq_refl eq_refl eq_refl).
  - exact (H1 (Samples.windows_release "XP" "5.1.2600") _ _ []
             eq_refl eq_refl eq_refl).
  - apply (H2 (Samples.windows_release "vista" "6.0.6002")
              (Samples.windows_release "VISTA" "6.0.6002")
              "6.0.6002" "vista" "VISTA" [] []);
      try reflexivity.
    vm_compute. discriminate.
  - apply (H6 Samples.linux_platform "Linux" [] eq_refl). discriminate.
  - exact (H7 Samples.windows_broken_platform
             (Exn OSError "platform unavailable") []
             (or_introl eq_refl) eq_refl).
Defined.

Lemma error_line_not_virtual_memory s :
  startswith "Error " s = true -> startswith "Virtual Memory" s = false.
Proof.
  destruct s as [| c s]; [discriminate |]. cbn [startswith].
  destruct (Ascii.eqb_spec "E" c) as [<- | _]; [reflexivity | discriminate].
Qed.

Lemma main_virtual_memory_lines e :
  Forall virtual_memory_line (fst (run (main e))).
Proof.
  rewrite run_trace. apply keeps_main; [| | | | constructor].
  - intros c. exact I.
  - intros s Hs Hv. rewrite (error_line_not_virtual_memory s Hs) in Hv.
    discriminate.
  - intros version name user arch used total vm load pf_used pf_total count.
    repeat split; try (intros Hv; discriminate Hv).
    intros _. exists vm. split; [reflexivity | apply str_of_int_numeral].
  - intros d rest Hv. discriminate Hv.
Qed.

(** The value of the probe does not depend on what has been printed. *)
Lemma virtual_memory_size_value e tr :
  snd (get_virtual_memory_size e tr) = snd (get_virtual_memory_size e []).
Proof.
  unfold get_virtual_memory_size, try_except, calling, io_bind, emit, lift.
  destruct (virtual_memory e) as [memory | ex]; cbn -[caught].
  - destruct (swap_memory e) as [swap | ex]; cbn -[caught]; [reflexivity |].
    destruct (caught _ ex); reflexivity.
  - destruct (caught _ ex); reflexivity.
Qed.

Lemma print_then s (k : unit -> io event unit) tr :
  io_bind (print s) k tr = k tt (tr ++ [Printed s]).
Proof. reflexivity. Qed.

Lemma appends_report_drives (drives : list drive) :
  appends (match drives with
           | [] => print "  No drives found"
           | _ => for_each drives print_drive
           end).
Proof.
  destruct drives as [| d ds]; [apply appends_emit |].
  apply appends_for_each. intros x. apply appends_emit.
Qed.

Lemma keeps_report_drives (P : event -> Prop) (drives : list drive) :
  P (Printed "  No drives found") ->
  (forall d rest, P (Printed ("  - " +:+ d +:+ rest))) ->
  keeps P (match drives with
           | [] => print "  No drives found"
           | _ => for_each drives print_drive
           end).
Proof.
  intros Hnone Hdrive. destruct drives as [| d ds];
    [apply keeps_print; exact Hnone |].
  apply keeps_for_each. intros x. apply keeps_print. apply Hdrive.
Qed.

(** A report that is printed shows the value of the virtual-memory probe,
    on its one line that starts with "Virtual Memory". *)
Lemma main_virtual_memory_report e :
  snd (run (main e)) = 0 ->
  exists n,
    snd (get_virtual_memory_size e []) = Ok n /\
    In (Printed (virtual_memory_report n)) (fst (run (main e))) /\
    Forall (virtual_memory_shows n) (fst (run (main e))).
Proof.
  rewrite run_status, run_trace.
  destruct (main e []) as [final r] eqn:Hmain. cbn [fst snd].
  destruct r as [[] | ex]; [intros _ | discriminate].
  assert (Hc : forall c, not_virtual_memory (Called c)) by (intros c; exact I).
  assert (He : forall s, startswith "Error " s = true ->
                         not_virtual_memory (Printed s))
    by exact error_line_not_virtual_memory.
  unfold main in Hmain.
  assert (K1 : keeps not_virtual_memory (get_windows_version e))
    by (apply keeps_get_windows_version; assumption).
  assert (K2 : keeps not_virtual_memory (get_computer_name e))
    by (apply keeps_get_computer_name; assumption).
  assert (K3 : keeps not_virtual_memory (get_username e))
    by (apply keeps_get_username; assumption).
  assert (K4 : keeps not_virtual_memory (get_processor_architecture e))
    by (apply keeps_get_processor_architecture; assumption).
  assert (K5 : keeps not_virtual_memory (Windows.get_memory_info e))
    by (apply keeps_get_memory_info; assumption).
  assert (K6 : keeps not_virtual_memory (get_pagefile_info e))
    by (apply keeps_get_pagefile_info; assumption).
  assert (K7 : keeps not_virtual_memory (get_processor_count e))
    by (apply keeps_get_processor_count; assumption).
  assert (K8 : keeps not_virtual_memory (get_virtual_memory_size e))
    by (apply keeps_get_virtual_memory_size; assumption).
  assert (K9 : keeps not_virtual_memory (get_drives_info e))
    by (apply keeps_get_drives_info; assumption).
  pose proof (K1 [] (List.Forall_nil _)) as K.
  unfold io_bind at 1 in Hmain.
  destruct (get_windows_version e []) as [tr1 [version | ex]];
    [| discriminate Hmain]. cbn [fst] in K.
  apply K2 in K.
  unfold io_bind at 1 in Hmain.
  destruct (get_computer_name e tr1) as [tr2 [name | ex]];
    [| discriminate Hmain]. cbn [fst] in K.
  apply K3 in K.
  unfold io_bind at 1 in Hmain.
  destruct (get_username e tr2) as [tr3 [user | ex]];
    [| discriminate Hmain]. cbn [fst] in K.
  apply K4 in K.
  unfold io_bind at 1 in Hmain.
  destruct (get_processor_architecture e tr3) as [tr4 [arch | ex]];
    [| discriminate Hmain]. cbn [fst] in K.
  apply K5 in K.
  unfold io_bind at 1 in Hmain.
  destruct (Windows.get_memory_info e tr4)
    as [tr5 [[[total avail] load] | ex]];
    [| discriminate Hmain]. cbn [fst] in K.
  apply K6 in K.
  unfold io_bind at 1 in Hmain.
  destruct (get_pagefile_info e tr5) as [tr6 [[pf_used pf_total] | ex]];
    [| discriminate Hmain]. cbn [fst] in K.
  apply K7 in K.
  unfold io_bind at 1 in Hmain.
  destruct (get_processor_count e tr6) as [tr7 [count | ex]];
    [| discriminate Hmain]. cbn [fst] in K.
  pose proof (virtual_memory_size_value e tr7) as Hvalue.
  apply K8 in K.
  unfold io_bind at 1 in Hmain.
  destruct (get_virtual_memory_size e tr7) as [tr8 [n | ex]];
    [| discriminate Hmain]. cbn [fst snd] in K, Hvalue.
  apply K9 in K.
  unfold io_bind at 1 in Hmain.
  destruct (get_drives_info e tr8) as [tr9 [drives | ex]];
    [| discriminate Hmain]. cbn [fst] in K.
  rewrite !print_then in Hmain. apply (f_equal fst) in Hmain.
  cbn [fst] in Hmain. subst final.
  exists n. split; [symmetry; exact Hvalue |]. split.
  - match goal with
    | |- In _ (fst (?m ?tr)) =>
      destruct (appends_report_drives drives tr) as [more ->]
    end.
    apply in_or_app. left. rewrite <- !app_assoc.
    apply in_or_app. right. cbn. tauto.
  - apply keeps_report_drives.
    + intros H. discriminate H.
    + intros d rest H. discriminate H.
    + repeat (apply Forall_app; split);
        try (apply List.Forall_cons; [| apply List.Forall_nil]);
        try (intros H; discriminate H).
      * eapply List.Forall_impl; [| exact K].
        intros [c | s] H; [exact I |].
        intros Hs. change (startswith "Virtual Memory" s = false) in H.
        congruence.
      * intros _. reflexivity.
Qed.

(** C10, as the code has it: the virtual-memory-size probe returns total
    physical memory plus total swap, in bytes, divided by 2^20 with integer
    division; when a query raises an OSError, AttributeError or
    NotImplementedError it returns 0, and any other exception leaves the
    probe.  So a report that is printed shows the probe's value, a decimal
    numeral followed by "MB", on its one "Virtual Memory" line; and no
    line of any run starts with "Virtual Memory" without being of that
    form, none is the "information not available" text. *)
Theorem virtual_memory_size_is_a_number :
  (forall e memory swap tr,
      virtual_memory e = Ok memory ->
      swap_memory e = Ok swap ->
      get_virtual_memory_size e tr =
      ((tr ++ [Called VirtualMemory]) ++ [Called SwapMemory],
       Ok ((vm_total memory + sw_total swap) / 2 ^ 20))) /\
  (forall e ex tr,
      virtual_memory e = Raise ex \/
      (exists memory, virtual_memory e = Ok memory) /\
      swap_memory e = Raise ex ->
      snd (get_virtual_memory_size e tr) =
      if caught [Class OSError; Class AttributeError;
                 Class NotImplementedError] ex
      then Ok 0 else Raise ex) /\
  (forall e,
      snd (run (main e)) = 0 ->
      exists n,
        snd (get_virtual_memory_size e []) = Ok n /\
        In (Printed ("Virtual Memory: " +:+ str_of_int n +:+ "MB"))
           (fst (run (main e))) /\
        forall s,
          In (Printed s) (fst (run (main e))) ->
          startswith "Virtual Memory" s = true ->
          s = "Virtual Memory: " +:+ str_of_int n +:+ "MB") /\
  (forall e s,
      In (Printed s) (fst (run (main e))) ->
      startswith "Virtual Memory" s = true ->
      exists n, s = "Virtual Memory: " +:+ str_of_int n +:+ "MB" /\
                is_numeral (str_of_int n) = true) /\
  (forall e,
      ~ In (Printed "Virtual Memory: information not available")
           (fst (run (main e)))).
Proof.
  assert (Hlines : forall e s,
      In (Printed s) (fst (run (main e))) ->
      startswith "Virtual Memory" s = true ->
      exists n, s = "Virtual Memory: " +:+ str_of_int n +:+ "MB" /\
                is_numeral (str_of_int n) = true).
  { intros e s Hin.
    pose proof (main_virtual_memory_lines e) as HF.
    rewrite List.Forall_forall in HF. exact (HF (Printed s) Hin). }
  repeat split.
  - intros e memory swap tr Hm Hs.
    unfold get_virtual_memory_size, try_except, calling, io_bind, emit, lift.
    rewrite Hm, Hs. reflexivity.
  - intros e ex tr H.
    unfold get_virtual_memory_size, try_except, calling, io_bind, emit, lift.
    destruct H as [Hm | [[memory Hm] Hs]].
    + rewrite Hm. cbn -[caught]. destruct (caught _ ex); reflexivity.
    + rewrite Hm, Hs. cbn -[caught]. destruct (caught _ ex); reflexivity.
  - intros e Hstatus.
    destruct (main_virtual_memory_report e Hstatus) as (n & Hn & Hin & Hall).
    exists n. split; [exact Hn |]. split; [exact Hin |].
    intros s Hs. rewrite List.Forall_forall in Hall.
    exact (Hall (Printed s) Hs).
  - exact Hlines.
  - intros e Hin.
    destruct (Hlines e _ Hin eq_refl) as (n & Heq & Hnum).
    cbn in Heq. injection Heq as Heq.
    destruct (str_of_int n) as [| c rest]; [discriminate |].
    injection Heq as Hc _. subst c. discriminate Hnum.
Qed.

Lemma virtual_memory_size_is_a_number_witness :
  get_virtual_memory_size Samples.windows_host [] =
    ([Called VirtualMemory; Called SwapMemory], Ok 18432) /\
  snd (get_virtual_memory_size Samples.windows_broken_platform []) = Ok 0 /\
  In (Printed "Virtual Memory: 18432MB")
     (fst (run (main Samples.windows_host))).
Proof.
  destruct virtual_memory_size_is_a_number as (H1 & H2 & H3 & _).
  split; [| split].
  - exact (H1 Samples.windows_host _ _ [] eq_refl eq_refl).
  - exact (H2 Samples.windows_broken_platform
             (Exn OSError "no memory counters") []
             (or_introl eq_refl)).
  - destruct (H3 Samples.windows_host eq_refl) as (n & Hn & Hin & _).
    injection Hn as <-. exact Hin.
Defined.

(** C10, refuted as stated: when [psutil.swap_memory()] raises a
    RuntimeError the probe does not return 0, it raises; and the run ends
    with status 1 without a "Virtual Memory" line, indeed without any
    line. *)
Lemma virtual_memory_probe_raises_on_runtime_error :
  swap_memory Samples.windows_swap_runtime_error =
    raise RuntimeError "swap counters unavailable" /\
  get_virtual_memory_size Samples.windows_swap_runtime_error [] =
    ([Called VirtualMemory; Called SwapMemory],
     raise RuntimeError "swap counters unavailable") /\
  snd (get_virtual_memory_size Samples.windows_swap_runtime_error []) <>
    Ok 0 /\
  snd (run (main Samples.windows_swap_runtime_error)) = 1 /\
  Forall (fun ev => match ev with Printed _ => False | Called _ => True end)
         (fst (run (main Samples.windows_swap_runtime_error))).
Proof.
  split; [reflexivity |]. split; [reflexivity |].
  split; [discriminate |]. split; [reflexivity |].
  repeat constructor.
Qed.

(** The fallback that does exist: when the physical-core query raises one
    of the errors the probe names, the logical count is queried next. *)
Lemma processor_count_fallback_on_error e ex tr :
  psutil_cpu_count e = Raise ex ->
  caught [Class OSError; Class AttributeError; Class NotImplementedError]
    ex = true ->
  exists r, get_processor_count e tr =
            ((tr ++ [Called PsutilCpuCount]) ++ [Called OsCpuCount], r).
Proof.
  intros Hp Hc.
  unfold get_processor_count, try_except, calling, io_bind, emit, lift.
  rewrite Hp. cbn -[caught]. rewrite Hc.
  destruct (os_cpu_count e) as [n | ex']; cbn -[caught].
  - eexists. reflexivity.
  - destruct (caught _ ex'); eexists; reflexivity.
Qed.

(** C7: on a host where the physical-core query answers [None] (no usable
    count) and the logical count would be 8, the processor-count probe
    returns 0 after the physical-core query alone: the logical count is
    never queried. *)
Theorem processor_count_none_skips_fallback :
  psutil_cpu_count Samples.windows_host = Ok None /\
  os_cpu_count Samples.windows_host = Ok (Some 8) /\
  get_processor_count Samples.windows_host [] =
    ([Called PsutilCpuCount], Ok 0).
Proof. repeat split. Qed.

End WindowsFacts.

(** *** The Linux script *)

Module LinuxFacts.
Import Py Linux Numerals.

Lemma appends_print s : appends (print s).
Proof. apply appends_emit. Qed.

Ltac grow :=
  first
    [ apply appends_ret
    | apply appends_lift
    | apply appends_print
    | apply appends_try; [| intros ?]
    | apply appends_bind; [| intros ?] ].

Lemma appends_print_ram e mem_info : appends (print_ram e mem_info).
Proof. unfold print_ram. destruct (0 <? _); repeat grow. Qed.

Lemma appends_print_swap e : appends (print_swap e).
Proof.
  unfold print_swap. destruct (get_swap_info e) as [total free].
  destruct (0 <? _); repeat grow.
Qed.

Lemma appends_print_virtual_memory mem_info :
  appends (print_virtual_memory mem_info).
Proof. unfold print_virtual_memory. destruct (0 <? _); repeat grow. Qed.

Lemma appends_print_processors e : appends (print_processors e).
Proof. unfold print_processors. repeat grow. Qed.

Lemma appends_print_load_average load_avg :
  appends (print_load_average load_avg).
Proof. unfold print_load_average. repeat grow. Qed.

Lemma appends_print_drives drives :
  appends (match drives with
           | [] => print "  No drives found"
           | _ => for_each drives print_drive
           end).
Proof.
  destruct drives as [| d ds]; [apply appends_print |].
  apply appends_for_each. intros x. apply appends_print.
Qed.

(** C2: when the mapping parsed from /proc/meminfo has MemTotal = 16000000
    and MemAvailable = 8000000, the RAM step prints exactly
    "RAM: 7812MB free / 15625MB total", and that is the sixth line of the
    report (after the user name has been found). *)
Theorem ram_line_from_meminfo (e : env) :
  get_memory_info e !! "MemTotal" = Some 16000000 ->
  get_memory_info e !! "MemAvailable" = Some 8000000 ->
  (forall tr,
      print_ram e (get_memory_info e) tr =
      (tr ++ ["RAM: 7812MB free / 15625MB total"], Ok tt)) /\
  (forall user,
      getuser e = Ok user ->
      exists rest,
        fst (run (main e)) =
        ["OS: " +:+ get_os_info e;
         "Kernel: " +:+ system (uname e) +:+ " " +:+ release (uname e);
         "Architecture: " +:+ machine (uname e);
         "Hostname: " +:+ node (uname e);
         "User: " +:+ user;
         "RAM: 7812MB free / 15625MB total"] ++ rest).
Proof.
  intros Htotal Havail.
  assert (Hram : forall tr,
      print_ram e (get_memory_info e) tr =
      (tr ++ ["RAM: 7812MB free / 15625MB total"], Ok tt)).
  { intros tr. unfold print_ram. rewrite Htotal, Havail. reflexivity. }
  split; [exact Hram |].
  intros user Huser. rewrite run_trace. unfold main.
  cbn [io_bind print emit lift fst snd app]. rewrite Huser.
  cbn [io_bind print emit lift fst snd app].
  unfold io_bind at 1. rewrite Hram. cbn [app].
  match goal with |- context [fst (?m ?tr)] =>
    assert (Happ : appends m); [| destruct (Happ tr) as [rest Hrest]] end.
  { apply appends_bind; [apply appends_print_swap | intros _].
    apply appends_bind; [apply appends_print_virtual_memory | intros _].
    apply appends_bind; [apply appends_print_processors | intros _].
    apply appends_bind; [apply appends_print_load_average | intros _].
    apply appends_bind; [apply appends_print | intros _].
    apply appends_print_drives. }
  exists rest. rewrite Hrest. reflexivity.
Qed.

Lemma ram_line_from_meminfo_witness :
  nth_error (fst (run (main Samples.linux_host))) 5 =
  Some "RAM: 7812MB free / 15625MB total".
Proof.
  destruct (ram_line_from_meminfo Samples.linux_host eq_refl eq_refl)
    as [_ H].
  destruct (H "alice" eq_refl) as [rest Hrest].
  rewrite Hrest. reflexivity.
Defined.

(** **** The load average *)

Lemma map_result_length {A B} (f : A -> result B) l ys :
  map_result f l = Ok ys -> length ys = length l.
Proof.
  revert ys. induction l as [| x l IH]; simpl; intros ys H.
  - inversion H. reflexivity.
  - destruct (f x) as [y | ex]; simpl in H; [| discriminate].
    destruct (map_result f l) as [ys' | ex]; simpl in H; [| discriminate].
    inversion H. simpl. f_equal. apply IH. reflexivity.
Qed.

(** What the probe does return: three zeros when the source cannot be
    read or one of its first three fields is no float, and else as many
    samples as the source has fields, up to three. *)
Lemma load_average_length e :
  length (get_load_average e) = 3%nat \/
  exists content,
    proc_loadavg e = Ok content /\
    (length (split_ws (strip content)) < 3)%nat /\
    length (get_load_average e) = length (split_ws (strip content)).
Proof.
  unfold get_load_average.
  destruct (proc_loadavg e) as [content | ex]; simpl; [| left; reflexivity].
  destruct (map_result float_of_str _) as [xs | ex] eqn:Hxs; simpl;
    [| left; reflexivity].
  apply map_result_length in Hxs. rewrite length_firstn in Hxs.
  destruct (Nat.lt_ge_cases (length (split_ws (strip content))) 3) as [Hlt | Hge].
  - right. exists content. repeat split; [exact Hlt | lia].
  - left. lia.
Qed.

(** The cases in which the probe does as it is meant to. *)
Lemma load_average_three_fields e content a b c rest x y z :
  proc_loadavg e = Ok content ->
  split_ws (strip content) = a :: b :: c :: rest ->
  float_of_str a = Ok x ->
  float_of_str b = Ok y ->
  float_of_str c = Ok z ->
  get_load_average e = [x; y; z].
Proof.
  intros Hc Hf Ha Hb Hz. unfold get_load_average.
  rewrite Hc. cbn [bind]. rewrite Hf.
  cbn [firstn map_result]. rewrite Ha, Hb, Hz. reflexivity.
Qed.

Lemma load_average_unreadable e ex :
  proc_loadavg e = Raise ex ->
  get_load_average e = [float_zero; float_zero; float_zero].
Proof. intros Hc. unfold get_load_average. rewrite Hc. reflexivity. Qed.

Lemma load_average_malformed e content a rest ex :
  proc_loadavg e = Ok content ->
  split_ws (strip content) = a :: rest ->
  float_of_str a = Raise ex ->
  get_load_average e = [float_zero; float_zero; float_zero].
Proof.
  intros Hc Hf Ha. unfold get_load_average.
  rewrite Hc. cbn [bind]. rewrite Hf.
  cbn [firstn map_result]. rewrite Ha. reflexivity.
Qed.

(** C3: on a readable source with two fields the load-average probe
    returns two samples, and on an empty source it returns the empty list;
    in neither case the three zeros. *)
Theorem load_average_fewer_than_three :
  get_load_average Samples.linux_short_loadavg =
    [float_of_decimal false 5 (-1); float_of_decimal false 4 (-1)] /\
  get_load_average Samples.linux_empty_loadavg = [].
Proof. evaluate. Qed.

(** C1: with two fields in /proc/loadavg the report stops after the
    processor line, at the load-average line, and the exit status is 1. *)
Theorem main_aborts_on_short_loadavg :
  run (main Samples.linux_short_loadavg) =
  (["OS: Foo 1"; "Kernel: Linux 6.1.0"; "Architecture: x86_64";
    "Hostname: host"; "User: alice";
    "RAM: 7812MB free / 15625MB total";
    "Swap: 3071MB total / 2000MB free";
    "Virtual memory: information not available";
    "Processors: 8"], 1) /\
  snd (main Samples.linux_short_loadavg []) =
    raise IndexError "list index out of range".
Proof. evaluate. Qed.

(** **** Swap *)

Lemma swap_lines_sum lines :
  forall sizes acc,
    Forall2 third_field_is (List.filter has_four_fields lines) sizes ->
    swap_lines lines acc = Ok (acc + sum_Z sizes).
Proof.
  induction lines as [| line rest IH]; intros sizes acc H.
  - simpl in H. inversion H. simpl. f_equal. lia.
  - cbn [swap_lines List.filter] in *. unfold swap_line, has_four_fields in *.
    destruct (split_ws line) as [| a [| b [| c [| d more]]]] eqn:Hparts;
      simpl in H |- *; try (apply IH; exact H).
    inversion H as [| ? n ? sizes' [size [Hsize Hint]] Hrest]; subst.
    rewrite Hparts in Hsize. simpl in Hsize. injection Hsize as <-.
    rewrite Hint. simpl. rewrite (IH sizes' (acc + n) Hrest).
    f_equal. simpl. lia.
Qed.

(** One row that [int] refuses ends the loop. *)
Lemma swap_lines_raise lines :
  forall bad a b c d more ex acc,
    In bad lines ->
    split_ws bad = a :: b :: c :: d :: more ->
    int_of_str c = Raise ex ->
    exists ex', swap_lines lines acc = Raise ex'.
Proof.
  induction lines as [| l ls IH]; intros bad a b c d more ex acc Hin Hp Hi.
  - destruct Hin.
  - cbn [swap_lines].
    destruct (swap_line acc l) as [acc' | ex'] eqn:Hl.
    + cbn [bind]. destruct Hin as [-> | Hin].
      * unfold swap_line in Hl. rewrite Hp, Hi in Hl. discriminate Hl.
      * exact (IH bad a b c d more ex acc' Hin Hp Hi).
    + exists ex'. reflexivity.
Qed.

(** C6, as the code has it: total swap is the sum of the third field over
    the lines after the header that have at least four fields (each such
    field being an integer that [int] accepts), in kilobytes as read, and
    free swap is the memory mapping's SwapFree, 0 when the key is absent;
    with no line after the header the total is 0; and when the swap table
    cannot be read the result is (0, 0).  [int] accepts the numeral of
    every integer of at most 4300 digits; a row of at least four fields
    whose third field is a longer numeral, or any string of more than
    4300 digits, makes the result (0, 0). *)
Theorem swap_info_sums_rows :
  (forall e content sizes,
      proc_swaps e = Ok content ->
      Forall2 third_field_is
        (List.filter has_four_fields (tail (readlines content))) sizes ->
      get_swap_info e =
      (sum_Z sizes, default 0 (get_memory_info e !! "SwapFree"))) /\
  (forall e content,
      proc_swaps e = Ok content ->
      tail (readlines content) = [] ->
      get_swap_info e = (0, default 0 (get_memory_info e !! "SwapFree"))) /\
  (forall e ex,
      proc_swaps e = Raise ex ->
      get_swap_info e = (0, 0)) /\
  (forall line n,
      split_ws line !! 2%nat = Some (str_of_int n) ->
      within_digit_limit n ->
      third_field_is line n) /\
  (forall e content line n,
      proc_swaps e = Ok content ->
      In line (tail (readlines content)) ->
      has_four_fields line = true ->
      split_ws line !! 2%nat = Some (str_of_int n) ->
      ~ within_digit_limit n ->
      get_swap_info e = (0, 0)) /\
  (forall e content line size,
      proc_swaps e = Ok content ->
      In line (tail (readlines content)) ->
      has_four_fields line = true ->
      split_ws line !! 2%nat = Some size ->
      all_digits size = true ->
      (int_max_str_digits < String.length size)%nat ->
      get_swap_info e = (0, 0)).
Proof.
  assert (Hspoils : forall e content line size ex,
      proc_swaps e = Ok content ->
      In line (tail (readlines content)) ->
      has_four_fields line = true ->
      split_ws line !! 2%nat = Some size ->
      int_of_str size = Raise ex ->
      get_swap_info e = (0, 0)).
  { intros e content line size ex Hc Hin Hfour Hfield Hex.
    unfold has_four_fields in Hfour. apply Nat.leb_le in Hfour.
    destruct (split_ws line) as [| a [| b [| c [| d more]]]] eqn:Hparts;
      cbn [length] in Hfour; try lia.
    cbn in Hfield. injection Hfield as ->.
    unfold get_swap_info. rewrite Hc. cbn [bind].
    destruct (swap_lines_raise _ line a b size d more ex 0
                Hin Hparts Hex) as [ex' ->].
    reflexivity. }
  assert (H1 : forall e content sizes,
      proc_swaps e = Ok content ->
      Forall2 third_field_is
        (List.filter has_four_fields (tail (readlines content))) sizes ->
      get_swap_info e =
      (sum_Z sizes, default 0 (get_memory_info e !! "SwapFree"))).
  { intros e content sizes Hc Hrows. unfold get_swap_info.
    rewrite Hc. cbn [bind]. rewrite (swap_lines_sum _ sizes 0 Hrows).
    reflexivity. }
  repeat split.
  - exact H1.
  - intros e content Hc Hnil. apply (H1 e content []); [exact Hc |].
    rewrite Hnil. constructor.
  - intros e ex Hc. unfold get_swap_info. rewrite Hc. reflexivity.
  - intros line n Hfield Hn. exists (str_of_int n).
    split; [exact Hfield | apply int_of_str_of_int; exact Hn].
  - intros e content line n Hc Hin Hfour Hfield Hn.
    destruct (int_of_str_beyond n Hn) as [ex Hex].
    exact (Hspoils e content line _ ex Hc Hin Hfour Hfield Hex).
  - intros e content line size Hc Hin Hfour Hfield Hd Hlen.
    destruct (int_of_str_long_digits size Hd Hlen) as [ex Hex].
    exact (Hspoils e content line _ ex Hc Hin Hfour Hfield Hex).
Qed.

Lemma swap_info_sums_rows_witness :
  get_swap_info Samples.linux_host = (3145724, 2048000) /\
  get_swap_info Samples.linux_long_swap_size = (0, 0).
Proof.
  destruct swap_info_sums_rows as (Hsum & _ & _ & Hfield & _ & Hlong).
  split.
  - apply (Hsum Samples.linux_host _ [2097148; 1048576] eq_refl).
    constructor;
      [apply (Hfield _ 2097148);
       [reflexivity | apply within_digit_limit_small; reflexivity] |].
    constructor;
      [apply (Hfield _ 1048576);
       [reflexivity | apply within_digit_limit_small; reflexivity] |].
    constructor.
  - apply (Hlong Samples.linux_long_swap_size
             (Samples.unlines ["Filename Type Size Used Priority";
                               Samples.long_swap_row])
             (Samples.unlines [Samples.long_swap_row])
             Samples.long_swap_size).
    + reflexivity.
    + vm_compute. apply or_introl. reflexivity.
    + vm_compute. reflexivity.
    + vm_compute. reflexivity.
    + vm_compute. reflexivity.
    + apply Nat.ltb_lt. vm_compute. reflexivity.
Defined.

(** C6, refuted as stated: a line after the header with three fields has
    a third column, 2097148, yet the probe reports a total of 0. *)
Lemma swap_total_skips_three_field_line :
  proc_swaps Samples.linux_short_swaps = Ok Samples.short_swap_table /\
  third_column_sum (tail (readlines Samples.short_swap_table)) = 2097148 /\
  fst (get_swap_info Samples.linux_short_swaps) = 0 /\
  fst (get_swap_info Samples.linux_short_swaps) <>
    third_column_sum (tail (readlines Samples.short_swap_table)).
Proof.
  split; [reflexivity |]. split; [vm_compute; reflexivity |].
  split; [vm_compute; reflexivity |]. vm_compute. discriminate.
Qed.

(** **** The OS identity *)

Lemma append_cons c (a b : string) : String c a +:+ b = String c (a +:+ b).
Proof. reflexivity. Qed.

Lemma append_nil (b : string) : EmptyString +:+ b = b.
Proof. reflexivity. Qed.

Lemma append_assoc (a b c : string) : (a +:+ b) +:+ c = a +:+ (b +:+ c).
Proof.
  induction a as [| d a IH]; rewrite ?append_cons, ?append_nil.
  - reflexivity.
  - rewrite IH. reflexivity.
Qed.

Lemma contains_char_app c a b :
  contains_char c (a +:+ b) = contains_char c a || contains_char c b.
Proof.
  induction a as [| d a IH]; rewrite ?append_cons, ?append_nil; simpl.
  - reflexivity.
  - rewrite IH. apply orb_assoc.
Qed.

Lemma split_first_at c a b :
  contains_char c a = false ->
  split_first c (a +:+ String c b) = [a; b].
Proof.
  induction a as [| d a IH]; rewrite ?append_cons, ?append_nil; simpl;
    intros H.
  - rewrite Ascii.eqb_refl. reflexivity.
  - apply orb_false_elim in H as [Hd Ha].
    rewrite Ascii.eqb_sym, Hd, (IH Ha). reflexivity.
Qed.

Lemma contains_char_split c s :
  contains_char c s = true ->
  exists a b, s = a +:+ String c b /\ contains_char c a = false.
Proof.
  induction s as [| d s IH]; simpl; intros H; [discriminate |].
  destruct (Ascii.eqb_spec c d) as [<- | Hne].
  - exists EmptyString, s. split; reflexivity.
  - destruct (IH H) as (a & b & -> & Ha).
    exists (String d a), b. split; [reflexivity |]. simpl.
    rewrite Ha. apply Ascii.eqb_neq in Hne. rewrite Hne. reflexivity.
Qed.

Lemma first_separator_unique c a a' b b' :
  contains_char c a = false ->
  contains_char c a' = false ->
  a +:+ String c b = a' +:+ String c b' ->
  a = a' /\ b = b'.
Proof.
  revert a'. induction a as [| d a IH]; intros [| d' a'] Ha Ha' H;
    rewrite ?append_cons, ?append_nil in H; simpl in Ha, Ha'.
  - inversion H. split; reflexivity.
  - inversion H; subst. rewrite Ascii.eqb_refl in Ha'. discriminate.
  - inversion H; subst. rewrite Ascii.eqb_refl in Ha. discriminate.
  - inversion H; subst.
    apply orb_false_elim in Ha as [_ Ha].
    apply orb_false_elim in Ha' as [_ Ha'].
    destruct (IH a' Ha Ha' H2) as [-> ->]. split; reflexivity.
Qed.

Lemma strip_prefix_app p s : strip_prefix p (p +:+ s) = Some s.
Proof.
  induction p as [| c p IH]; rewrite ?append_cons, ?append_nil; simpl.
  - reflexivity.
  - rewrite Ascii.eqb_refl. exact IH.
Qed.

Lemma strip_prefix_some p s v : strip_prefix p s = Some v -> s = p +:+ v.
Proof.
  revert s. induction p as [| c p IH]; intros s H; simpl in H.
  - inversion H. reflexivity.
  - destruct s as [| d s]; [discriminate |].
    destruct (Ascii.eqb_spec c d) as [<- | _]; [| discriminate].
    rewrite (IH s H). reflexivity.
Qed.

(** One line of /etc/os-release never raises, and what it does to a key
    without an equals sign in it. *)
Lemma os_release_line_lookup os_info line key :
  contains_char "="%char key = false ->
  exists os_info',
    os_release_line os_info line = Ok os_info' /\
    os_info' !! key =
    match strip_prefix (key +:+ "=") line with
    | Some v => Some (strip_chars (String quote EmptyString) v)
    | None => os_info !! key
    end.
Proof.
  intros Hkey. unfold os_release_line.
  destruct (contains_char "="%char line) eqn:Hline.
  - destruct (contains_char_split _ _ Hline) as (a & b & -> & Ha).
    rewrite (split_first_at _ a b Ha). cbn [unpack2 bind fst snd].
    eexists. split; [reflexivity |].
    destruct (strip_prefix (key +:+ "=") (a +:+ String "="%char b))
      as [v |] eqn:Hp.
    + apply strip_prefix_some in Hp. rewrite append_assoc in Hp.
      change ("=" +:+ v) with (String "="%char v) in Hp.
      destruct (first_separator_unique _ _ _ _ _ Ha Hkey Hp) as [-> ->].
      apply lookup_insert_eq.
    + rewrite lookup_insert_ne; [reflexivity |].
      intros ->. change (String "="%char b) with ("=" +:+ b) in Hp.
      rewrite <- append_assoc, strip_prefix_app in Hp. discriminate.
  - exists os_info. split; [reflexivity |].
    destruct (strip_prefix (key +:+ "=") line) as [v |] eqn:Hp;
      [| reflexivity].
    apply strip_prefix_some in Hp. subst line.
    rewrite !contains_char_app in Hline. simpl in Hline.
    rewrite orb_true_r in Hline. discriminate.
Qed.

Lemma os_release_lines_lookup lines :
  forall os_info key,
    contains_char "="%char key = false ->
    exists os_info',
      os_release_lines lines os_info = Ok os_info' /\
      os_info' !! key =
      match last_assignment key lines with
      | Some v => Some (strip_chars (String quote EmptyString) v)
      | None => os_info !! key
      end.
Proof.
  induction lines as [| line rest IH]; intros os_info key Hkey.
  - exists os_info. split; reflexivity.
  - cbn [os_release_lines last_assignment].
    destruct (os_release_line_lookup os_info line key Hkey)
      as (m1 & Hline & Hm1).
    rewrite Hline. cbn [bind].
    destruct (IH m1 key Hkey) as (m2 & Hrest & Hm2).
    exists m2. split; [exact Hrest |]. rewrite Hm2.
    destruct (last_assignment key rest); [reflexivity | exact Hm1].
Qed.

Lemma os_release_lines_total lines os_info :
  exists os_info', os_release_lines lines os_info = Ok os_info'.
Proof.
  destruct (os_release_lines_lookup lines os_info "" eq_refl) as (m & H & _).
  exists m. exact H.
Qed.

Lemma split_join_lines lines :
  lines <> [] ->
  Forall no_newline lines ->
  split_char nl (join_lines lines) = lines.
Proof.
  assert (Hone : forall l, no_newline l -> split_char nl l = [l]).
  { induction l as [| c l IH]; intros H; [reflexivity |].
    unfold no_newline in H. cbn [contains_char] in H.
    apply orb_false_elim in H as [Hc Hl].
    cbn [split_char]. rewrite Ascii.eqb_sym, Hc, (IH Hl). reflexivity. }
  assert (Hcons : forall l rest,
             no_newline l ->
             split_char nl (l +:+ String nl rest) = l :: split_char nl rest).
  { induction l as [| c l IH]; intros rest H;
      rewrite ?append_cons, ?append_nil.
    - cbn [split_char]. rewrite Ascii.eqb_refl. reflexivity.
    - unfold no_newline in H. cbn [contains_char] in H.
      apply orb_false_elim in H as [Hc Hl].
      cbn [split_char]. rewrite Ascii.eqb_sym, Hc, (IH rest Hl).
      reflexivity. }
  induction lines as [| l ls IH]; intros Hne HF; [congruence |].
  inversion HF as [| ? ? Hl Hls]; subst.
  destruct ls as [| l' ls'].
  - simpl. apply Hone. exact Hl.
  - change (join_lines (l :: l' :: ls'))
      with (l +:+ String nl (join_lines (l' :: ls'))).
    rewrite (Hcons l _ Hl), IH; [reflexivity | congruence | exact Hls].
Qed.

Lemma is_quote_true c : is_quote c = true -> c = quote.
Proof.
  unfold is_quote. cbn [contains_char]. rewrite orb_false_r.
  intros H. apply Ascii.eqb_eq. exact H.
Qed.

Lemma lstrip_unquoted v :
  first_char v <> Some quote -> lstrip_by is_quote v = v.
Proof.
  destruct v as [| c v]; [reflexivity |]. cbn [first_char lstrip_by].
  intros H. destruct (is_quote c) eqn:Hc; [| reflexivity].
  apply is_quote_true in Hc. congruence.
Qed.

Lemma rstrip_unquoted v :
  last_char v <> Some quote -> rstrip_by is_quote v = v.
Proof.
  induction v as [| c v IH]; [reflexivity |]. cbn [last_char rstrip_by].
  destruct v as [| d v'].
  - intros H. cbn [rstrip_by]. destruct (is_quote c) eqn:Hc; [| reflexivity].
    apply is_quote_true in Hc. congruence.
  - intros H. rewrite (IH H). reflexivity.
Qed.

Lemma rstrip_closing_quote v :
  rstrip_by is_quote (v +:+ String quote EmptyString) = rstrip_by is_quote v.
Proof.
  induction v as [| c v IH]; rewrite ?append_cons, ?append_nil.
  - reflexivity.
  - cbn [rstrip_by]. rewrite IH. reflexivity.
Qed.

Lemma last_char_app_quote v :
  last_char (v +:+ String quote EmptyString) = Some quote.
Proof.
  induction v as [| c v IH]; rewrite ?append_cons, ?append_nil.
  - reflexivity.
  - cbn [last_char]. rewrite IH.
    destruct (v +:+ String quote EmptyString) eqn:Hv; [| reflexivity].
    destruct v; discriminate.
Qed.

(** Stripping double quotes leaves an unquoted value alone and takes
    the quotes off a quoted one. *)
Lemma strip_quotes v :
  unquoted v ->
  strip_chars (String quote EmptyString) v = v /\
  strip_chars (String quote EmptyString) (quoted v) = v.
Proof.
  intros [Hfirst Hlast]. unfold strip_chars, strip_by. fold is_quote.
  split.
  - rewrite (lstrip_unquoted v Hfirst). apply rstrip_unquoted. exact Hlast.
  - unfold quoted. cbn [lstrip_by]. change (is_quote quote) with true.
    cbv iota.
    destruct v as [| c v].
    + reflexivity.
    + rewrite append_cons.
      assert (Hc : is_quote c = false).
      { destruct (is_quote c) eqn:Hc; [| reflexivity].
        apply is_quote_true in Hc. cbn [first_char] in Hfirst. congruence. }
      cbn [lstrip_by]. rewrite Hc. rewrite <- append_cons.
      rewrite rstrip_closing_quote. apply rstrip_unquoted. exact Hlast.
Qed.

(** C4, as the code has it: when /etc/os-release exists and is read, the
    OS-identity probe returns the value of the last PRETTY_NAME= line with
    every double quote at its ends stripped; so a value that neither
    begins nor ends with a double quote comes back verbatim, without the
    quotes around it when it is quoted in the file and unchanged when it
    is not.  When no line begins with PRETTY_NAME= and NAME and VERSION
    are assigned, it returns the stripped NAME, one space, and the
    stripped VERSION. *)
Theorem os_identity_from_os_release (e : env) (lines : list string) :
  os_release_exists e = true ->
  os_release e = Ok (join_lines lines) ->
  Forall no_newline lines ->
  (forall v,
      last_assignment "PRETTY_NAME" lines = Some v ->
      get_os_info e = strip_chars (String quote EmptyString) v /\
      (unquoted v -> get_os_info e = v) /\
      (forall w, unquoted w -> v = quoted w -> get_os_info e = w)) /\
  (last_assignment "PRETTY_NAME" lines = None ->
   forall name version,
     last_assignment "NAME" lines = Some name ->
     last_assignment "VERSION" lines = Some version ->
     get_os_info e =
     strip_chars (String quote EmptyString) name +:+ " " +:+
     strip_chars (String quote EmptyString) version /\
     (forall n v,
         unquoted n -> unquoted v ->
         name = n \/ name = quoted n ->
         version = v \/ version = quoted v ->
         get_os_info e = n +:+ " " +:+ v)).
Proof.
  intros Hexists Hread Hlines.
  destruct lines as [| l ls].
  { split; [intros v H; discriminate H | intros _ n v H; discriminate H]. }
  assert (Hstrip : forall w x, unquoted w -> x = w \/ x = quoted w ->
                     strip_chars (String quote EmptyString) x = w).
  { intros w x Hu [-> | ->]; apply (strip_quotes w Hu). }
  assert (Hsplit : split_char nl (join_lines (l :: ls)) = l :: ls).
  { apply split_join_lines; [congruence | exact Hlines]. }
  destruct (os_release_lines_total (l :: ls) ∅) as [os_info Hinfo].
  assert (Hlook : forall key,
             contains_char "="%char key = false ->
             os_info !! key =
             match last_assignment key (l :: ls) with
             | Some v => Some (strip_chars (String quote EmptyString) v)
             | None => None
             end).
  { intros key Hkey.
    destruct (os_release_lines_lookup (l :: ls) ∅ key Hkey) as (m & Hm & Hk).
    rewrite Hinfo in Hm. injection Hm as <-. rewrite Hk.
    destruct (last_assignment key (l :: ls)); [reflexivity |].
    apply lookup_empty. }
  assert (Hbody : os_release_name e =
                  match os_info !! "PRETTY_NAME" with
                  | Some pretty => Ok (Some pretty)
                  | None =>
                    match os_info !! "NAME", os_info !! "VERSION" with
                    | Some name, Some version =>
                      Ok (Some (name +:+ " " +:+ version))
                    | _, _ => Ok None
                    end
                  end).
  { unfold os_release_name. rewrite Hexists, Hread. cbn [bind].
    rewrite Hsplit, Hinfo. reflexivity. }
  split.
  - intros v Hv.
    assert (Hget : get_os_info e = strip_chars (String quote EmptyString) v).
    { unfold get_os_info. rewrite Hbody, (Hlook "PRETTY_NAME" eq_refl), Hv.
      reflexivity. }
    split; [exact Hget |]. split.
    + intros Hu. rewrite Hget. apply (strip_quotes v Hu).
    + intros w Hu ->. rewrite Hget. apply (strip_quotes w Hu).
  - intros Hnone name version Hname Hversion.
    assert (Hget : get_os_info e =
                   strip_chars (String quote EmptyString) name +:+ " " +:+
                   strip_chars (String quote EmptyString) version).
    { unfold get_os_info.
      rewrite Hbody, (Hlook "PRETTY_NAME" eq_refl), Hnone,
        (Hlook "NAME" eq_refl), Hname, (Hlook "VERSION" eq_refl), Hversion.
      reflexivity. }
    split; [exact Hget |].
    intros n v Hn Hv Hname' Hversion'.
    rewrite Hget, (Hstrip n name Hn Hname'), (Hstrip v version Hv Hversion').
    reflexivity.
Qed.

Lemma os_identity_from_os_release_witness :
  get_os_info Samples.linux_host = "Foo 1" /\
  get_os_info Samples.linux_pretty_name = "Foo Linux 1".
Proof.
  split.
  - destruct (os_identity_from_os_release Samples.linux_host
                ["NAME=Foo"; "VERSION=1"; ""] eq_refl eq_refl) as [_ H].
    + repeat constructor.
    + destruct (H eq_refl "Foo" "1" eq_refl eq_refl) as [_ Hv].
      apply (Hv "Foo" "1"); [split; discriminate | split; discriminate | ..];
        apply or_introl; reflexivity.
  - destruct (os_identity_from_os_release Samples.linux_pretty_name
                ["NAME=Foo"; "PRETTY_NAME=" +:+ quoted "Foo Linux 1";
                 "VERSION=1"; ""] eq_refl eq_refl) as [H _].
    + repeat constructor.
    + destruct (H (quoted "Foo Linux 1") eq_refl) as (_ & _ & Hq).
      apply Hq; [| reflexivity].
      split; discriminate.
Defined.

(** C4, refuted as stated: the file assigns PRETTY_NAME the name
    [best_name] between double quotes, and the probe returns the name
    without its last character: stripping takes every double quote off
    the end, the one that belongs to the name too. *)
Lemma pretty_name_loses_closing_escaped_quote :
  os_release Samples.linux_escaped_quote =
    Ok (Samples.unlines ["PRETTY_NAME=" +:+ quoted Samples.best_name]) /\
  get_os_info Samples.linux_escaped_quote =
    "The " +:+ String Samples.backslash (String quote
      ("Best" +:+ String Samples.backslash EmptyString)) /\
  get_os_info Samples.linux_escaped_quote <> Samples.best_name.
Proof.
  split; [reflexivity |]. split; [vm_compute; reflexivity |].
  vm_compute. discriminate.
Qed.

(** **** Disks *)

Import FloatFacts.

(** What an emitted entry was computed from. *)
Lemma disk_usage_some e mount fs d :
  disk_usage e mount fs = Ok (Some d) ->
  exists st total free,
    statvfs e mount = Ok st /\
    int_truediv (Z.of_N (f_blocks st * f_frsize st)) (1024 ^ 3) = Ok total /\
    int_truediv (Z.of_N (f_bfree st * f_frsize st)) (1024 ^ 3) = Ok free /\
    float_ltb total one_tenth = false /\
    round1 total = Ok (total_gb d) /\
    round1 free = Ok (free_gb d) /\
    mount_point d = mount /\ Linux.fs_type d = fs.
Proof.
  unfold disk_usage. intros H.
  destruct (statvfs e mount) as [st | ex]; [| discriminate H].
  cbn [bind] in H.
  destruct (int_truediv (Z.of_N (f_blocks st * f_frsize st)) (1024 ^ 3))
    as [total | ex] eqn:Ht; [| discriminate H].
  cbn [bind] in H.
  destruct (int_truediv (Z.of_N (f_bfree st * f_frsize st)) (1024 ^ 3))
    as [free | ex] eqn:Hf; [| discriminate H].
  cbn [bind] in H.
  destruct (float_ltb total one_tenth) eqn:Hlt; [discriminate H |].
  destruct (round1 total) as [t1 | ex] eqn:Ht1; [| discriminate H].
  cbn [bind] in H.
  destruct (round1 free) as [f1 | ex] eqn:Hf1; [| discriminate H].
  cbn [bind] in H. inversion H; subst d. cbn.
  exists st, total, free. repeat split; reflexivity || assumption.
Qed.

Lemma disk_entry_some e line d :
  disk_entry e line = Some d ->
  exists device mount fs options rest,
    split_ws line = device :: mount :: fs :: options :: rest /\
    in_list fs special_fs = false /\
    startswith_any virtual_devices device = false /\
    disk_usage e mount fs = Ok (Some d).
Proof.
  unfold disk_entry. intros H.
  destruct (split_ws line) as [| device [| mount [| fs [| options rest]]]];
    try discriminate H.
  destruct (in_list fs special_fs) eqn:Hfs; [discriminate H |].
  destruct (startswith_any virtual_devices device) eqn:Hdev;
    [discriminate H |].
  exists device, mount, fs, options, rest.
  repeat split; try assumption.
  destruct (disk_usage e mount fs) as [[d' |] | ex]; cbn in H;
    try discriminate H.
  inversion H. reflexivity.
Qed.

Lemma get_disk_info_from_line e d :
  In d (get_disk_info e) ->
  exists content line,
    proc_mounts e = Ok content /\
    In line (readlines content) /\
    disk_entry e line = Some d.
Proof.
  unfold get_disk_info. intros H.
  destruct (proc_mounts e) as [content | ex]; [| destruct H].
  apply list_elem_of_In, list_elem_of_omap in H as (line & Hin & Hd).
  exists content, line. repeat split; [| exact Hd].
  apply list_elem_of_In. exact Hin.
Qed.

Lemma get_disk_info_of_line e content line d :
  proc_mounts e = Ok content ->
  In line (readlines content) ->
  disk_entry e line = Some d ->
  In d (get_disk_info e).
Proof.
  intros Hc Hin Hd. unfold get_disk_info. rewrite Hc.
  apply list_elem_of_In, list_elem_of_omap. exists line.
  split; [apply list_elem_of_In; exact Hin | exact Hd].
Qed.

(** C9, as the code has it: the probe passes on what [os.statvfs] reports,
    so when no file system reports more free blocks than blocks, every
    emitted entry has free_gb <= total_gb, after the division by 2^30 and
    the rounding to one decimal of both. *)
Theorem free_at_most_total (e : env) (d : drive) :
  (forall mount st,
      statvfs e mount = Ok st -> (f_bfree st <= f_blocks st)%N) ->
  In d (get_disk_info e) ->
  float_leb (free_gb d) (total_gb d) = true.
Proof.
  intros Hsane Hin.
  destruct (get_disk_info_from_line e d Hin) as (content & line & _ & _ & Hd).
  destruct (disk_entry_some e line d Hd)
    as (device & mount & fs & options & rest & _ & _ & _ & Hu).
  destruct (disk_usage_some e mount fs d Hu)
    as (st & total & free & Hst & Ht & Hf & _ & Ht1 & Hf1 & _).
  specialize (Hsane mount st Hst).
  assert (Hpow : 0 < 1024 ^ 3) by reflexivity.
  apply int_truediv_nonneg in Ht as [-> _]; [| lia | exact Hpow].
  apply int_truediv_nonneg in Hf as [-> _]; [| lia | exact Hpow].
  eapply round1_mono; [| | exact Hf1 | exact Ht1].
  - apply nearest_nonneg; lia.
  - apply nearest_mono; [exact Hpow | lia |].
    apply N2Z.inj_le. apply N.mul_le_mono_r. exact Hsane.
Qed.

Lemma one_tenth_eq : one_tenth = Fin false (nearest 1 10).
Proof.
  unfold one_tenth, float_of_decimal, round_ratio.
  change (0 <=? -1) with false. cbv iota.
  change (10 ^ (- -1)) with 10.
  assert (H : (nearest 1 10 <? huge) = true) by (vm_compute; reflexivity).
  rewrite H. reflexivity.
Qed.

(** A size below a tenth of 2^30 bytes is below the float 0.1 once divided
    by 2^30. *)
Lemma below_one_tenth a :
  0 <= a -> 10 * a < 2 ^ 30 ->
  nearest a (1024 ^ 3) < nearest 1 10.
Proof.
  intros Ha Hlt.
  assert (Hle : a <= 107374182) by lia.
  eapply Z.le_lt_trans.
  - apply nearest_mono; [reflexivity | exact Ha | exact Hle].
  - apply Z.ltb_lt. vm_compute. reflexivity.
Qed.

Lemma small_total_excluded e mount fs st :
  statvfs e mount = Ok st ->
  (10 * (f_blocks st * f_frsize st) < 2 ^ 30)%N ->
  catch_all (disk_usage e mount fs) None = None.
Proof.
  intros Hst Hsmall. unfold disk_usage. rewrite Hst. cbn [bind].
  set (a := Z.of_N (f_blocks st * f_frsize st)).
  assert (Ha : 0 <= a) by (unfold a; lia).
  assert (Hlt : 10 * a < 2 ^ 30) by (unfold a; lia).
  pose proof (below_one_tenth a Ha Hlt) as Hbelow.
  assert (Hfin : nearest a (1024 ^ 3) < huge).
  { eapply Z.lt_trans; [exact Hbelow |].
    apply Z.ltb_lt. vm_compute. reflexivity. }
  rewrite (int_truediv_finite a (1024 ^ 3) Ha eq_refl Hfin). cbn [bind].
  destruct (int_truediv _ _) as [free | ex]; [| reflexivity].
  cbn [bind]. rewrite one_tenth_eq. unfold float_ltb, position.
  apply Z.ltb_lt in Hbelow. rewrite Hbelow. reflexivity.
Qed.

(** Sizes a 64-bit block count can give stay finite, and so does their
    rounding to one decimal. *)
Lemma free_space_finite a :
  0 <= a -> a <= 2 ^ 100 ->
  exists free free1,
    int_truediv a (1024 ^ 3) = Ok free /\ round1 free = Ok free1.
Proof.
  intros Ha Hle.
  assert (Hk : nearest a (1024 ^ 3) <= nearest (2 ^ 100) (1024 ^ 3)).
  { apply nearest_mono; [reflexivity | exact Ha | exact Hle]. }
  assert (Hfin : nearest a (1024 ^ 3) < huge).
  { eapply Z.le_lt_trans; [exact Hk |].
    apply Z.ltb_lt. vm_compute. reflexivity. }
  exists (Fin false (nearest a (1024 ^ 3))).
  eexists. split; [apply int_truediv_finite; [exact Ha | reflexivity | exact Hfin] |].
  unfold round1, round_ratio.
  pose proof scale_pos as Hs.
  pose proof (nearest_nonneg a (1024 ^ 3) eq_refl Ha) as Hk0.
  assert (Hr : nearest (half_even (nearest a (1024 ^ 3) * 10) scale) 10 < huge).
  { eapply Z.le_lt_trans.
    - apply nearest_mono; [lia | apply half_even_nonneg; lia |].
      apply half_even_mono; [exact Hs |].
      apply Z.mul_le_mono_nonneg_r; [lia | exact Hk].
    - apply Z.ltb_lt. vm_compute. reflexivity. }
  apply Z.ltb_lt in Hr. rewrite Hr. reflexivity.
Qed.

Lemma fifty_gb :
  int_truediv (Z.of_N (50 * 2 ^ 30)) (1024 ^ 3) = Ok fifty /\
  float_ltb fifty one_tenth = false /\
  round1 fifty = Ok fifty.
Proof. evaluate. Qed.

(** C5, as the code has it: a record of type tmpfs is excluded whatever
    its device and mount point; a record of type ext4 whose file system
    has 50 * 2^30 bytes is included, with a total of 50.0, when its device
    does not start with /dev/loop, udev or none; and a record
    whose total is below a tenth of 2^30 bytes, 0.05 GB for one, is
    excluded whatever its type.  (The free-block count is taken to fit
    the 64 bits of the C field.) *)
Theorem mount_table_filtering :
  (forall e line,
      split_ws line !! 2%nat = Some "tmpfs" ->
      disk_entry e line = None) /\
  (forall e line device mount options rest st,
      split_ws line = device :: mount :: "ext4" :: options :: rest ->
      startswith_any virtual_devices device = false ->
      statvfs e mount = Ok st ->
      (f_blocks st * f_frsize st = 50 * 2 ^ 30)%N ->
      (f_bfree st < 2 ^ 64)%N ->
      exists free,
        let d := {| mount_point := mount; Linux.fs_type := "ext4";
                    total_gb := fifty; free_gb := free |} in
        disk_entry e line = Some d /\
        forall content,
          proc_mounts e = Ok content ->
          In line (readlines content) ->
          In d (get_disk_info e)) /\
  (forall e line device mount fs options rest st,
      split_ws line = device :: mount :: fs :: options :: rest ->
      statvfs e mount = Ok st ->
      (10 * (f_blocks st * f_frsize st) < 2 ^ 30)%N ->
      disk_entry e line = None).
Proof.
  repeat split.
  - intros e line Hfs. unfold disk_entry.
    destruct (split_ws line) as [| device [| mount [| fs [| options rest]]]];
      try reflexivity.
    cbn in Hfs. injection Hfs as ->. reflexivity.
  - intros e line device mount options rest st Hparts Hdev Hst Htotal Hfree.
    assert (Hfr : (f_frsize st <= 2 ^ 36)%N).
    { change (50 * 2 ^ 30)%N with 53687091200%N in Htotal.
      change (2 ^ 36)%N with 68719476736%N.
      destruct (N.eq_dec (f_blocks st) 0%N) as [Hz | Hnz];
        [rewrite Hz in Htotal; discriminate Htotal | nia]. }
    destruct (free_space_finite (Z.of_N (f_bfree st * f_frsize st)))
      as (free & free1 & Hf & Hf1); [lia | |].
    { change (2 ^ 100) with (Z.of_N (2 ^ 64 * 2 ^ 36)%N).
      apply N2Z.inj_le. apply N.mul_le_mono; [apply N.lt_le_incl; exact Hfree | exact Hfr]. }
    destruct fifty_gb as (Ht & Hlt & Ht1).
    assert (Hentry : disk_entry e line =
                     Some {| mount_point := mount; Linux.fs_type := "ext4";
                             total_gb := fifty; free_gb := free1 |}).
    { unfold disk_entry. rewrite Hparts.
      change (in_list "ext4" special_fs) with false. cbv iota.
      rewrite Hdev. unfold disk_usage. rewrite Hst. cbn [bind].
      rewrite Htotal, Ht. cbn [bind]. rewrite Hf. cbn [bind].
      rewrite Hlt, Ht1. cbn [bind]. rewrite Hf1. reflexivity. }
    exists free1. cbv zeta. split; [exact Hentry |].
    intros content Hc Hin.
    exact (get_disk_info_of_line e content line _ Hc Hin Hentry).
  - intros e line device mount fs options rest st Hparts Hst Hsmall.
    unfold disk_entry. rewrite Hparts.
    destruct (in_list fs special_fs); [reflexivity |].
    destruct (startswith_any virtual_devices device); [reflexivity |].
    exact (small_total_excluded e mount fs st Hst Hsmall).
Qed.

Lemma mount_table_filtering_witness :
  disk_entry Samples.linux_host Samples.tmpfs_line = None /\
  (exists free,
      disk_entry Samples.linux_host Samples.root_line =
      Some {| mount_point := "/"; Linux.fs_type := "ext4";
              total_gb := fifty; free_gb := free |}) /\
  disk_entry Samples.linux_host Samples.efi_line = None.
Proof.
  destruct mount_table_filtering as (HA & HB & HC).
  split; [| split].
  - apply HA. reflexivity.
  - destruct (HB Samples.linux_host Samples.root_line
                "/dev/sda1" "/" "rw,relatime" ["0"; "0"]
                {| f_frsize := 4096; f_blocks := 13107200;
                   f_bfree := 6000000 |}
                eq_refl eq_refl eq_refl eq_refl eq_refl) as [free [H _]].
    exists free. exact H.
  - exact (HC Samples.linux_host Samples.efi_line
             "/dev/sda2" "/boot/efi" "vfat" "rw" ["0"; "0"]
             {| f_frsize := 4096; f_blocks := 13107; f_bfree := 6000 |}
             eq_refl eq_refl eq_refl).
Defined.

(** C5, refuted as stated: an ext4 record of 50 GB on a loop device is in
    the mount table and yet no entry is made for it. *)
Lemma ext4_on_loop_device_is_excluded :
  proc_mounts Samples.linux_host =
    Ok (Samples.unlines [Samples.root_line; Samples.tmpfs_line;
                         Samples.loop_line; Samples.efi_line]) /\
  split_ws Samples.loop_line =
    ["/dev/loop0"; "/mnt/image"; "ext4"; "rw"; "0"; "0"] /\
  statvfs Samples.linux_host "/mnt/image" =
    Ok {| f_frsize := 4096; f_blocks := 13107200; f_bfree := 13107200 |} /\
  int_truediv (Z.of_N (13107200 * 4096)) (1024 ^ 3) = Ok fifty /\
  disk_entry Samples.linux_host Samples.loop_line = None /\
  map mount_point (get_disk_info Samples.linux_host) = ["/"].
Proof. evaluate. Qed.

Lemma free_at_most_total_witness :
  In Samples.root_entry (get_disk_info Samples.linux_host) /\
  float_leb (free_gb Samples.root_entry) (total_gb Samples.root_entry) = true.
Proof.
  assert (Hin : In Samples.root_entry (get_disk_info Samples.linux_host)).
  { vm_compute. left. reflexivity. }
  split; [exact Hin |].
  apply (free_at_most_total Samples.linux_host Samples.root_entry);
    [| exact Hin].
  intros mount st. cbn [statvfs Samples.linux_host].
  unfold Samples.linux_statvfs.
  repeat (destruct (String.eqb mount _);
          [intros H; inversion H; subst st; cbn; discriminate |]).
  intros H. discriminate H.
Defined.

(** C9, refuted as stated: when a file system reports 26214400 free
    blocks out of 13107200, the emitted entries show 100.0 GB free of a
    total of 50.0 GB. *)
Lemma free_exceeds_total_when_statvfs_says_so :
  map (fun d => (mount_point d, repr_float (free_gb d),
                 repr_float (total_gb d),
                 float_leb (free_gb d) (total_gb d)))
      (get_disk_info Samples.linux_more_free_than_total) =
  [("/", "100.0", "50.0", false); ("/boot/efi", "100.0", "50.0", false)].
Proof. evaluate. Qed.

End LinuxFacts.

(** *** The Linux script: the probes line by line, and the report *)

Module LinuxMore.
Import Py Linux Numerals FloatFacts LinuxFacts.

(** **** Memory counters *)

(** X1: a line of /proc/meminfo made of a key, a colon and a value, where
    the key holds no colon and the value begins, after its leading
    whitespace, with the decimal numeral of an integer [n] of at most 4300
    digits, is read by the loop body of [get_memory_info] as the entry that
    maps the key, stripped of surrounding whitespace, to [n].  What follows
    the numeral (the unit kB) is ignored, and an earlier entry of that key
    is overwritten.  When the numeral has more than 4300 digits [int]
    refuses it and the loop body raises. *)
Theorem meminfo_counter_line mem_info key value n rest :
  contains_char ":"%char key = false ->
  split_ws (strip value) = str_of_int n :: rest ->
  (within_digit_limit n ->
   meminfo_line mem_info (key +:+ String ":"%char value) =
   Ok (<[strip key := n]> mem_info)) /\
  (~ within_digit_limit n ->
   exists ex,
     meminfo_line mem_info (key +:+ String ":"%char value) = Raise ex).
Proof.
  intros Hkey Hfields. unfold meminfo_line.
  rewrite contains_char_app. cbn [contains_char].
  rewrite Ascii.eqb_refl, orb_true_r.
  rewrite (split_first_at _ key value Hkey). cbn [unpack2 bind fst snd].
  rewrite Hfields. cbn [index lookup list_lookup bind].
  split; intros Hn.
  - rewrite (int_of_str_of_int n Hn). reflexivity.
  - destruct (int_of_str_beyond n Hn) as [ex ->]. exists ex. reflexivity.
Qed.

Lemma meminfo_counter_line_witness :
  meminfo_line ∅ ("MemTotal" +:+ String ":"%char "       16000000 kB") =
  Ok (<[strip "MemTotal" := 16000000]> ∅).
Proof.
  apply (meminfo_counter_line ∅ "MemTotal" "       16000000 kB" 16000000
           ["kB"]);
    [vm_compute; reflexivity | vm_compute; reflexivity |].
  apply within_digit_limit_small. reflexivity.
Defined.

Lemma meminfo_lines_stop before :
  forall bad after mem_info,
    (forall m, exists ex, meminfo_line m bad = Raise ex) ->
    meminfo_lines (before ++ bad :: after) mem_info =
    meminfo_lines before mem_info.
Proof.
  induction before as [| l ls IH]; intros bad after mem_info Hbad.
  - cbn [app meminfo_lines]. destruct (Hbad mem_info) as [ex ->].
    reflexivity.
  - cbn [app meminfo_lines].
    destruct (meminfo_line mem_info l); [apply IH; exact Hbad | reflexivity].
Qed.

(** X2: [get_memory_info] stops at the first line it cannot read.  When a
    line with a colon has a value without any field, or a value whose first
    field is no integer, the exception ends the loop: the mapping returned
    is the one built from the lines before it, and the lines after it are
    not read. *)
Theorem meminfo_stops_at_malformed_line e content before key value after :
  proc_meminfo e = Ok content ->
  readlines content = before ++ (key +:+ String ":"%char value) :: after ->
  contains_char ":"%char key = false ->
  split_ws (strip value) = [] \/
  (exists num rest ex,
      split_ws (strip value) = num :: rest /\ int_of_str num = Raise ex) ->
  get_memory_info e = meminfo_lines before ∅.
Proof.
  intros Hc Hlines Hkey Hbad. unfold get_memory_info.
  rewrite Hc, Hlines. apply meminfo_lines_stop.
  intros m. unfold meminfo_line.
  rewrite contains_char_app. cbn [contains_char].
  rewrite Ascii.eqb_refl, orb_true_r.
  rewrite (split_first_at _ key value Hkey). cbn [unpack2 bind fst snd].
  destruct Hbad as [-> | (num & rest & ex & -> & Hnum)].
  - eexists. reflexivity.
  - cbn [index lookup list_lookup bind]. rewrite Hnum. eexists. reflexivity.
Qed.

Lemma meminfo_stops_at_malformed_line_witness :
  get_memory_info Hosts.linux_bad_meminfo =
  meminfo_lines [Samples.unlines ["MemTotal: 5 kB"]] ∅ /\
  get_memory_info Hosts.linux_bad_meminfo !! "MemFree" = None.
Proof.
  assert (H : get_memory_info Hosts.linux_bad_meminfo =
              meminfo_lines [Samples.unlines ["MemTotal: 5 kB"]] ∅).
  { apply (meminfo_stops_at_malformed_line Hosts.linux_bad_meminfo
             (Samples.unlines ["MemTotal: 5 kB"; "Bad:"; "MemFree: 7 kB"])
             [Samples.unlines ["MemTotal: 5 kB"]] "Bad" (String nl "")
             [Samples.unlines ["MemFree: 7 kB"]]).
    - vm_compute; reflexivity.
    - vm_compute; reflexivity.
    - vm_compute; reflexivity.
    - apply or_introl. vm_compute; reflexivity. }
  split; [exact H |]. rewrite H. vm_compute; reflexivity.
Defined.

(** **** The other probes *)

Lemma split_first_without c s :
  contains_char c s = false -> split_first c s = [s].
Proof.
  induction s as [| d s IH]; cbn [contains_char split_first]; intros H.
  - reflexivity.
  - apply orb_false_elim in H as [Hd Hs].
    rewrite Ascii.eqb_sym, Hd, (IH Hs). reflexivity.
Qed.

(** X3: when /etc/os-release does not exist and [lsb_release -d] exits with
    status 0, [get_os_info] returns what follows the first colon of its
    output, stripped of surrounding whitespace. *)
Theorem os_info_from_lsb_release e label description :
  os_release_exists e = false ->
  lsb_release e = Ok (0, label +:+ String ":"%char description) ->
  contains_char ":"%char label = false ->
  get_os_info e = strip description.
Proof.
  intros Hex Hlsb Hlabel.
  unfold get_os_info, os_release_name, lsb_release_name.
  rewrite Hex. cbn [bind]. rewrite Hlsb. cbn [bind fst snd Z.eqb].
  rewrite (split_first_at _ label description Hlabel).
  reflexivity.
Qed.

Lemma os_info_from_lsb_release_witness :
  get_os_info Hosts.linux_lsb_only = "Ubuntu 22.04 LTS".
Proof.
  change "Ubuntu 22.04 LTS" with (strip Hosts.lsb_description).
  apply (os_info_from_lsb_release Hosts.linux_lsb_only "Description"
           Hosts.lsb_description); vm_compute; reflexivity.
Defined.

(** X4: [get_os_info] returns Unknown when /etc/os-release exists but cannot
    be read, and the lsb_release fallback is then not tried, whatever it
    would answer; and, when the file does not exist, when lsb_release cannot
    be run, exits with a nonzero status, or prints no colon. *)
Theorem os_info_unknown e :
  (os_release_exists e = true /\ exists ex, os_release e = Raise ex) \/
  (os_release_exists e = false /\
   match lsb_release e with
   | Raise _ => True
   | Ok (code, out) => code <> 0 \/ contains_char ":"%char out = false
   end) ->
  get_os_info e = "Unknown".
Proof.
  unfold get_os_info, os_release_name, lsb_release_name.
  intros [[Hex [ex Hread]] | [Hex Hlsb]]; rewrite Hex.
  - rewrite Hread. reflexivity.
  - cbn [bind]. destruct (lsb_release e) as [[code out] | ex];
      [| reflexivity].
    cbn [bind fst snd]. destruct Hlsb as [Hcode | Hout].
    + apply Z.eqb_neq in Hcode. rewrite Hcode. reflexivity.
    + destruct (code =? 0); [| reflexivity].
      rewrite (split_first_without _ out Hout). reflexivity.
Qed.

Lemma os_info_unknown_witness :
  get_os_info Hosts.linux_unreadable_os_release = "Unknown".
Proof.
  apply (os_info_unknown Hosts.linux_unreadable_os_release).
  apply or_introl. split; [reflexivity |].
  exists (Exn PermissionError "/etc/os-release"). reflexivity.
Defined.

(** X5: when /proc/loadavg is readable and has at least three fields,
    [get_load_average] depends on the first three only: it returns their
    three floats, or three zeros as soon as one of them is no float.  The
    further fields are never converted. *)
Theorem load_average_first_three e content a b c rest :
  proc_loadavg e = Ok content ->
  split_ws (strip content) = a :: b :: c :: rest ->
  get_load_average e =
  match float_of_str a, float_of_str b, float_of_str c with
  | Ok x, Ok y, Ok z => [x; y; z]
  | _, _, _ => [float_zero; float_zero; float_zero]
  end.
Proof.
  intros Hc Hf. unfold get_load_average.
  rewrite Hc. cbn [bind]. rewrite Hf. cbn [firstn map_result].
  destruct (float_of_str a) as [x | ex]; [| reflexivity].
  destruct (float_of_str b) as [y | ex]; [| reflexivity].
  destruct (float_of_str c) as [z | ex]; reflexivity.
Qed.

Lemma load_average_first_three_witness :
  get_load_average Samples.linux_host =
  match float_of_str "0.10", float_of_str "0.20", float_of_str "0.30" with
  | Ok x, Ok y, Ok z => [x; y; z]
  | _, _, _ => [float_zero; float_zero; float_zero]
  end.
Proof.
  apply (load_average_first_three Samples.linux_host
           (Samples.unlines ["0.10 0.20 0.30 1/200 1234"])
           "0.10" "0.20" "0.30" ["1/200"; "1234"]); vm_compute; reflexivity.
Defined.

(** X6: one malformed row spoils the swap figures.  When some line of
    /proc/swaps after the header has at least four fields and a third field
    that is no integer, [get_swap_info] returns (0, 0), whatever the other
    rows and /proc/meminfo hold. *)
Theorem swap_info_malformed_row e content bad a b c d more ex :
  proc_swaps e = Ok content ->
  In bad (tail (readlines content)) ->
  split_ws bad = a :: b :: c :: d :: more ->
  int_of_str c = Raise ex ->
  get_swap_info e = (0, 0).
Proof.
  intros Hc Hin Hp Hi. unfold get_swap_info. rewrite Hc. cbn [bind].
  destruct (swap_lines_raise _ bad a b c d more ex 0 Hin Hp Hi) as [ex' ->].
  reflexivity.
Qed.

Lemma swap_info_malformed_row_witness :
  get_swap_info Hosts.linux_bad_swaps = (0, 0).
Proof.
  apply (swap_info_malformed_row Hosts.linux_bad_swaps
           (Samples.unlines ["Filename Type Size Used Priority";
                             "/dev/sda3 partition 2097148 0 -2";
                             Hosts.bad_swap_row])
           (Samples.unlines [Hosts.bad_swap_row])
           "/swapfile" "file" "big" "10" ["-3"]
           (Exn ValueError
                "invalid literal for int() with base 10: 'big'")).
  - vm_compute; reflexivity.
  - vm_compute. apply or_intror, or_introl. reflexivity.
  - vm_compute; reflexivity.
  - vm_compute; reflexivity.
Defined.

Lemma round1_one_tenth : round1 one_tenth = Ok one_tenth.
Proof. vm_compute. reflexivity. Qed.

(** X7: every entry that [get_disk_info] returns comes from a line of
    /proc/mounts with at least four fields, whose second and third fields
    are the entry's mount point and file system type; the type is not in
    the exclusion list, the device does not start with a virtual-device
    prefix, and the rounded total is at least 0.1 GB. *)
Theorem disk_entries_pass_filters e d :
  In d (get_disk_info e) ->
  in_list (Linux.fs_type d) special_fs = false /\
  float_leb one_tenth (total_gb d) = true /\
  exists line,
    match proc_mounts e with
    | Ok content => In line (readlines content)
    | Raise _ => False
    end /\
    (4 <= length (split_ws line))%nat /\
    split_ws line !! 1%nat = Some (mount_point d) /\
    split_ws line !! 2%nat = Some (Linux.fs_type d) /\
    (exists device, split_ws line !! 0%nat = Some device /\
                    startswith_any virtual_devices device = false).
Proof.
  intros Hin.
  destruct (get_disk_info_from_line e d Hin) as (content & line & Hc & Hl & Hd).
  destruct (disk_entry_some e line d Hd)
    as (device & mount & fs & options & rest & Hparts & Hfs & Hdev & Hu).
  destruct (disk_usage_some e mount fs d Hu)
    as (st & total & free & Hst & Ht & Hf & Hlt & Ht1 & Hf1 & Hm & Hfsd).
  subst mount fs. split; [exact Hfs |]. split.
  - assert (Hpow : 0 < 1024 ^ 3) by reflexivity.
    apply int_truediv_nonneg in Ht as [-> _]; [| lia | exact Hpow].
    rewrite one_tenth_eq in Hlt |- *.
    unfold float_ltb, position in Hlt. apply Z.ltb_ge in Hlt.
    pose proof round1_one_tenth as H01. rewrite one_tenth_eq in H01.
    eapply round1_mono; [| exact Hlt | exact H01 | exact Ht1].
    apply nearest_nonneg; lia.
  - exists line. rewrite Hc, Hparts. repeat split; try assumption.
    + cbn. lia.
    + exists device. split; [reflexivity | exact Hdev].
Qed.

Lemma disk_entries_pass_filters_witness :
  In Samples.root_entry (get_disk_info Samples.linux_host) /\
  in_list (Linux.fs_type Samples.root_entry) special_fs = false /\
  float_leb one_tenth (total_gb Samples.root_entry) = true.
Proof.
  assert (H : In Samples.root_entry (get_disk_info Samples.linux_host)).
  { vm_compute. apply or_introl. reflexivity. }
  split; [exact H |].
  destruct (disk_entries_pass_filters Samples.linux_host Samples.root_entry H)
    as (Hfs & Htotal & _).
  split; [exact Hfs | exact Htotal].
Defined.

(** X8: [get_disk_info] keeps the order of /proc/mounts: the mount points of
    the entries returned form a subsequence of the second fields of the
    lines of the file. *)
Theorem disk_entries_in_mount_order e content :
  proc_mounts e = Ok content ->
  sublist (map mount_point (get_disk_info e))
          (omap (fun line => split_ws line !! 1%nat) (readlines content)).
Proof.
  intros Hc. unfold get_disk_info. rewrite Hc.
  induction (readlines content) as [| line rest IH].
  - constructor.
  - cbn [omap list_omap].
    destruct (disk_entry e line) as [d |] eqn:Hd.
    + destruct (disk_entry_some e line d Hd)
        as (device & mount & fs & options & more & Hparts & _ & _ & Hu).
      destruct (disk_usage_some e mount fs d Hu)
        as (_ & _ & _ & _ & _ & _ & _ & _ & _ & Hm & _).
      rewrite Hparts. cbn. rewrite Hm. apply sublist_skip. exact IH.
    + destruct (split_ws line !! 1%nat); [apply sublist_cons |]; exact IH.
Qed.

Lemma disk_entries_in_mount_order_witness :
  sublist (map mount_point (get_disk_info Samples.linux_host))
          (omap (fun line => split_ws line !! 1%nat)
                (readlines (Samples.unlines
                              [Samples.root_line; Samples.tmpfs_line;
                               Samples.loop_line; Samples.efi_line]))).
Proof.
  apply (disk_entries_in_mount_order Samples.linux_host). reflexivity.
Defined.

(** **** The report as a whole *)

Lemma one_line_print s : one_line_unless (fun _ => False) (print s).
Proof. intros tr. left. exists s. split; [reflexivity | intros ex H; exact H]. Qed.

Lemma lift_then {A} (r : result A) (k : A -> io string unit) tr :
  io_bind (lift r) k tr =
  match r with
  | Ok a => k a tr
  | Raise ex => (tr, Raise ex)
  end.
Proof. unfold io_bind, lift. destruct r; reflexivity. Qed.

(** The counters read from /proc/meminfo are within the digit limit, and
    so are the figures the report makes of them. *)
Lemma meminfo_line_within mem_info line mem_info' :
  map_Forall (fun _ => within_digit_limit) mem_info ->
  meminfo_line mem_info line = Ok mem_info' ->
  map_Forall (fun _ => within_digit_limit) mem_info'.
Proof.
  intros Hall. unfold meminfo_line.
  destruct (contains_char ":"%char line);
    [| intros H; injection H as <-; exact Hall].
  destruct (unpack2 _) as [kv | ex]; cbn [bind]; [| discriminate].
  destruct (index _ 0) as [num | ex]; cbn [bind]; [| discriminate].
  destruct (int_of_str num) as [n | ex] eqn:Hn; cbn [bind]; [| discriminate].
  intros H. injection H as <-.
  apply map_Forall_insert_2; [exact (int_of_str_within num n Hn) | exact Hall].
Qed.

Lemma meminfo_lines_within lines :
  forall mem_info,
    map_Forall (fun _ => within_digit_limit) mem_info ->
    map_Forall (fun _ => within_digit_limit) (meminfo_lines lines mem_info).
Proof.
  induction lines as [| line rest IH]; intros mem_info Hall;
    cbn [meminfo_lines]; [exact Hall |].
  destruct (meminfo_line mem_info line) as [mem_info' | ex] eqn:Hline;
    [| exact Hall].
  apply IH. exact (meminfo_line_within mem_info line mem_info' Hall Hline).
Qed.

Lemma memory_info_within e key n :
  within_digit_limit n ->
  within_digit_limit (default n (get_memory_info e !! key)).
Proof.
  intros Hn.
  assert (Hall : map_Forall (fun _ => within_digit_limit) (get_memory_info e)).
  { unfold get_memory_info. destruct (proc_meminfo e) as [content | ex].
    - apply meminfo_lines_within. apply map_Forall_empty.
    - apply map_Forall_empty. }
  destruct (get_memory_info e !! key) as [v |] eqn:Hv; cbn [default].
  - exact (Hall key v Hv).
  - exact Hn.
Qed.

Lemma swap_free_within e : within_digit_limit (snd (get_swap_info e)).
Proof.
  unfold get_swap_info. destruct (proc_swaps e) as [content | ex];
    cbn [bind catch_all snd]; [| exact within_digit_limit_0].
  destruct (swap_lines _ 0) as [total | ex]; cbn [bind catch_all snd].
  - apply memory_info_within. exact within_digit_limit_0.
  - exact within_digit_limit_0.
Qed.

Lemma format_megabytes n :
  within_digit_limit n -> format_int (n / 1024) = Ok (str_of_int (n / 1024)).
Proof.
  intros Hn. apply format_int_within.
  apply within_digit_limit_div; [reflexivity | exact Hn].
Qed.

Lemma format_error_not_import n ex :
  format_int n = Raise ex -> caught [Class ImportError] ex = false.
Proof.
  intros H. apply format_int_raise in H as [_ Hcls].
  unfold caught, handles. cbn [existsb]. rewrite Hcls. reflexivity.
Qed.

(** Two figures and the line made of them. *)
Lemma one_line_figures a b (render : string -> string -> string) :
  one_line_unless (unprintable [a; b])
    (x <~ lift (format_int a) ;;
     y <~ lift (format_int b) ;;
     print (render x y)).
Proof.
  intros tr. rewrite lift_then.
  destruct (format_int a) as [x | ex] eqn:Ha.
  - rewrite lift_then. destruct (format_int b) as [y | ex] eqn:Hb.
    + left. exists (render x y). split; [reflexivity |].
      intros ex (n & [<- | [<- | []]] & Hn); congruence.
    + right. exists ex. split; [reflexivity |].
      exists b. split; [right; left; reflexivity | exact Hb].
  - right. exists ex. split; [reflexivity |].
    exists a. split; [left; reflexivity | exact Ha].
Qed.

Lemma one_line_psutil {A} (query : psutil_module -> result A)
      (first second : A -> Z) (render : string -> string -> string)
      (msg : string) e :
  one_line_unless
    (psutil_fails query (fun v => [first v; second v]) e)
    (try_except
       (psutil <~ lift (import_psutil e) ;;
        v <~ lift (query psutil) ;;
        x <~ lift (format_int (first v)) ;;
        y <~ lift (format_int (second v)) ;;
        print (render x y))
       [Class ImportError]
       (fun _ => print msg)).
Proof.
  intros tr. unfold try_except, psutil_fails. rewrite lift_then.
  destruct (import_psutil e) as [psutil | ex] eqn:Himp.
  - rewrite lift_then. destruct (query psutil) as [v | ex] eqn:Hq.
    + destruct (one_line_figures (first v) (second v) render tr)
        as [(s & -> & Hno) | (ex & -> & Hc)].
      * left. exists s. split; [reflexivity |].
        intros ex [[H | (p & Hp & [Hr | (w & Hw & Hu)])] _];
          [discriminate H | congruence |].
        injection Hp as <-. rewrite Hq in Hw. injection Hw as <-.
        exact (Hno ex Hu).
      * assert (Hni : caught [Class ImportError] ex = false).
        { destruct Hc as (n & _ & Hn).
          exact (format_error_not_import n ex Hn). }
        rewrite Hni. right. exists ex. split; [reflexivity |].
        split; [| exact Hni]. right. exists psutil.
        split; [reflexivity |]. right. exists v. split; [exact Hq | exact Hc].
    + destruct (caught [Class ImportError] ex) eqn:Hc.
      * left. eexists. split; [reflexivity |].
        intros ex' [[H | (p & Hp & [Hr | (w & Hw & _)])] Hn];
          [discriminate H | | congruence].
        injection Hp as <-. rewrite Hq in Hr. injection Hr as <-.
        rewrite Hc in Hn. discriminate Hn.
      * right. exists ex. split; [reflexivity |].
        split; [| exact Hc]. right. exists psutil.
        split; [reflexivity |]. left. exact Hq.
  - destruct (caught [Class ImportError] ex) eqn:Hc.
    + left. eexists. split; [reflexivity |].
      intros ex' [[H | (p & Hp & _)] Hn]; [| discriminate Hp].
      injection H as <-. rewrite Hc in Hn. discriminate Hn.
    + right. exists ex. split; [reflexivity |].
      split; [left; reflexivity | exact Hc].
Qed.

Lemma one_line_user e :
  one_line_unless (fun ex => getuser e = Raise ex)
    (user <~ lift (getuser e) ;; print ("User: " +:+ user)).
Proof.
  intros tr. unfold io_bind, lift, print, emit.
  destruct (getuser e) as [user | ex].
  - left. eexists. split; [reflexivity | intros ex H; discriminate H].
  - right. exists ex. split; reflexivity.
Qed.

Lemma one_line_ram e :
  one_line_unless (ram_fails e) (print_ram e (get_memory_info e)).
Proof.
  intros tr. unfold print_ram, ram_fails.
  destruct (Z.ltb_spec 0 (default 0 (get_memory_info e !! "MemTotal")))
    as [Hpos | Hle].
  - left. rewrite !lift_then, !format_megabytes;
      [| apply memory_info_within; exact within_digit_limit_0
       | apply memory_info_within, memory_info_within;
         exact within_digit_limit_0].
    eexists. split; [reflexivity | intros ex [H _]; lia].
  - destruct (one_line_psutil virtual_memory
                (fun memory => snd memory / 1024 ^ 2)
                (fun memory => fst memory / 1024 ^ 2)
                (fun free total =>
                   "RAM: " +:+ free +:+ "MB free / " +:+ total
                   +:+ "MB total")
                "RAM: Information not available" e tr)
      as [(s & Hs & Hno) | (ex & Hex & Hc)].
    + left. exists s. split; [exact Hs | intros ex [_ H]; exact (Hno ex H)].
    + right. exists ex. split; [exact Hex | split; [exact Hle | exact Hc]].
Qed.

Lemma one_line_swap e : one_line_unless (swap_fails e) (print_swap e).
Proof.
  intros tr. unfold print_swap, swap_fails.
  pose proof (swap_free_within e) as Hfree.
  destruct (get_swap_info e) as [swap_total swap_free]. cbn [fst snd] in *.
  destruct (Z.ltb_spec 0 swap_total) as [Hpos | Hle].
  - rewrite lift_then.
    destruct (format_int (swap_total / 1024)) as [total | ex] eqn:Htotal.
    + left. rewrite lift_then, (format_megabytes swap_free Hfree).
      eexists. split; [reflexivity |].
      intros ex [[_ H] | [H _]]; [discriminate H | lia].
    + right. exists ex. split; [reflexivity |].
      left. split; [exact Hpos | reflexivity].
  - destruct (one_line_psutil swap_memory
                (fun swap => fst swap / 1024 ^ 2)
                (fun swap => snd swap / 1024 ^ 2)
                (fun total free =>
                   "Swap: " +:+ total +:+ "MB total / " +:+ free
                   +:+ "MB free")
                "Swap: Information not available" e tr)
      as [(s & Hs & Hno) | (ex & Hex & Hc)].
    + left. exists s. split; [exact Hs |].
      intros ex [[H _] | [_ H]]; [lia | exact (Hno ex H)].
    + right. exists ex. split; [exact Hex |].
      right. split; [exact Hle | exact Hc].
Qed.

Lemma one_line_virtual_memory e :
  one_line_unless (fun _ => False) (print_virtual_memory (get_memory_info e)).
Proof.
  unfold print_virtual_memory. destruct (0 <? _); [| apply one_line_print].
  intros tr. rewrite lift_then, format_megabytes
    by (apply memory_info_within; exact within_digit_limit_0).
  left. eexists. split; [reflexivity | intros ex H; exact H].
Qed.

Lemma one_line_processors e :
  one_line_unless (fun _ => False) (print_processors e).
Proof.
  intros tr. unfold print_processors, try_except. rewrite lift_then.
  destruct (cpu_count e) as [n | ex]; cbn [caught existsb handles orb];
    [| left; eexists; (split; [reflexivity | intros ? H; exact H])].
  rewrite lift_then.
  destruct (format_count n) as [count | ex];
    left; eexists; (split; [reflexivity | intros ? H; exact H]).
Qed.

Lemma one_line_load_average load_avg :
  one_line_unless (fun _ => (length load_avg < 3)%nat)
    (print_load_average load_avg).
Proof.
  intros tr. unfold print_load_average, io_bind, lift, print, emit, index.
  destruct load_avg as [| a [| b [| c rest]]]; cbn [lookup list_lookup].
  - right. eexists. split; [reflexivity | cbn; lia].
  - right. eexists. split; [reflexivity | cbn; lia].
  - right. eexists. split; [reflexivity | cbn; lia].
  - left. eexists. split; [reflexivity | intros _; cbn; lia].
Qed.

Lemma for_each_print_drive drives tr :
  exists lines,
    for_each drives print_drive tr = (tr ++ lines, Ok tt) /\
    length lines = length drives.
Proof.
  revert tr. induction drives as [| d ds IH]; intros tr.
  - exists []. split; [cbn; rewrite app_nil_r; reflexivity | reflexivity].
  - cbn [for_each]. unfold io_bind at 1. unfold print_drive at 1.
    unfold print, emit.
    match goal with
    | |- context [for_each ds print_drive ?t] =>
      destruct (IH t) as (lines & Hl & Hlen); rewrite Hl
    end.
    eexists (_ :: lines). split.
    + rewrite <- app_assoc. reflexivity.
    + cbn. rewrite Hlen. reflexivity.
Qed.

Lemma bind_print s (k : unit -> io string unit) tr :
  io_bind (print s) k tr = k tt (tr ++ [s]).
Proof. reflexivity. Qed.

Lemma bind_one_line cause m (k : unit -> io string unit) tr :
  one_line_unless cause m ->
  (exists s, io_bind m k tr = k tt (tr ++ [s]) /\ forall ex, ~ cause ex) \/
  (exists ex, io_bind m k tr = (tr, Raise ex) /\ cause ex).
Proof.
  intros H. unfold io_bind.
  destruct (H tr) as [(s & -> & Hno) | (ex & -> & Hc)].
  - left. exists s. split; [reflexivity | exact Hno].
  - right. exists ex. split; [reflexivity | exact Hc].
Qed.

Lemma print_drives_outcome drives tr :
  exists lines,
    match drives with
    | [] => print "  No drives found"
    | _ => for_each drives print_drive
    end tr = (tr ++ lines, Ok tt) /\
    length lines = Nat.max 1 (length drives) /\
    (drives = [] -> lines = ["  No drives found"]).
Proof.
  destruct drives as [| d ds].
  - exists ["  No drives found"]. repeat split.
  - destruct (for_each_print_drive (d :: ds) tr) as (lines & Hl & Hlen).
    exists lines. split; [exact Hl |]. split; [| discriminate].
    rewrite Hlen. cbn [length]. lia.
Qed.

(** What a run of the Linux reporter comes to. *)
Lemma main_outcome e out r :
  main e [] = (out, r) ->
  (r = Ok tt /\
   (forall ex, getuser e <> Raise ex) /\
   (forall ex, ~ ram_fails e ex) /\
   (forall ex, ~ swap_fails e ex) /\
   (3 <= length (get_load_average e))%nat /\
   exists front lines,
     out = front ++ "Drives:" :: lines /\
     length front = 10%nat /\
     length lines = Nat.max 1 (length (get_disk_info e)) /\
     (get_disk_info e = [] -> lines = ["  No drives found"])) \/
  (exists ex,
      r = Raise ex /\
      (getuser e = Raise ex /\ length out = 4%nat \/
       ram_fails e ex /\ length out = 5%nat \/
       swap_fails e ex /\ length out = 6%nat \/
       (length (get_load_average e) < 3)%nat /\ length out = 9%nat)).
Proof.
  unfold main. rewrite !bind_print.
  (* the user name *)
  match goal with
  | |- io_bind ?m ?k ?tr = _ -> _ =>
    destruct (bind_one_line _ m k tr (one_line_user e))
      as [(s5 & -> & Huser) | (ex & -> & Hc)]
  end; cbv beta.
  2:{ intros H. injection H as <- <-. right. exists ex.
      split; [reflexivity |]. left. split; [exact Hc | reflexivity]. }
  (* memory *)
  match goal with
  | |- io_bind ?m ?k ?tr = _ -> _ =>
    destruct (bind_one_line _ m k tr (one_line_ram e))
      as [(s6 & -> & Hram) | (ex & -> & Hc)]
  end; cbv beta.
  2:{ intros H. injection H as <- <-. right. exists ex.
      split; [reflexivity |]. right. left. split; [exact Hc | reflexivity]. }
  (* swap *)
  match goal with
  | |- io_bind ?m ?k ?tr = _ -> _ =>
    destruct (bind_one_line _ m k tr (one_line_swap e))
      as [(s7 & -> & Hswap) | (ex & -> & Hc)]
  end; cbv beta.
  2:{ intros H. injection H as <- <-. right. exists ex.
      split; [reflexivity |]. right. right. left.
      split; [exact Hc | reflexivity]. }
  (* virtual memory *)
  match goal with
  | |- io_bind ?m ?k ?tr = _ -> _ =>
    destruct (bind_one_line _ m k tr (one_line_virtual_memory e))
      as [(s8 & -> & _) | (ex & _ & [])]
  end; cbv beta.
  (* processors *)
  match goal with
  | |- io_bind ?m ?k ?tr = _ -> _ =>
    destruct (bind_one_line _ m k tr (one_line_processors e))
      as [(s9 & -> & _) | (ex & _ & [])]
  end; cbv beta.
  (* load average *)
  match goal with
  | |- io_bind ?m ?k ?tr = _ -> _ =>
    destruct (bind_one_line _ m k tr
                (one_line_load_average (get_load_average e)))
      as [(s10 & -> & Hload) | (ex & -> & Hc)]
  end; cbv beta.
  2:{ intros H. injection H as <- <-. right. exists ex.
      split; [reflexivity |]. right. right. right.
      split; [exact Hc | reflexivity]. }
  (* drives *)
  rewrite bind_print.
  match goal with
  | |- ?m ?tr = _ -> _ =>
    destruct (print_drives_outcome (get_disk_info e) tr)
      as (lines & -> & Hlen & Hnone)
  end.
  intros H. injection H as <- <-. left.
  split; [reflexivity |].
  split; [intros ex Hu; exact (Huser ex Hu) |].
  split; [exact Hram |]. split; [exact Hswap |].
  split; [specialize (Hload (Exn IndexError "")); lia |].
  exists ["OS: " +:+ get_os_info e;
          "Kernel: " +:+ system (uname e) +:+ " " +:+ release (uname e);
          "Architecture: " +:+ machine (uname e);
          "Hostname: " +:+ node (uname e);
          s5; s6; s7; s8; s9; s10], lines.
  split; [reflexivity |]. split; [reflexivity |].
  split; [exact Hlen | exact Hnone].
Qed.

Lemma run_main_outcome e :
  run (main e) = (fst (main e []),
                  match snd (main e []) with Ok _ => 0 | Raise _ => 1 end).
Proof. unfold run. destruct (main e []) as [out [[] | ex]]; reflexivity. Qed.

(** X9: the Linux report ends with exit status 0 or 1, and with 1 exactly
    when [getpass.getuser()] raises; when the psutil fallback of the RAM or
    of the Swap line raises something other than an ImportError, be it the
    import, the query, or the formatting of one of its two figures when
    that has more than 4300 digits (the fallback is used when MemTotal,
    respectively the swap total, is not positive); when the swap total
    summed from /proc/swaps is positive and its figure in MB has more than
    4300 digits, so that formatting it raises a ValueError; or when the
    load average has fewer than three samples.  No other failure of a
    source ends the report: the figures that come from /proc/meminfo are
    never too long to format, since [int] has refused what is.
    [platform.uname()] is taken to answer. *)
Theorem main_exit_status e :
  (snd (run (main e)) = 0 \/ snd (run (main e)) = 1) /\
  (snd (run (main e)) = 1 <->
   (exists ex, getuser e = Raise ex \/ ram_fails e ex \/ swap_fails e ex) \/
   (length (get_load_average e) < 3)%nat).
Proof.
  rewrite run_main_outcome. cbn [snd].
  destruct (main e []) as [out r] eqn:Hmain.
  destruct (main_outcome e out r Hmain)
    as [(-> & Hu & Hr & Hs & Hl & _) | (ex & -> & Hcause)]; cbn [snd].
  - split; [left; reflexivity |]. split; [discriminate |].
    intros [(ex & [H | [H | H]]) | H].
    + exfalso. exact (Hu ex H).
    + exfalso. exact (Hr ex H).
    + exfalso. exact (Hs ex H).
    + lia.
  - split; [right; reflexivity |]. split; [intros _ | reflexivity].
    destruct Hcause as [[H _] | [[H _] | [[H _] | [H _]]]].
    + left. exists ex. left. exact H.
    + left. exists ex. right. left. exact H.
    + left. exists ex. right. right. exact H.
    + right. exact H.
Qed.

Lemma main_exit_status_witness :
  snd (run (main Samples.linux_short_loadavg)) = 1.
Proof.
  apply (proj2 (main_exit_status Samples.linux_short_loadavg)).
  apply or_intror. vm_compute. exact (le_n 3).
Defined.

(** X10: a Linux report that ends with status 0 consists of ten lines, the
    line Drives:, and then one line for each drive that [get_disk_info]
    returns, or one line when it returns none; a report that ends with
    status 1 has stopped after 4, 5, 6 or 9 lines.  A line is what one call
    of [print] writes. *)
Theorem main_report_lines e :
  match snd (run (main e)) with
  | 0 =>
    exists front lines,
      fst (run (main e)) = front ++ "Drives:" :: lines /\
      length front = 10%nat /\
      length lines = Nat.max 1 (length (get_disk_info e))
  | _ => In (length (fst (run (main e)))) [4; 5; 6; 9]%nat
  end.
Proof.
  rewrite run_main_outcome. cbn [fst snd].
  destruct (main e []) as [out r] eqn:Hmain.
  destruct (main_outcome e out r Hmain)
    as [(-> & _ & _ & _ & _ & front & lines & Hout & Hf & Hl & _)
       | (ex & -> & Hcause)]; cbn [fst snd].
  - exists front, lines. repeat split; assumption.
  - destruct Hcause as [[_ H] | [[_ H] | [[_ H] | [_ H]]]]; rewrite H;
      cbn; tauto.
Qed.

Lemma main_report_lines_witness :
  exists front lines,
    fst (run (main Samples.linux_host)) = front ++ "Drives:" :: lines /\
    length front = 10%nat /\
    length lines = Nat.max 1 (length (get_disk_info Samples.linux_host)).
Proof.
  assert (H := main_report_lines Samples.linux_host).
  assert (Hs : snd (run (main Samples.linux_host)) = 0)
    by (vm_compute; reflexivity).
  rewrite Hs in H. exact H.
Defined.

(** X11: when [get_disk_info] returns no drive, a Linux report that ends
    with status 0 closes, after its ten lines, with the line Drives: and
    the line No drives found. *)
Theorem main_no_drives e :
  snd (run (main e)) = 0 ->
  get_disk_info e = [] ->
  exists front,
    fst (run (main e)) = front ++ ["Drives:"; "  No drives found"] /\
    length front = 10%nat.
Proof.
  rewrite run_main_outcome. cbn [fst snd].
  destruct (main e []) as [out r] eqn:Hmain.
  destruct (main_outcome e out r Hmain)
    as [(-> & _ & _ & _ & _ & front & lines & Hout & Hf & _ & Hnone)
       | (ex & -> & _)]; cbn [fst snd]; [| discriminate].
  intros _ Hd. exists front. rewrite Hout, (Hnone Hd).
  split; [reflexivity | exact Hf].
Qed.

Lemma main_no_drives_witness :
  exists front,
    fst (run (main Hosts.linux_no_mounts)) =
      front ++ ["Drives:"; "  No drives found"] /\
    length front = 10%nat.
Proof.
  apply (main_no_drives Hosts.linux_no_mounts); vm_compute; reflexivity.
Defined.

Lemma no_mounts_no_drives e :
  proc_mounts e = Ok "" \/ (exists ex, proc_mounts e = Raise ex) ->
  get_disk_info e = [].
Proof.
  unfold get_disk_info. intros [-> | [ex ->]]; reflexivity.
Qed.

End LinuxMore.

(** *** The Windows script: drives, processors, and the report *)

Module WindowsMore.
Import Py Windows WindowsFacts.

(** The partitions of the sample hosts: a usage query that answers, a
    partition that is skipped, a query whose error the inner handler
    takes. *)
Ltac sample_no_escape :=
  let ex := fresh "ex" in
  let Hs := fresh "Hs" in
  let Hu := fresh "Hu" in
  let Hc := fresh "Hc" in
  intros ex (Hs & Hu & Hc);
  first [ discriminate Hs
        | discriminate Hu
        | injection Hu as <-; discriminate Hc ].

Lemma usage_calls_app tr1 tr2 :
  usage_calls (tr1 ++ tr2) = usage_calls tr1 ++ usage_calls tr2.
Proof. unfold usage_calls. apply omap_app. Qed.

Lemma drives_loop_no_escape e partitions :
  Forall (no_escape e) partitions ->
  forall drives tr,
    snd (drives_loop e partitions drives tr) =
      Ok (drives ++ omap (drive_of e) partitions, None) /\
    usage_calls (fst (drives_loop e partitions drives tr)) =
      usage_calls tr ++
      map mountpoint (List.filter (fun p => negb (skipped p)) partitions).
Proof.
  induction 1 as [| p rest Hp _ IH]; intros drives tr.
  - cbn. rewrite !app_nil_r. split; reflexivity.
  - cbn [drives_loop omap list_omap List.filter]. unfold drive_of at 1.
    fold (skipped p). destruct (skipped p) eqn:Hskip; cbn [negb].
    + apply IH.
    + unfold calling, io_bind, emit, lift.
      destruct (disk_usage e (mountpoint p)) as [usage | ex] eqn:Hu.
      * destruct (IH (drives ++ [{| drive_name := device p;
                                   fs_type := fstype p;
                                   total_gb := du_total usage / 1024 ^ 3;
                                   free_gb := du_free usage / 1024 ^ 3 |}])
                    (tr ++ [Called (DiskUsage (mountpoint p))]))
          as [Hs Hc].
        rewrite Hs, Hc. rewrite <- app_assoc. split; [reflexivity |].
        rewrite usage_calls_app. cbn. rewrite <- app_assoc. reflexivity.
      * fold inner_handlers. destruct (caught inner_handlers ex) eqn:Hcaught.
        -- unfold print, io_bind, emit.
           destruct (IH drives
                        ((tr ++ [Called (DiskUsage (mountpoint p))]) ++
                         [Printed ("Error reading drive " +:+ device p
                                   +:+ ": " +:+ exn_msg ex)]))
             as [Hs Hc].
           rewrite Hs, Hc. split; [reflexivity |].
           rewrite !usage_calls_app. cbn. rewrite !app_nil_r.
           rewrite <- app_assoc. reflexivity.
        -- exfalso. apply (Hp ex). repeat split; assumption.
Qed.

Lemma drives_loop_escape e before :
  Forall (no_escape e) before ->
  forall p after ex drives tr,
    usage_escapes e p ex ->
    snd (drives_loop e (before ++ p :: after) drives tr) =
      Ok (drives ++ omap (drive_of e) before, Some ex) /\
    usage_calls (fst (drives_loop e (before ++ p :: after) drives tr)) =
      usage_calls tr ++
      map mountpoint (List.filter (fun p => negb (skipped p)) before) ++
      [mountpoint p].
Proof.
  induction 1 as [| q rest Hq _ IH]; intros p after ex drives tr Hesc.
  - destruct Hesc as (Hskip & Hu & Hc).
    cbn [app drives_loop omap list_omap List.filter map].
    fold (skipped p). rewrite Hskip.
    unfold calling, io_bind, emit, lift. rewrite Hu.
    fold inner_handlers. rewrite Hc. cbn [fst snd].
    rewrite app_nil_r, usage_calls_app. split; reflexivity.
  - cbn [app drives_loop omap list_omap List.filter]. unfold drive_of at 1.
    fold (skipped q). destruct (skipped q) eqn:Hskip; cbn [negb].
    + apply IH. exact Hesc.
    + unfold calling, io_bind, emit, lift.
      destruct (disk_usage e (mountpoint q)) as [usage | ex'] eqn:Hu.
      * destruct (IH p after ex
                    (drives ++ [{| drive_name := device q;
                                   fs_type := fstype q;
                                   total_gb := du_total usage / 1024 ^ 3;
                                   free_gb := du_free usage / 1024 ^ 3 |}])
                    (tr ++ [Called (DiskUsage (mountpoint q))]) Hesc)
          as [Hs Hc].
        rewrite Hs, Hc. rewrite <- app_assoc. split; [reflexivity |].
        rewrite usage_calls_app. cbn. rewrite <- app_assoc. reflexivity.
      * fold inner_handlers. destruct (caught inner_handlers ex') eqn:Hcaught.
        -- unfold print, io_bind, emit.
           destruct (IH p after ex drives
                        ((tr ++ [Called (DiskUsage (mountpoint q))]) ++
                         [Printed ("Error reading drive " +:+ device q
                                   +:+ ": " +:+ exn_msg ex')]) Hesc)
             as [Hs Hc].
           rewrite Hs, Hc. split; [reflexivity |].
           rewrite !usage_calls_app. cbn. rewrite !app_nil_r.
           rewrite <- app_assoc. reflexivity.
        -- exfalso. apply (Hq ex'). repeat split; assumption.
Qed.

(** What [get_drives_info] does once the partitions are listed. *)
Lemma get_drives_info_listed e partitions tr :
  disk_partitions e = Ok partitions ->
  get_drives_info e tr =
  match drives_loop e partitions [] (tr ++ [Called DiskPartitions]) with
  | (tr', Ok (drives, None)) => (tr', Ok drives)
  | (tr', Ok (drives, Some ex)) =>
    if caught outer_handlers ex
    then (tr' ++ [Printed ("Error getting drives info: " +:+ exn_msg ex)],
          Ok drives)
    else (tr', Raise ex)
  | (tr', Raise ex) => (tr', Raise ex)
  end.
Proof.
  intros Hp. unfold get_drives_info, calling, io_bind, emit, lift.
  rewrite Hp.
  destruct (drives_loop e partitions [] (tr ++ [Called DiskPartitions]))
    as [tr' [[drives [ex |]] | ex]]; try reflexivity.
  fold outer_handlers. unfold io_ret. destruct (caught outer_handlers ex); reflexivity.
Qed.

(** X12: when [psutil.disk_partitions()] answers and no usage query raises
    an exception outside OSError, [get_drives_info] returns one entry for
    each partition that is neither a CD-ROM nor without a device and whose
    usage query answers, in the order of the partitions and with the sizes
    in whole GB.  A partition whose query raises is left out, the others
    are kept. *)
Theorem drives_info_entries e partitions tr :
  disk_partitions e = Ok partitions ->
  Forall (no_escape e) partitions ->
  snd (get_drives_info e tr) = Ok (omap (drive_of e) partitions).
Proof.
  intros Hp Hne. rewrite (get_drives_info_listed e partitions tr Hp).
  destruct (drives_loop_no_escape e partitions Hne []
              (tr ++ [Called DiskPartitions])) as [Hs _].
  destruct (drives_loop e partitions [] (tr ++ [Called DiskPartitions]))
    as [tr' res]. cbn [snd] in Hs. subst res. reflexivity.
Qed.

Lemma drives_info_entries_witness :
  snd (get_drives_info Hosts.windows_drives []) =
  Ok (omap (drive_of Hosts.windows_drives)
           [Hosts.partition_c; Hosts.partition_d; Hosts.partition_e;
            Hosts.partition_g]).
Proof.
  apply (drives_info_entries Hosts.windows_drives); [reflexivity |].
  repeat (apply List.Forall_cons; [sample_no_escape |]).
  apply List.Forall_nil.
Defined.

(** X13: when [psutil.disk_partitions()] answers and no usage query raises
    an exception outside OSError, [get_drives_info] queries the usage of
    exactly the partitions that are neither a CD-ROM nor without a device,
    once each and in their order: the mount point of a skipped partition is
    never touched. *)
Theorem drives_info_queries e partitions tr :
  disk_partitions e = Ok partitions ->
  Forall (no_escape e) partitions ->
  usage_calls (fst (get_drives_info e tr)) =
  usage_calls tr ++
  map mountpoint (List.filter (fun p => negb (skipped p)) partitions).
Proof.
  intros Hp Hne. rewrite (get_drives_info_listed e partitions tr Hp).
  destruct (drives_loop_no_escape e partitions Hne []
              (tr ++ [Called DiskPartitions])) as [Hs Hc].
  destruct (drives_loop e partitions [] (tr ++ [Called DiskPartitions]))
    as [tr' res]. cbn [fst snd] in Hs, Hc. subst res. cbn [fst].
  rewrite Hc, usage_calls_app. cbn. rewrite app_nil_r. reflexivity.
Qed.

Lemma drives_info_queries_witness :
  usage_calls (fst (get_drives_info Hosts.windows_drives [])) =
  usage_calls [] ++
  map mountpoint
      (List.filter (fun p => negb (skipped p))
         [Hosts.partition_c; Hosts.partition_d; Hosts.partition_e;
          Hosts.partition_g]).
Proof.
  apply (drives_info_queries Hosts.windows_drives); [reflexivity |].
  repeat (apply List.Forall_cons; [sample_no_escape |]).
  apply List.Forall_nil.
Defined.

(** X14: at the first partition, neither a CD-ROM nor without a device,
    whose usage query raises an exception that is no OSError, the loop of
    [get_drives_info] ends: the later partitions are never queried.  The
    entries collected so far are returned when the exception is an
    AttributeError; any other exception leaves the function. *)
Theorem drives_info_interrupted e before p after ex tr :
  disk_partitions e = Ok (before ++ p :: after) ->
  Forall (no_escape e) before ->
  usage_escapes e p ex ->
  snd (get_drives_info e tr) =
    (if caught outer_handlers ex
     then Ok (omap (drive_of e) before)
     else Raise ex) /\
  usage_calls (fst (get_drives_info e tr)) =
    usage_calls tr ++
    map mountpoint (List.filter (fun p => negb (skipped p)) before) ++
    [mountpoint p].
Proof.
  intros Hp Hne Hesc.
  rewrite (get_drives_info_listed e _ tr Hp).
  destruct (drives_loop_escape e before Hne p after ex []
              (tr ++ [Called DiskPartitions]) Hesc) as [Hs Hc].
  destruct (drives_loop e (before ++ p :: after) []
              (tr ++ [Called DiskPartitions])) as [tr' res].
  cbn [fst snd] in Hs, Hc. subst res.
  rewrite usage_calls_app in Hc. cbn in Hc. rewrite app_nil_r in Hc.
  destruct (caught outer_handlers ex); cbn [fst snd].
  - split; [reflexivity |]. rewrite usage_calls_app. cbn.
    rewrite app_nil_r. exact Hc.
  - split; [reflexivity | exact Hc].
Qed.

Lemma drives_info_interrupted_witness :
  snd (get_drives_info Hosts.windows_faulty_drive []) =
    (if caught outer_handlers (Exn AttributeError "no attribute total")
     then Ok (omap (drive_of Hosts.windows_faulty_drive) [Hosts.partition_c])
     else Raise (Exn AttributeError "no attribute total")) /\
  usage_calls (fst (get_drives_info Hosts.windows_faulty_drive [])) =
    usage_calls [] ++
    map mountpoint
        (List.filter (fun p => negb (skipped p)) [Hosts.partition_c]) ++
    [mountpoint Hosts.partition_f].
Proof.
  apply (drives_info_interrupted Hosts.windows_faulty_drive
           [Hosts.partition_c] Hosts.partition_f [Hosts.partition_e]).
  - reflexivity.
  - apply List.Forall_cons; [sample_no_escape | apply List.Forall_nil].
  - unfold usage_escapes. evaluate.
Defined.

(** X15: when [psutil.cpu_count(logical=False)] raises an OSError, an
    AttributeError or a NotImplementedError, [get_processor_count] calls
    [os.cpu_count()] next and returns its answer, 0 for None, and 0 when it
    raises an OSError or an AttributeError; any other exception of
    [os.cpu_count()] leaves the function. *)
Theorem processor_count_after_error e ex tr :
  psutil_cpu_count e = Raise ex ->
  caught [Class OSError; Class AttributeError; Class NotImplementedError]
    ex = true ->
  get_processor_count e tr =
  ((tr ++ [Called PsutilCpuCount]) ++ [Called OsCpuCount],
   match os_cpu_count e with
   | Ok n => Ok (or_zero n)
   | Raise ex' =>
     if caught [Class OSError; Class AttributeError] ex'
     then Ok 0 else Raise ex'
   end).
Proof.
  intros Hp Hc.
  unfold get_processor_count, try_except, calling, io_bind, emit, lift.
  rewrite Hp. cbn -[caught]. rewrite Hc.
  destruct (os_cpu_count e) as [n | ex']; cbn -[caught]; [reflexivity |].
  destruct (caught _ ex'); reflexivity.
Qed.

Lemma processor_count_after_error_witness :
  get_processor_count Hosts.windows_no_physical_count [] =
  (([] ++ [Called PsutilCpuCount]) ++ [Called OsCpuCount],
   match os_cpu_count Hosts.windows_no_physical_count with
   | Ok n => Ok (or_zero n)
   | Raise ex' =>
     if caught [Class OSError; Class AttributeError] ex'
     then Ok 0 else Raise ex'
   end).
Proof.
  apply (processor_count_after_error Hosts.windows_no_physical_count
           (Exn NotImplementedError "cpu_count")); reflexivity.
Defined.

(** **** The memory figures *)

(** X16: when psutil answers both memory queries, the Virtual Memory figure
    of the Windows report is the sum of the RAM total and the pagefile
    total, or one more: the three figures are floored to whole MB
    separately. *)
Theorem virtual_memory_near_sum e memory swap tr1 tr2 tr3 :
  virtual_memory e = Ok memory ->
  swap_memory e = Ok swap ->
  exists total_phys_mb avail_phys_mb memory_load pagefile_used pagefile_total
         virtual_memory_mb,
    snd (Windows.get_memory_info e tr1) =
      Ok (total_phys_mb, avail_phys_mb, memory_load) /\
    snd (get_pagefile_info e tr2) = Ok (pagefile_used, pagefile_total) /\
    snd (get_virtual_memory_size e tr3) = Ok virtual_memory_mb /\
    total_phys_mb + pagefile_total <= virtual_memory_mb
      <= total_phys_mb + pagefile_total + 1.
Proof.
  intros Hm Hs.
  unfold Windows.get_memory_info, get_pagefile_info, get_virtual_memory_size,
    try_except, calling, io_bind, emit, lift, io_ret.
  rewrite Hm, Hs. cbn [fst snd].
  do 6 eexists. split; [reflexivity |]. split; [reflexivity |].
  split; [reflexivity |].
  change (1024 * 1024) with 1048576.
  pose proof (Z.div_mod (vm_total memory) 1048576 ltac:(lia)) as H1.
  pose proof (Z.mod_pos_bound (vm_total memory) 1048576 ltac:(lia)) as H2.
  pose proof (Z.div_mod (sw_total swap) 1048576 ltac:(lia)) as H3.
  pose proof (Z.mod_pos_bound (sw_total swap) 1048576 ltac:(lia)) as H4.
  split.
  - apply Z.div_le_lower_bound; lia.
  - apply Z.lt_succ_r, Z.div_lt_upper_bound; lia.
Qed.

Lemma virtual_memory_near_sum_witness :
  exists total_phys_mb avail_phys_mb memory_load pagefile_used pagefile_total
         virtual_memory_mb,
    snd (Windows.get_memory_info Samples.windows_host []) =
      Ok (total_phys_mb, avail_phys_mb, memory_load) /\
    snd (get_pagefile_info Samples.windows_host []) =
      Ok (pagefile_used, pagefile_total) /\
    snd (get_virtual_memory_size Samples.windows_host []) =
      Ok virtual_memory_mb /\
    total_phys_mb + pagefile_total <= virtual_memory_mb
      <= total_phys_mb + pagefile_total + 1.
Proof.
  apply (virtual_memory_near_sum Samples.windows_host
           {| vm_total := 17179869184; vm_available := 8589934592;
              vm_percent := float_of_decimal false 50 0 |}
           {| sw_total := 2147483648; sw_used := 1048576 |});
    reflexivity.
Defined.

(** X17: when psutil reports an amount of available memory between 0 and
    the total, the used memory that the Windows report computes, total MB
    minus available MB, lies between 0 and the total MB. *)
Theorem memory_used_within_total e memory tr :
  virtual_memory e = Ok memory ->
  0 <= vm_available memory <= vm_total memory ->
  exists total_phys_mb avail_phys_mb memory_load,
    snd (Windows.get_memory_info e tr) =
      Ok (total_phys_mb, avail_phys_mb, memory_load) /\
    0 <= total_phys_mb - avail_phys_mb <= total_phys_mb.
Proof.
  intros Hm [Ha Ht].
  unfold Windows.get_memory_info, try_except, calling, io_bind, emit, lift,
    io_ret.
  rewrite Hm. cbn [fst snd].
  do 3 eexists. split; [reflexivity |].
  change (1024 * 1024) with 1048576.
  pose proof (Z.div_le_mono _ _ 1048576 ltac:(lia) Ht).
  pose proof (Z.div_pos (vm_available memory) 1048576 Ha ltac:(lia)).
  lia.
Qed.

Lemma memory_used_within_total_witness :
  exists total_phys_mb avail_phys_mb memory_load,
    snd (Windows.get_memory_info Samples.windows_host []) =
      Ok (total_phys_mb, avail_phys_mb, memory_load) /\
    0 <= total_phys_mb - avail_phys_mb <= total_phys_mb.
Proof.
  apply (memory_used_within_total Samples.windows_host
           {| vm_total := 17179869184; vm_available := 8589934592;
              vm_percent := float_of_decimal false 50 0 |});
    [reflexivity | cbn; lia].
Defined.

(** **** The report as a whole *)

Lemma quiet_bind {A B} (m : io event A) (k : A -> io event B) :
  keeps error_only m ->
  (forall a, quiet_failure (k a)) ->
  quiet_failure (io_bind m k).
Proof.
  intros Hm Hk tr ex Htr. unfold io_bind.
  specialize (Hm tr Htr).
  destruct (m tr) as [tr' [a | ex']]; cbn [fst snd] in *.
  - apply Hk. exact Hm.
  - intros _. exact Hm.
Qed.

Lemma quiet_of_never_raises {A} (m : io event A) :
  never_raises m -> quiet_failure m.
Proof.
  intros Hm tr ex _ Hr. destruct (Hm tr) as [a Ha].
  rewrite Ha in Hr. discriminate Hr.
Qed.

Lemma never_raises_ret {E A} (a : A) : never_raises (E:=E) (io_ret a).
Proof. intros tr. exists a. reflexivity. Qed.

Lemma never_raises_print s : never_raises (print s).
Proof. intros tr. exists tt. reflexivity. Qed.

Lemma never_raises_bind {E A B} (m : io E A) (k : A -> io E B) :
  never_raises m -> (forall a, never_raises (k a)) ->
  never_raises (io_bind m k).
Proof.
  intros Hm Hk tr. unfold io_bind.
  destruct (Hm tr) as [a Ha]. destruct (m tr) as [tr' r].
  cbn [snd] in Ha. subst r. apply Hk.
Qed.

Lemma never_raises_for_each {A} (l : list A) (body : A -> io event unit) :
  (forall x, never_raises (body x)) -> never_raises (for_each l body).
Proof.
  intros Hb. induction l as [| x l IH]; cbn [for_each].
  - apply never_raises_ret.
  - apply never_raises_bind; [apply Hb | intros _; exact IH].
Qed.

Lemma never_raises_print_drives (drives : list drive) :
  never_raises (match drives with
                | [] => print "  No drives found"
                | _ => for_each drives print_drive
                end).
Proof.
  destruct drives as [| d ds]; [apply never_raises_print |].
  apply never_raises_for_each. intros x. apply never_raises_print.
Qed.

Lemma error_only_called c : error_only (Called c).
Proof. exact I. Qed.

Lemma error_only_error s :
  startswith "Error " s = true -> error_only (Printed s).
Proof. intros H. exact H. Qed.

(** X18: the Windows report is printed at the end, all or nothing: a run of
    [main] that ends with exit status 1 has printed no line of the report,
    only error messages of the probes. *)
Theorem main_fails_before_reporting e :
  snd (run (main e)) = 1 ->
  Forall error_only (fst (run (main e))).
Proof.
  rewrite run_trace, run_status. intros Hstatus.
  destruct (snd (main e [])) as [[] | ex] eqn:Hr; [discriminate Hstatus |].
  assert (Hq : quiet_failure (main e)).
  { unfold main.
    assert (Hc := error_only_called). assert (He := error_only_error).
    apply quiet_bind;
      [apply keeps_get_windows_version; assumption | intros version].
    apply quiet_bind;
      [apply keeps_get_computer_name; assumption | intros name].
    apply quiet_bind;
      [apply keeps_get_username; assumption | intros user].
    apply quiet_bind;
      [apply keeps_get_processor_architecture; assumption | intros arch].
    apply quiet_bind;
      [apply keeps_get_memory_info; assumption
      | intros [[total avail] load]].
    apply quiet_bind;
      [apply keeps_get_pagefile_info; assumption
      | intros [pf_used pf_total]].
    apply quiet_bind;
      [apply keeps_get_processor_count; assumption | intros count].
    apply quiet_bind;
      [apply keeps_get_virtual_memory_size; assumption | intros vm].
    apply quiet_bind;
      [apply keeps_get_drives_info; assumption | intros drives].
    apply quiet_of_never_raises.
    repeat (apply never_raises_bind; [apply never_raises_print | intros _]).
    apply never_raises_print_drives. }
  exact (Hq [] ex (List.Forall_nil _) Hr).
Qed.

Lemma main_fails_before_reporting_witness :
  Forall error_only (fst (run (main Hosts.windows_crash))).
Proof.
  apply (main_fails_before_reporting Hosts.windows_crash).
  vm_compute; reflexivity.
Defined.

(** **** Tolerated failures *)

Lemma os_error_caught hs ex :
  In (Class OSError) hs ->
  is_subclass (exn_cls ex) OSError = true ->
  caught hs ex = true.
Proof.
  intros Hin Hex. unfold caught. apply existsb_exists.
  exists (Class OSError). split; [exact Hin | exact Hex].
Qed.

Lemma raises_os_ret {E A} (a : A) : raises_os_errors (E:=E) (io_ret a).
Proof. intros tr ex H. discriminate H. Qed.

Lemma raises_os_calling {A} c (r : result A) :
  tolerable r -> raises_os_errors (calling c r).
Proof.
  intros Hr tr ex. unfold calling, io_bind, emit, lift. cbn [snd].
  intros H. exact (Hr ex H).
Qed.

Lemma raises_os_bind {E A B} (m : io E A) (k : A -> io E B) :
  raises_os_errors m -> (forall a, raises_os_errors (k a)) ->
  raises_os_errors (io_bind m k).
Proof.
  intros Hm Hk tr ex. unfold io_bind.
  specialize (Hm tr). destruct (m tr) as [tr' [a | ex']]; cbn [snd] in *.
  - apply Hk.
  - intros H. injection H as <-. apply Hm. reflexivity.
Qed.

Lemma never_raises_try {E A} (body : io E A) hs (k : exn -> io E A) :
  raises_os_errors body ->
  In (Class OSError) hs ->
  (forall ex, never_raises (k ex)) ->
  never_raises (try_except body hs k).
Proof.
  intros Hb Hin Hk tr. unfold try_except.
  specialize (Hb tr). destruct (body tr) as [tr' [a | ex]]; cbn [snd] in *.
  - exists a. reflexivity.
  - rewrite (os_error_caught hs ex Hin (Hb ex eq_refl)). apply Hk.
Qed.

Lemma no_escape_of_tolerable e p :
  tolerable (disk_usage e (mountpoint p)) -> no_escape e p.
Proof.
  intros Ht ex (_ & Hu & Hc).
  rewrite (os_error_caught inner_handlers ex) in Hc;
    [discriminate Hc | left; reflexivity | exact (Ht ex Hu)].
Qed.

Lemma never_raises_get_drives_info e :
  tolerable (disk_partitions e) ->
  (forall m, tolerable (disk_usage e m)) ->
  never_raises (get_drives_info e).
Proof.
  intros Hp Hu tr.
  destruct (disk_partitions e) as [partitions | ex] eqn:Hparts.
  - exists (omap (drive_of e) partitions).
    assert (Hne : Forall (no_escape e) partitions).
    { apply List.Forall_forall. intros p _.
      apply no_escape_of_tolerable. apply Hu. }
    rewrite (get_drives_info_listed e partitions tr Hparts).
    destruct (drives_loop_no_escape e partitions Hne []
                (tr ++ [Called DiskPartitions])) as [Hs _].
    destruct (drives_loop e partitions [] (tr ++ [Called DiskPartitions]))
      as [tr' res]. cbn [snd] in Hs. subst res. reflexivity.
  - unfold get_drives_info, calling, io_bind, emit, lift. rewrite Hparts.
    fold outer_handlers.
    rewrite (os_error_caught outer_handlers ex);
      [| left; reflexivity | exact (Hp ex eq_refl)].
    eexists. reflexivity.
Qed.

Ltac tolerate :=
  repeat first
    [ apply raises_os_ret
    | apply raises_os_calling; assumption
    | apply raises_os_bind; [| intros ?]
    | apply never_raises_ret
    | apply never_raises_print
    | apply never_raises_bind; [| intros ?]
    | apply never_raises_try;
      [ | cbn; tauto | intros ? ] ].

(** X19: [main] of the Windows script survives every OSError: when each
    library call either answers or raises an OSError or one of its
    subclasses, the run ends with exit status 0. *)
Theorem main_tolerates_os_errors e :
  only_os_errors e -> snd (run (main e)) = 0.
Proof.
  intros (Hsys & Hver & Hrel & Hhost & Hlogin & Hmach & Hvm & Hsw
          & Hpc & Hoc & Hparts & Husage).
  rewrite run_status.
  assert (Hmain : never_raises (main e)).
  { unfold main.
    apply never_raises_bind; [| intros version].
    { unfold get_windows_version. tolerate.
      destruct (String.eqb _ _); tolerate.
      destruct (lookup_release _ _); tolerate. }
    apply never_raises_bind; [| intros name].
    { unfold get_computer_name. tolerate. }
    apply never_raises_bind; [| intros user].
    { unfold get_username. tolerate. }
    apply never_raises_bind; [| intros arch].
    { unfold get_processor_architecture. tolerate. }
    apply never_raises_bind; [| intros [[total avail] load]].
    { unfold Windows.get_memory_info. tolerate. }
    apply never_raises_bind; [| intros [pf_used pf_total]].
    { unfold get_pagefile_info. tolerate. }
    apply never_raises_bind; [| intros count].
    { unfold get_processor_count. tolerate. }
    apply never_raises_bind; [| intros vm].
    { unfold get_virtual_memory_size. tolerate. }
    apply never_raises_bind; [| intros drives].
    { apply never_raises_get_drives_info; assumption. }
    repeat (apply never_raises_bind; [apply never_raises_print | intros _]).
    apply never_raises_print_drives. }
  destruct (Hmain []) as [a ->]. reflexivity.
Qed.

Lemma main_tolerates_os_errors_witness :
  snd (run (main Samples.windows_broken_platform)) = 0.
Proof.
  apply (main_tolerates_os_errors Samples.windows_broken_platform).
  unfold only_os_errors.
  repeat match goal with |- _ /\ _ => split end;
    unfold tolerable; intros;
    match goal with
    | H : _ = Raise _ |- _ =>
      vm_compute in H; first [discriminate H | injection H as <-; reflexivity]
    end.
Defined.

(** **** A run on which every call answers *)

Lemma drives_loop_all_answer e partitions :
  Forall (fun p => skipped p = true \/
                   exists u, disk_usage e (mountpoint p) = Ok u)
         partitions ->
  forall drives tr,
    drives_loop e partitions drives tr =
    (tr ++ map (fun p => Called (DiskUsage (mountpoint p)))
             (List.filter (fun p => negb (skipped p)) partitions),
     Ok (drives ++ omap (drive_of e) partitions, None)).
Proof.
  induction 1 as [| p rest Hp _ IH]; intros drives tr.
  - cbn. rewrite !app_nil_r. reflexivity.
  - cbn [drives_loop omap list_omap List.filter]. unfold drive_of at 1.
    fold (skipped p). destruct (skipped p) eqn:Hskip; cbn [negb].
    + apply IH.
    + destruct Hp as [Hp | [u Hu]]; [discriminate Hp |].
      unfold calling, io_bind, emit, lift. rewrite Hu, IH.
      cbn [map]. rewrite <- !app_assoc. reflexivity.
Qed.

Lemma bind_answer {E A B} (m : io E A) (k : A -> io E B) tr tr' a :
  m tr = (tr', Ok a) -> io_bind m k tr = k a tr'.
Proof. intros H. unfold io_bind. rewrite H. reflexivity. Qed.

Lemma printing_print s : printing 1 (print s).
Proof. intros tr. exists [s]. split; reflexivity. Qed.

Lemma printing_bind a b (m k : io event unit) :
  printing a m -> printing b k -> printing (a + b) (m ;;; k).
Proof.
  intros Hm Hk tr. unfold io_bind.
  destruct (Hm tr) as (l1 & -> & H1).
  destruct (Hk (tr ++ map Printed l1)) as (l2 & -> & H2).
  exists (l1 ++ l2). split.
  - rewrite map_app, app_assoc. reflexivity.
  - rewrite length_app, H1, H2. reflexivity.
Qed.

Lemma printing_for_each (drives : list drive) :
  printing (length drives) (for_each drives print_drive).
Proof.
  induction drives as [| d ds IH]; cbn [for_each length].
  - intros tr. exists []. split; [cbn; rewrite app_nil_r |]; reflexivity.
  - apply (printing_bind 1 (length ds)); [apply printing_print | exact IH].
Qed.

Lemma printing_drives (drives : list drive) :
  printing (Nat.max 1 (length drives))
    (match drives with
     | [] => print "  No drives found"
     | _ => for_each drives print_drive
     end).
Proof.
  destruct drives as [| d ds]; [apply printing_print |].
  replace (Nat.max 1 (length (d :: ds))) with (length (d :: ds))
    by (cbn [length]; lia).
  apply printing_for_each.
Qed.

Lemma windows_version_answer e version release tr :
  platform_system e = Ok "Windows" ->
  platform_version e = Ok version ->
  platform_release e = Ok release ->
  get_windows_version e tr =
  (((tr ++ [Called PlatformSystem]) ++ [Called PlatformVersion]) ++
   [Called PlatformRelease],
   Ok (match lookup_release version_map release with
       | Some value => value
       | None => "Windows " +:+ release +:+ " (" +:+ version +:+ ")"
       end)).
Proof.
  intros Hsys Hver Hrel.
  unfold get_windows_version, try_except, calling, io_bind, emit, lift.
  rewrite Hsys. cbn -[lookup_release]. rewrite Hver, Hrel.
  destruct (lookup_release version_map release); reflexivity.
Qed.

(** X20: on a Windows host where every library call answers, [main] first
    makes its calls in a fixed order (system, version, release, host name,
    login, machine, virtual memory, swap, processor count, virtual memory
    and swap again, partitions, then one usage query for each partition not
    skipped) and only then prints: ten calls of [print] and one for each
    drive, or one when there is none.  The exit status is 0. *)
Theorem main_probes_then_report e partitions :
  all_calls_answer e ->
  disk_partitions e = Ok partitions ->
  exists lines,
    run (main e) =
      (map Called (probe_calls partitions) ++ map Printed lines, 0) /\
    length lines =
      (10 + Nat.max 1 (length (omap (drive_of e) partitions)))%nat.
Proof.
  intros (Hsys & [ver Hver] & [rel Hrel] & [host Hhost] & [login Hlogin]
          & [mach Hmach] & [vm Hvm] & [sw Hsw] & [pc Hpc]
          & (parts & Hparts & Hall)) Hp.
  rewrite Hparts in Hp. injection Hp as ->.
  unfold run, main.
  rewrite (bind_answer _ _ _ _ _
             (windows_version_answer e ver rel _ Hsys Hver Hrel)).
  erewrite bind_answer;
    [| unfold get_computer_name, try_except, calling, io_bind, emit, lift;
       rewrite Hhost; reflexivity].
  erewrite bind_answer;
    [| unfold get_username, try_except, calling, io_bind, emit, lift;
       rewrite Hlogin; reflexivity].
  erewrite bind_answer;
    [| unfold get_processor_architecture, try_except, calling, io_bind,
         emit, lift; rewrite Hmach; reflexivity].
  erewrite bind_answer;
    [| unfold Windows.get_memory_info, try_except, calling, io_bind,
         emit, lift; rewrite Hvm; reflexivity].
  cbv beta iota zeta.
  erewrite bind_answer;
    [| unfold get_pagefile_info, try_except, calling, io_bind, emit, lift;
       rewrite Hsw; reflexivity].
  cbv beta iota zeta.
  erewrite bind_answer;
    [| unfold get_processor_count, try_except, calling, io_bind, emit, lift;
       rewrite Hpc; reflexivity].
  erewrite bind_answer;
    [| unfold get_virtual_memory_size, try_except, calling, io_bind,
         emit, lift; rewrite Hvm, Hsw; reflexivity].
  erewrite bind_answer;
    [| rewrite (get_drives_info_listed e partitions _ Hparts),
         (drives_loop_all_answer e partitions Hall); reflexivity].
  match goal with
  | |- exists lines, match ?m ?tr with _ => _ end = _ /\ _ =>
    assert (Hrep : printing
                     (10 + Nat.max 1 (length (omap (drive_of e) partitions)))
                     m);
      [| destruct (Hrep tr) as (lines & -> & Hlen)]
  end.
  { repeat (apply (printing_bind 1); [apply printing_print |]).
    apply printing_drives. }
  exists lines. split; [| exact Hlen].
  f_equal. f_equal. unfold probe_calls. rewrite map_app, map_map.
  cbn [map app]. repeat (rewrite <- app_assoc; cbn [app]). reflexivity.
Qed.

Lemma main_probes_then_report_witness :
  exists lines,
    run (main Hosts.windows_two_drives) =
      (map Called
           (probe_calls [Hosts.partition_c; Hosts.partition_d;
                         Hosts.partition_e]) ++ map Printed lines, 0) /\
    length lines =
      (10 + Nat.max 1
              (length (omap (drive_of Hosts.windows_two_drives)
                         [Hosts.partition_c; Hosts.partition_d;
                          Hosts.partition_e])))%nat.
Proof.
  apply (main_probes_then_report Hosts.windows_two_drives);
    [| reflexivity].
  unfold all_calls_answer.
  repeat match goal with
         | |- _ /\ _ => split
         | |- exists _, _ = _ => eexists; reflexivity
         end; try reflexivity.
  eexists. split; [reflexivity |].
  apply List.Forall_cons; [apply or_intror; eexists; reflexivity |].
  apply List.Forall_cons; [apply or_introl; reflexivity |].
  apply List.Forall_cons; [apply or_intror; eexists; reflexivity |].
  apply List.Forall_nil.
Defined.

End WindowsMore.
